(** * SQL Server growth simulator: period clock, growth model and state store

    A shallow embedding of [growth_utils.py] and of the parts of
    [growth_simulator.py] that feed it.

    Modelling conventions.
    - Python [int] is [Z]. Python [float] is modelled by exact rationals [Q]:
      the binary64 rounding of products and sums is not represented, [int(x)]
      is truncation toward zero, [round(x, 3)] is rounding half-to-even at the
      third decimal.
    - A naive [datetime] is the number of microseconds elapsed since
      0001-01-01T00:00:00 in the proleptic Gregorian calendar, within Python's
      range (years 1 to 9999). Time-zone aware values do not occur: the
      simulator only ever writes [isoformat()] of naive values.
    - The [random] module is an explicit source of raw draws threaded through
      the code: each call of [random.random], [random.uniform],
      [random.randint] and [random.choice] consumes one raw draw.
    - Exceptions are explicit: fallible code returns [result]. *)

From Stdlib Require Import ZArith List String Ascii Bool Lia QArith Qround Lqa.
From Stdlib Require Import Sorting.Sorted Permutation.
Import ListNotations.

Local Open Scope Z_scope.


(** ** Exceptions *)

Inductive exn : Type :=
| TypeError
| ValueError
| KeyError
| OverflowError
| OSError.

Inductive result (A : Type) : Type :=
| Ok (a : A)
| Raise (e : exn).

Arguments Ok {A} a.
Arguments Raise {A} e.

Definition bind {A B : Type} (r : result A) (k : A -> result B) : result B :=
  match r with
  | Ok a => k a
  | Raise e => Raise e
  end.

Notation "x <-! r ;; k" := (bind r (fun x => k))
  (at level 61, r at next level, right associativity).

(** ** The proleptic Gregorian calendar of [datetime] *)

Module Calendar.

Definition MINYEAR : Z := 1.
Definition MAXYEAR : Z := 9999.

Definition is_leap (year : Z) : bool :=
  (year mod 4 =? 0) && (negb (year mod 100 =? 0) || (year mod 400 =? 0)).

Definition days_before_year (year : Z) : Z :=
  let y := year - 1 in
  y * 365 + y / 4 - y / 100 + y / 400.

Definition DAYS_IN_MONTH (month : Z) : Z :=
  match month with
  | 1 => 31 | 2 => 28 | 3 => 31 | 4 => 30 | 5 => 31 | 6 => 30
  | 7 => 31 | 8 => 31 | 9 => 30 | 10 => 31 | 11 => 30 | 12 => 31
  | _ => -1
  end.

Definition DAYS_BEFORE_MONTH (month : Z) : Z :=
  match month with
  | 1 => 0 | 2 => 31 | 3 => 59 | 4 => 90 | 5 => 120 | 6 => 151
  | 7 => 181 | 8 => 212 | 9 => 243 | 10 => 273 | 11 => 304 | 12 => 334
  | _ => -1
  end.

Definition days_in_month (year month : Z) : Z :=
  if (month =? 2) && is_leap year then 29 else DAYS_IN_MONTH month.

Definition days_before_month (year month : Z) : Z :=
  DAYS_BEFORE_MONTH month + (if (2 <? month) && is_leap year then 1 else 0).

Definition ymd2ord (year month day : Z) : Z :=
  days_before_year year + days_before_month year month + day.

Definition DI400Y : Z := 146097.
Definition DI100Y : Z := 36524.
Definition DI4Y : Z := 1461.

Definition ord2ymd (ordinal : Z) : Z * Z * Z :=
  let n := ordinal - 1 in
  let n400 := n / DI400Y in
  let n := n mod DI400Y in
  let year := n400 * 400 + 1 in
  let n100 := n / DI100Y in
  let n := n mod DI100Y in
  let n4 := n / DI4Y in
  let n := n mod DI4Y in
  let n1 := n / 365 in
  let n := n mod 365 in
  let year := year + n100 * 100 + n4 * 4 + n1 in
  if (n1 =? 4) || (n100 =? 4) then (year - 1, 12, 31)
  else
    let leapyear := (n1 =? 3) && (negb (n4 =? 24) || (n100 =? 3)) in
    let month := Z.shiftr (n + 50) 5 in
    let preceding :=
      DAYS_BEFORE_MONTH month + (if (2 <? month) && leapyear then 1 else 0) in
    if n <? preceding then
      let month := month - 1 in
      let preceding :=
        preceding - (DAYS_IN_MONTH month
                     + (if (month =? 2) && leapyear then 1 else 0)) in
      (year, month, n - preceding + 1)
    else (year, month, n - preceding + 1).

(** Ordinal of 9999-12-31, the last representable day. *)
Definition MAXORDINAL : Z := 3652059.

Definition valid_date (year month day : Z) : bool :=
  (MINYEAR <=? year) && (year <=? MAXYEAR)
  && (1 <=? month) && (month <=? 12)
  && (1 <=? day) && (day <=? days_in_month year month).

(** [f] holds on the [n] integers from [start] on. *)
Fixpoint all_from (f : Z -> bool) (start : Z) (n : nat) : bool :=
  match n with
  | O => true
  | S n' => if f start then all_from f (start + 1) n' else false
  end.

(** What [ord2ymd] must satisfy on one ordinal of the first 400 years: a
    valid date of the years 1 to 400 whose ordinal is the argument. *)
Definition cycle_ok (n : Z) : bool :=
  let '(y, m, d) := ord2ymd n in
  (1 <=? y) && (y <=? 400) && ((145731 <? n) || (y <=? 399))
  && (1 <=? m) && (m <=? 12) && (1 <=? d) && (d <=? days_in_month y m)
  && (ymd2ord y m d =? n).

End Calendar.

(** ** Naive datetimes *)

Module Datetime.

Import Calendar.

Definition US_PER_SECOND : Z := 1000000.
Definition US_PER_MINUTE : Z := 60 * US_PER_SECOND.
Definition US_PER_HOUR : Z := 3600 * US_PER_SECOND.
Definition US_PER_DAY : Z := 86400 * US_PER_SECOND.

(** Microseconds since 0001-01-01T00:00:00. *)
Record datetime : Type := DT { micros : Z }.

(** One past the last representable instant, 9999-12-31T23:59:59.999999. *)
Definition MAX_MICROS : Z := MAXORDINAL * US_PER_DAY.

Definition in_range (us : Z) : bool := (0 <=? us) && (us <? MAX_MICROS).

Definition valid (d : datetime) : Prop := 0 <= micros d < MAX_MICROS.

(** [timedelta] is a signed number of microseconds. *)
Definition timedelta : Type := Z.

Definition days (n : Z) : timedelta := n * US_PER_DAY.
Definition hours (n : Z) : timedelta := n * US_PER_HOUR.

(** [datetime(year, month, day, hour, minute, second, microsecond)] on
    arguments already checked to be in range. *)
Definition make (year month day hour minute second microsecond : Z) : datetime :=
  DT ((ymd2ord year month day - 1) * US_PER_DAY
      + hour * US_PER_HOUR + minute * US_PER_MINUTE
      + second * US_PER_SECOND + microsecond).

Definition toordinal (d : datetime) : Z := micros d / US_PER_DAY + 1.
Definition time_of_day (d : datetime) : Z := micros d mod US_PER_DAY.

Definition hour (d : datetime) : Z := time_of_day d / US_PER_HOUR.
Definition minute (d : datetime) : Z := (time_of_day d / US_PER_MINUTE) mod 60.
Definition second (d : datetime) : Z := (time_of_day d / US_PER_SECOND) mod 60.
Definition microsecond (d : datetime) : Z := micros d mod US_PER_SECOND.

Definition year (d : datetime) : Z := fst (fst (ord2ymd (toordinal d))).
Definition month (d : datetime) : Z := snd (fst (ord2ymd (toordinal d))).
Definition day (d : datetime) : Z := snd (ord2ymd (toordinal d)).

(** [d.replace(hour=h)] for [0 <= h < 24]: every other field is kept. *)
Definition replace_hour (d : datetime) (h : Z) : datetime :=
  DT (micros d - hour d * US_PER_HOUR + h * US_PER_HOUR).

(** [d + delta]: [OverflowError] outside years 1..9999. *)
Definition add (d : datetime) (delta : timedelta) : result datetime :=
  let us := micros d + delta in
  if in_range us then Ok (DT us) else Raise OverflowError.

(** [a - b] *)
Definition sub (a b : datetime) : timedelta := micros a - micros b.

Definition ltb (a b : datetime) : bool := micros a <? micros b.
Definition leb (a b : datetime) : bool := micros a <=? micros b.

(** *** ISO 8601 text *)

Definition ascii_of_digit (d : Z) : ascii := ascii_of_nat (Z.to_nat (48 + d)).

Definition digit_of_ascii (c : ascii) : option Z :=
  let n := Z.of_nat (nat_of_ascii c) in
  if (48 <=? n) && (n <=? 57) then Some (n - 48) else None.

(** [n] in decimal on exactly [w] digits, zero padded. *)
Fixpoint pad (w : nat) (n : Z) : list ascii :=
  match w with
  | O => []
  | S w' => pad w' (n / 10) ++ [ascii_of_digit (n mod 10)]
  end.

(** Reads exactly [w] decimal digits. *)
Fixpoint take_num (w : nat) (acc : Z) (cs : list ascii) : option (Z * list ascii) :=
  match w with
  | O => Some (acc, cs)
  | S w' =>
      match cs with
      | c :: cs' =>
          match digit_of_ascii c with
          | Some d => take_num w' (acc * 10 + d) cs'
          | None => None
          end
      | [] => None
      end
  end.

Definition expect (c : ascii) (cs : list ascii) : option (list ascii) :=
  match cs with
  | c' :: cs' => if Ascii.eqb c c' then Some cs' else None
  | [] => None
  end.

Definition isoformat_chars (d : datetime) : list ascii :=
  pad 4 (year d) ++ ["-"%char] ++ pad 2 (month d) ++ ["-"%char] ++ pad 2 (day d)
  ++ ["T"%char] ++ pad 2 (hour d) ++ [":"%char] ++ pad 2 (minute d)
  ++ [":"%char] ++ pad 2 (second d)
  ++ (if microsecond d =? 0 then [] else ["."%char] ++ pad 6 (microsecond d)).

(** [d.isoformat()]: [YYYY-MM-DDTHH:MM:SS], followed by [.ffffff] when the
    microsecond field is not zero. *)
Definition isoformat (d : datetime) : string :=
  string_of_list_ascii (isoformat_chars d).

Definition obind {A B : Type} (m : option A) (k : A -> option B) : option B :=
  match m with
  | Some a => k a
  | None => None
  end.

(** The optional fraction of a second: nothing, or a dot and six digits. *)
Definition parse_fraction (cs : list ascii) : option Z :=
  match cs with
  | [] => Some 0
  | _ =>
      obind (expect "."%char cs) (fun cs =>
      obind (take_num 6 0 cs) (fun r =>
      match snd r with
      | [] => Some (fst r)
      | _ => None
      end))
  end.

Definition parse_chars (cs : list ascii) : option datetime :=
  obind (take_num 4 0 cs) (fun r => let (y, cs) := r : Z * list ascii in
  obind (expect "-"%char cs) (fun cs =>
  obind (take_num 2 0 cs) (fun r => let (m, cs) := r : Z * list ascii in
  obind (expect "-"%char cs) (fun cs =>
  obind (take_num 2 0 cs) (fun r => let (dd, cs) := r : Z * list ascii in
  obind (expect "T"%char cs) (fun cs =>
  obind (take_num 2 0 cs) (fun r => let (hh, cs) := r : Z * list ascii in
  obind (expect ":"%char cs) (fun cs =>
  obind (take_num 2 0 cs) (fun r => let (mi, cs) := r : Z * list ascii in
  obind (expect ":"%char cs) (fun cs =>
  obind (take_num 2 0 cs) (fun r => let (ss, cs) := r : Z * list ascii in
  obind (parse_fraction cs) (fun us =>
  if valid_date y m dd && (hh <? 24) && (mi <? 60) && (ss <? 60)
  then Some (make y m dd hh mi ss us) else None)))))))))))).

(** [datetime.fromisoformat(s)], modelled on the texts [isoformat] writes
    for naive values, where it is the inverse of [isoformat].  The model
    answers [ValueError] on every other text; Python does so on most, but
    also reads some of them (a date alone, another separator, time zone
    offsets), so what is proved of a text that does not parse is proved for
    the texts Python rejects as well. *)
Definition fromisoformat (s : string) : result datetime :=
  match parse_chars (list_ascii_of_string s) with
  | Some d => Ok d
  | None => Raise ValueError
  end.

End Datetime.

(** ** Dictionaries with [str] keys, in insertion order *)

Module Dict.

Fixpoint lookup {A : Type} (key : string) (items : list (string * A)) : option A :=
  match items with
  | [] => None
  | (k, v) :: rest => if String.eqb key k then Some v else lookup key rest
  end.

(** [d[key] = v]: the value of an existing key is replaced in place, a new
    key goes last. *)
Fixpoint set {A : Type} (key : string) (v : A) (items : list (string * A))
  : list (string * A) :=
  match items with
  | [] => [(key, v)]
  | (k, x) :: rest =>
      if String.eqb key k then (k, v) :: rest else (k, x) :: set key v rest
  end.

End Dict.

(** ** JSON values, as [json.load] builds them *)

#[local] Set Warnings "-register-all".

Inductive json : Type :=
| JNull
| JBool (b : bool)
| JNum (q : Q)
| JStr (s : string)
| JList (l : list json)
| JDict (items : list (string * json)).

Module Py.

(** Truth value of a Python object. *)
Definition truthy (v : json) : bool :=
  match v with
  | JNull => false
  | JBool b => b
  | JNum q => negb (Qeq_bool q 0)
  | JStr s => negb (String.eqb s EmptyString)
  | JList l => match l with [] => false | _ => true end
  | JDict items => match items with [] => false | _ => true end
  end.

Fixpoint is_prefix (p s : string) : bool :=
  match p, s with
  | EmptyString, _ => true
  | String a p', String b s' => Ascii.eqb a b && is_prefix p' s'
  | String _ _, EmptyString => false
  end.

(** [p in s] on two [str]. *)
Fixpoint contains (p s : string) : bool :=
  is_prefix p s
  || match s with
     | EmptyString => false
     | String _ s' => contains p s'
     end.

Definition is_str (key : string) (v : json) : bool :=
  match v with
  | JStr s => String.eqb key s
  | _ => false
  end.

(** [key in v] for a [str] key: key membership on a dict, substring on a
    [str], element membership on a list, [TypeError] on anything else. *)
Definition contains_key (key : string) (v : json) : result bool :=
  match v with
  | JDict items => Ok (match Dict.lookup key items with Some _ => true | None => false end)
  | JStr s => Ok (contains key s)
  | JList l => Ok (existsb (is_str key) l)
  | JNull | JBool _ | JNum _ => Raise TypeError
  end.

(** [v[key]] for a [str] key. *)
Definition subscript (v : json) (key : string) : result json :=
  match v with
  | JDict items =>
      match Dict.lookup key items with
      | Some x => Ok x
      | None => Raise KeyError
      end
  | _ => Raise TypeError
  end.

(** [del d[key]] on a dict that has the key. *)
Fixpoint del (key : string) (items : list (string * json)) : list (string * json) :=
  match items with
  | [] => []
  | (k, v) :: rest => if String.eqb key k then del key rest else (k, v) :: del key rest
  end.

End Py.

(** ** Period clock *)

(** The dictionary returned by [calculate_next_simulation_period]. *)
Record period : Type := Period {
  period_start : string;
  period_end : string;
  period_type : string
}.

Module Clock.

Import Datetime.

Definition start_date : datetime := make 2025 5 1 6 0 0 0.

(** [datetime.fromisoformat] applied to an arbitrary object. *)
Definition fromisoformat_any (v : json) : result datetime :=
  match v with
  | JStr s => fromisoformat s
  | _ => Raise TypeError
  end.

(** The body of the [try] of one loop iteration: the new value of
    [latest_period_end]. *)
Definition try_update (last_period : json) (latest : option datetime)
  : result (option datetime) :=
  v <-! Py.subscript last_period "period_end"%string ;;
  pe <-! fromisoformat_any v ;;
  match latest with
  | None => Ok (Some pe)
  | Some l => if ltb l pe then Ok (Some pe) else Ok latest
  end.

(** One iteration of the loop over [server_state.items()]. *)
Definition scan_entry (db_state : json) (latest : option datetime)
  : result (option datetime) :=
  match db_state with
  | JDict fields =>
      match Dict.lookup "last_period"%string fields with
      | Some last_period =>
          if Py.truthy last_period then
            has <-! Py.contains_key "period_end"%string last_period ;;
            if (has : bool) then
              match try_update last_period latest with
              | Ok latest' => Ok latest'
              | Raise ValueError | Raise TypeError => Ok latest
              | Raise e => Raise e
              end
            else Ok latest
          else Ok latest
      | None => Ok latest
      end
  | _ => Ok latest
  end.

Fixpoint scan (items : list (string * json)) (latest : option datetime)
  : result (option datetime) :=
  match items with
  | [] => Ok latest
  | (_, db_state) :: rest =>
      latest' <-! scan_entry db_state latest ;;
      scan rest latest'
  end.

(** Lines 28 to 40: the latest [period_end] recorded in the state, [None]
    standing for Python's [None] state as well as for no state at all. *)
Definition latest_period_end (server_state : option (list (string * json)))
  : result (option datetime) :=
  match server_state with
  | None | Some [] => Ok None
  | Some items => scan items None
  end.

(** Lines 42 to 55 on datetimes. *)
Definition next_window (latest : option datetime)
  : result (datetime * datetime * string) :=
  match latest with
  | Some l =>
      if hour l =? 6 then Ok (l, replace_hour l 18, "day"%string)
      else
        next <-! add l (days 1) ;;
        Ok (l, replace_hour next 6, "night"%string)
  | None => Ok (start_date, replace_hour start_date 18, "day"%string)
  end.

Definition render (w : datetime * datetime * string) : period :=
  let '(s, e, t) := w in
  Period (isoformat s) (isoformat e) t.

Definition calculate_next_simulation_period
  (server_state : option (list (string * json))) : result period :=
  latest <-! latest_period_end server_state ;;
  w <-! next_window latest ;;
  Ok (render w).

(** *** The entries of a state, as the claims speak of them *)

(** The parseable [last_period.period_end] of an entity, if it has one. *)
Definition recorded_period_end (db_state : json) : option datetime :=
  match db_state with
  | JDict fields =>
      match Dict.lookup "last_period"%string fields with
      | Some (JDict last_period) =>
          match Dict.lookup "period_end"%string last_period with
          | Some (JStr s) =>
              match fromisoformat s with
              | Ok d => Some d
              | Raise _ => None
              end
          | _ => None
          end
      | _ => None
      end
  | _ => None
  end.

(** The entity's [last_period] is [true] or a number other than zero. *)
Definition scalar_last_period (db_state : json) : bool :=
  match db_state with
  | JDict fields =>
      match Dict.lookup "last_period"%string fields with
      | Some (JBool b) => b
      | Some (JNum q) => negb (Qeq_bool q 0)
      | _ => false
      end
  | _ => false
  end.

(** The later of the latest value so far and one more recorded value. *)
Definition later (latest found : option datetime) : option datetime :=
  match found, latest with
  | None, _ => latest
  | Some pe, None => Some pe
  | Some pe, Some l => if ltb l pe then Some pe else Some l
  end.

Fixpoint latest_recorded (items : list (string * json))
    (latest : option datetime) : option datetime :=
  match items with
  | [] => latest
  | (_, db_state) :: rest =>
      latest_recorded rest (later latest (recorded_period_end db_state))
  end.

Definition opt_valid (o : option datetime) : Prop :=
  match o with
  | Some d => valid d
  | None => True
  end.

(** No entity of the state has a scalar [last_period]. *)
Definition no_scalar (items : list (string * json)) : Prop :=
  Forall (fun e => scalar_last_period (snd e) = false) items.

(** 06:00:00 of the calendar day that follows the day of [d]. *)
Definition next_day_0600 (d : datetime) : datetime :=
  DT (toordinal d * US_PER_DAY + 6 * US_PER_HOUR).

(** An entity whose last period ended at [s]. *)
Definition entity_ended (s : string) : json :=
  JDict [("last_period"%string, JDict [("period_end"%string, JStr s)])].

End Clock.

(** ** Numbers *)

Module Num.

Local Open Scope Q_scope.

(** [int(x)] on a float: truncation toward zero. *)
Definition py_int (x : Q) : Z := Z.quot (Qnum x) (Zpos (Qden x)).

(** Rounding to the nearest integer, ties to even. *)
Definition round_half_even (x : Q) : Z :=
  let f := Qfloor x in
  match Qcompare (x - inject_Z f) (1 # 2) with
  | Lt => f
  | Gt => (f + 1)%Z
  | Eq => if Z.even f then f else (f + 1)%Z
  end.

(** [round(x, 3)] *)
Definition round3 (x : Q) : Q := inject_Z (round_half_even (x * 1000)) / 1000.

Definition Qltb (a b : Q) : bool :=
  match Qcompare a b with Lt => true | _ => false end.

End Num.

(** ** The random source *)

Module Random.

Local Open Scope Q_scope.

(** The raw draws still to come, and how many were consumed. *)
Record rng : Type := Rng { src : nat -> Z; pos : nat }.

(** A computation that draws random numbers. *)
Definition Rand (A : Type) : Type := rng -> A * rng.

Definition ret {A : Type} (a : A) : Rand A := fun g => (a, g).

Definition bindR {A B : Type} (m : Rand A) (k : A -> Rand B) : Rand B :=
  fun g => let (a, g') := m g in k a g'.

Definition next : Rand Z :=
  fun g => (src g (pos g), Rng (src g) (S (pos g))).

(** [random.random()]: one of the 2^53 equally spaced values of [0, 1). *)
Definition random : Rand Q :=
  bindR next (fun k => ret ((k mod 2 ^ 53)%Z # 2 ^ 53)).

(** [random.uniform(a, b)], computed as [a + (b - a) * random()]. *)
Definition uniform (a b : Q) : Rand Q :=
  bindR random (fun r => ret (a + (b - a) * r)).

(** [random.randint(a, b)] for [a <= b]. *)
Definition randint (a b : Z) : Rand Z :=
  bindR next (fun k => ret (a + k mod (b - a + 1))%Z).

(** [random.choice(seq)] on a non-empty sequence, [seq[0]] being [x]. *)
Definition choice {A : Type} (x : A) (xs : list A) : Rand A :=
  bindR next (fun k =>
    ret (List.nth (Z.to_nat (k mod Z.of_nat (List.length (x :: xs)))) (x :: xs) x)).

End Random.

Notation "x <- m ;; k" := (Random.bindR m (fun x => k))
  (at level 61, m at next level, right associativity).

(** ** Growth model *)

(** The state of one table. *)
Record table_state : Type := TableState {
  rows : Z;
  daily_growth : Z;
  avg_row_bytes : Z;
  has_cleanup : option bool
}.

Record cleanup_history : Type := CleanupHistory {
  last_cleanup_success : bool;
  failed_cleanups : Z;
  cleanup_schedule : string * string;
  periods_since_cleanup : Z
}.

(** The state of one database; an absent key is [None]. *)
Record db_state : Type := DbState {
  current_size_gb : option Q;
  growth_pattern : option string;
  server_type_key : option string;
  cumulative_reads : option Z;
  cumulative_writes : option Z;
  tables : list (string * table_state);
  table_cleanup_history : option (list (string * cleanup_history))
}.

Definition get {A : Type} (field : option A) (default : A) : A :=
  match field with
  | Some a => a
  | None => default
  end.

Record io_baselines : Type := IoBaselines {
  reads_per_second_baseline : Q;
  writes_per_second_baseline : Q
}.

Record io_data : Type := IoData {
  reads : Z;
  writes : Z;
  read_gb : Q;
  write_gb : Q;
  io_cumulative_reads : Z;
  io_cumulative_writes : Z
}.

Record size_data : Type := SizeData {
  total_gb : Q;
  data_file_gb : Q;
  log_file_gb : Q;
  file_count : Z
}.

Module Growth.

Import Random Num.
Local Open Scope Q_scope.

(** The day and night multipliers of reads and writes per second. *)
Definition io_multipliers (period_type server_type : string) : Q * Q :=
  if String.eqb period_type "day" then
    if String.eqb server_type "oltp_production" then (28 # 10, 28 # 10)
    else if String.eqb server_type "reporting_analytics" then (8 # 10, 8 # 10)
    else (3, 12 # 10)
  else
    if String.eqb server_type "oltp_production" then (4 # 10, 4 # 10)
    else if String.eqb server_type "reporting_analytics" then (5 # 10, 4)
    else (8 # 10, 8 # 10).

Definition with_cumulative (s : db_state) (r w : Z) : db_state :=
  DbState (current_size_gb s) (growth_pattern s) (server_type_key s)
          (Some r) (Some w) (tables s) (table_cleanup_history s).

Definition generate_raw_io_data (s : db_state) (baseline : io_baselines)
    (p : period) (server_type : string) : Rand (io_data * db_state) :=
  let (mr, mw) := io_multipliers (period_type p) server_type in
  let reads_per_sec := reads_per_second_baseline baseline * mr in
  let writes_per_sec := writes_per_second_baseline baseline * mw in
  let total_seconds := (12 * 3600)%Z in
  u1 <- uniform (85 # 100) (115 # 100) ;;
  let reads := py_int (reads_per_sec * inject_Z total_seconds * u1) in
  u2 <- uniform (85 # 100) (115 # 100) ;;
  let writes := py_int (writes_per_sec * inject_Z total_seconds * u2) in
  let read_gb := round3 (inject_Z (reads * 8192) / inject_Z (1024 ^ 3)) in
  let write_gb := round3 (inject_Z (writes * 8192) / inject_Z (1024 ^ 3)) in
  let cr := (get (cumulative_reads s) 0 + reads)%Z in
  let cw := (get (cumulative_writes s) 0 + writes)%Z in
  ret (IoData reads writes read_gb write_gb cr cw, with_cumulative s cr cw).

(** One invocation of [generate_raw_io_data] per element, each on the state
    the previous one left, as over the successive runs of one entity. *)
Fixpoint io_runs (calls : list (io_baselines * period * string))
    (s : db_state) : Rand (list io_data * db_state) :=
  match calls with
  | [] => ret ([], s)
  | (baseline, p, server_type) :: rest =>
      r <- generate_raw_io_data s baseline p server_type ;;
      let '(io, s) := r in
      r' <- io_runs rest s ;;
      let '(ios, s) := r' in
      ret (io :: ios, s)
  end.

(** The configured baselines of an invocation are non-negative. *)
Definition nonneg_baselines (call : io_baselines * period * string) : Prop :=
  0 <= reads_per_second_baseline (fst (fst call))
  /\ 0 <= writes_per_second_baseline (fst (fst call)).

(** The size delta of one period, before the variance factor. *)
Definition pattern_growth (growth_pattern period_type : string) : Rand Q :=
  if String.eqb growth_pattern "stable" then uniform (-(1 # 2)) (1 # 2)
  else if String.eqb growth_pattern "no_retention" then uniform (1 # 2) 2
  else if String.eqb growth_pattern "growing_fast" then uniform 2 5
  else if String.eqb growth_pattern "broken_cleanup" then
    r <- random ;;
    if Qltb r (8 # 10) then uniform 1 3 else uniform (-1) (1 # 2)
  else if String.eqb growth_pattern "archive_failure" then
    if String.eqb period_type "night" then uniform 5 15 else uniform (1 # 2) 2
  else if String.eqb growth_pattern "etl_cycle" then
    if String.eqb period_type "night" then
      r <- random ;;
      if Qltb r (3 # 10) then uniform 5 10
      else
        r' <- random ;;
        if Qltb r' (2 # 10) then uniform (-8) (-3) else uniform (-(1 # 2)) (1 # 2)
    else
      r' <- random ;;
      if Qltb r' (2 # 10) then uniform (-8) (-3) else uniform (-(1 # 2)) (1 # 2)
  else if String.eqb growth_pattern "static" then uniform (-(1 # 100)) (1 # 100)
  else uniform (-(1 # 2)) (1 # 2).

Definition data_ratio (server_type : string) : Q :=
  if String.eqb server_type "oltp_production" then 75 # 100
  else if String.eqb server_type "reporting_analytics" then 90 # 100
  else 95 # 100.

Definition Qmax (a b : Q) : Q := if Qltb a b then b else a.

Definition generate_raw_size_data (s : db_state) (p : period)
    (server_type : string) : Rand size_data :=
  let current_size := get (current_size_gb s) 50 in
  let growth_pattern := get (growth_pattern s) "stable"%string in
  growth <- pattern_growth growth_pattern (period_type p) ;;
  variance <- uniform (9 # 10) (11 # 10) ;;
  let growth := growth * variance in
  let new_size := current_size + growth in
  let min_size := if String.eqb server_type "reference_config" then 5 else 10 in
  let new_size := Qmax min_size new_size in
  let data_ratio := data_ratio server_type in
  ret (SizeData (round3 new_size)
                (round3 (new_size * data_ratio))
                (round3 (new_size * (1 - data_ratio)))
                (if Qltb new_size 50 then 2 else 4)).

End Growth.

(** ** Table rows and cleanup *)

Record table_data : Type := TableData {
  td_name : string;
  td_rows : Z;
  td_size_gb : Q;
  td_rows_added : Z;
  td_rows_deleted : Z;
  td_avg_row_bytes : Z;
  td_has_cleanup : bool;
  td_cleanup_occurred : bool
}.


Module Tables.

Import Random Num.
Local Open Scope Q_scope.

Definition lower_ascii (c : ascii) : ascii :=
  let n := nat_of_ascii c in
  if (Nat.leb 65 n && Nat.leb n 90)%bool then ascii_of_nat (n + 32) else c.

(** [s.lower()] on ASCII text. *)
Fixpoint lower (s : string) : string :=
  match s with
  | EmptyString => EmptyString
  | String c s' => String (lower_ascii c) (lower s')
  end.

Definition cleanup_probability (growth_pattern : string) : Q :=
  if String.eqb growth_pattern "broken_cleanup" then 2 # 10
  else if String.eqb growth_pattern "no_retention" then 5 # 100
  else if String.eqb growth_pattern "stable" then 7 # 10
  else 75 # 100.

(** The share of the current rows drawn from the table name; the value is
    overwritten by the policy that follows. *)
Definition base_cleanup_pct (table_name : string) : Rand Q :=
  if Py.contains "log" (lower table_name) || Py.contains "audit" (lower table_name)
  then uniform (20 # 100) (50 # 100)
  else if Py.contains "temp" (lower table_name)
          || Py.contains "staging" (lower table_name)
  then uniform (70 # 100) (95 # 100)
  else uniform (5 # 100) (25 # 100).

(** Lines 322 to 329: the ordered three-branch deletion policy. *)
Definition deletion_policy (period_growth : Z) : Rand Z :=
  r1 <- random ;;
  if Qltb r1 (15 # 100) then
    f <- uniform (12 # 10) 2 ;;
    ret (py_int (inject_Z period_growth * f))
  else
    r2 <- random ;;
    if Qltb r2 (10 # 100) then ret period_growth
    else
      f <- uniform (3 # 10) (9 # 10) ;;
      ret (py_int (inject_Z period_growth * f)).

(** The three branches of the policy, in their order, on the draws of [g]:
    what the candidate [cand] is in each. *)
Definition policy_branch (pg : Z) (g : rng) (cand : Z) : Prop :=
  let r1 := fst (random g) in
  let r2 := fst (random (snd (random g))) in
  (r1 < 15 # 100
   /\ (exists f, 12 # 10 <= f <= 2 /\ cand = py_int (inject_Z pg * f))
   /\ inject_Z cand <= 2 * inject_Z pg
   /\ (12 # 10) * inject_Z pg < inject_Z cand + 1)
  \/ (15 # 100 <= r1 /\ r2 < 10 # 100 /\ cand = pg)
  \/ (15 # 100 <= r1 /\ 10 # 100 <= r2
      /\ (exists f, 3 # 10 <= f <= 9 # 10 /\ cand = py_int (inject_Z pg * f))
      /\ inject_Z cand <= (9 # 10) * inject_Z pg
      /\ (3 # 10) * inject_Z pg < inject_Z cand + 1).

(** [int(current_rows * 0.5)] *)
Definition max_deletion (current_rows : Z) : Z :=
  py_int (inject_Z current_rows * (5 # 10)).

Definition calculate_realistic_cleanup (table_name : string) (ts : table_state)
    (history : cleanup_history) (period_growth : Z)
    (growth_pattern period_type : string) : Rand (bool * Z) :=
  let cleanup_probability := cleanup_probability growth_pattern in
  r <- random ;;
  if Qltb cleanup_probability r then ret (false, 0%Z)
  else
    let current_rows := rows ts in
    pct <- base_cleanup_pct table_name ;;
    let rows_to_delete := py_int (inject_Z current_rows * pct) in
    rows_to_delete <- deletion_policy period_growth ;;
    let rows_to_delete := Z.min rows_to_delete (max_deletion current_rows) in
    let rows_to_delete := Z.max 0 rows_to_delete in
    ret (true, rows_to_delete).

(** Lines 221 to 231: the rows added in the period. *)
Definition period_growth_of (ts : table_state) (server_type period_type : string)
  : Rand Z :=
  let period_growth := py_int (inject_Z (daily_growth ts) * (5 # 10)) in
  let period_growth :=
    if String.eqb server_type "oltp_production" then
      py_int (inject_Z period_growth
              * (if String.eqb period_type "day" then 15 # 10 else 3 # 10))
    else if String.eqb server_type "reporting_analytics" then
      py_int (inject_Z period_growth
              * (if String.eqb period_type "day" then 5 # 10 else 2))
    else period_growth in
  f <- uniform (7 # 10) (14 # 10) ;;
  ret (py_int (inject_Z period_growth * f)).

Definition with_rows (ts : table_state) (r : Z) : table_state :=
  TableState r (daily_growth ts) (avg_row_bytes ts) (has_cleanup ts).

(** One iteration of the loop of [generate_raw_table_data]. *)
Definition process_table (server_type period_type growth_pattern : string)
    (table_name : string) (ts : table_state)
    (histories : list (string * cleanup_history))
  : Rand (table_data * table_state * list (string * cleanup_history)) :=
  let histories :=
    match Dict.lookup table_name histories with
    | Some _ => histories
    | None =>
        Dict.set table_name
          (CleanupHistory true 0 (table_name, server_type) 0) histories
    end in
  let h := get (Dict.lookup table_name histories)
               (CleanupHistory true 0 (table_name, server_type) 0) in
  period_growth <- period_growth_of ts server_type period_type ;;
  let h := CleanupHistory (last_cleanup_success h) (failed_cleanups h)
             (cleanup_schedule h) (periods_since_cleanup h + 1) in
  res <-
    (if get (has_cleanup ts) false then
       res <- calculate_realistic_cleanup table_name ts h period_growth
                growth_pattern period_type ;;
       let '(cleanup_occurred, rows_deleted) := res in
       if (cleanup_occurred : bool) then
         ret (cleanup_occurred, rows_deleted,
              CleanupHistory (0 <? rows_deleted)%Z
                (if (0 <? rows_deleted)%Z then 0%Z else (failed_cleanups h + 1)%Z)
                (cleanup_schedule h) 0)
       else ret (cleanup_occurred, rows_deleted, h)
     else ret (false, 0%Z, h)) ;;
  let '(cleanup_occurred, rows_deleted, h) := res in
  let new_rows := Z.max 1000 (rows ts + period_growth - rows_deleted) in
  let size_gb :=
    round3 (inject_Z (new_rows * avg_row_bytes ts) / inject_Z (1024 ^ 3)) in
  ret (TableData table_name new_rows size_gb period_growth rows_deleted
         (avg_row_bytes ts) (get (has_cleanup ts) false) cleanup_occurred,
       with_rows ts new_rows,
       Dict.set table_name h histories).

Fixpoint process_tables (server_type period_type growth_pattern : string)
    (todo : list (string * table_state))
    (histories : list (string * cleanup_history))
  : Rand (list table_data * list (string * table_state)
          * list (string * cleanup_history)) :=
  match todo with
  | [] => ret ([], [], histories)
  | (table_name, ts) :: rest =>
      r <- process_table server_type period_type growth_pattern
             table_name ts histories ;;
      let '(td, ts', histories) := r in
      r' <- process_tables server_type period_type growth_pattern rest histories ;;
      let '(tds, tss, histories) := r' in
      ret (td :: tds, (table_name, ts') :: tss, histories)
  end.

Definition generate_raw_table_data (s : db_state) (server_type : string)
    (p : period) : Rand (list table_data * db_state) :=
  let pattern := get (growth_pattern s) "stable"%string in
  let histories := get (table_cleanup_history s) [] in
  r <- process_tables server_type (period_type p) pattern
         (tables s) histories ;;
  let '(tds, tss, histories) := r in
  ret (tds,
       DbState (current_size_gb s) (growth_pattern s) (server_type_key s)
         (cumulative_reads s) (cumulative_writes s) tss (Some histories)).

End Tables.

(** ** Autogrowth events *)

Record event : Type := Event {
  timestamp : string;
  file_type : string;
  previous_mb : Z;
  increment_mb : Z;
  new_mb : Z;
  duration_ms : Z;
  blocking : bool;
  io_wait_ms : Z;
  blocked_processes : Z
}.

Module Autogrowth.

Import Datetime Random Num.
Local Open Scope Q_scope.

(** A computation that draws random numbers and may raise. *)
Definition RandE (A : Type) : Type := rng -> result (A * rng).

(** [timedelta(seconds=x)] for a float [x]: the nearest microsecond. *)
Definition timedelta_of_seconds (x : Q) : timedelta :=
  round_half_even (x * inject_Z US_PER_SECOND).

(** [delta.total_seconds()] *)
Definition total_seconds (delta : timedelta) : Q :=
  inject_Z delta / inject_Z US_PER_SECOND.

Definition is_anomaly (server_num : Z) (database_name : string) : bool :=
  (server_num =? 2)%Z && String.eqb database_name "PrimaryStore_DB".

(** Lines 350 to 379: the number of events of the period. *)
Definition num_events_of (anomaly : bool) (s : db_state) (p : period) : Rand Z :=
  let pattern := get (growth_pattern s) "stable"%string in
  if anomaly then randint 180 250
  else if String.eqb pattern "growing_fast" || String.eqb pattern "no_retention"
          || String.eqb pattern "broken_cleanup" then randint 10 30
  else if String.eqb pattern "stable" then randint 0 5
  else if String.eqb pattern "archive_failure" then randint 5 20
  else if String.eqb pattern "etl_cycle" then
    if String.eqb (period_type p) "night" then randint 20 40 else randint 5 15
  else if String.eqb pattern "static" then randint 0 3
  else
    let server_type := get (server_type_key s) "oltp_production"%string in
    if String.eqb server_type "reference_config" then randint 0 5
    else if String.eqb server_type "reporting_analytics" then randint 15 30
    else randint 30 60.

Definition increment_of (anomaly : bool) (file_type : string) : Rand Z :=
  if anomaly then
    r <- random ;;
    if Qltb r (8 # 10) then choice 8%Z [16; 32]%Z else choice 64%Z [128]%Z
  else if String.eqb file_type "data" then choice 256%Z [512]%Z
  else choice 64%Z [128]%Z.

Definition duration_of (increment_mb : Z) : Rand Z :=
  if (increment_mb <=? 32)%Z then randint 100 500
  else if (increment_mb <=? 128)%Z then randint 300 1000
  else randint 800 2000.

(** The body of the loop of lines 386 to 430. *)
Definition make_event (anomaly : bool) (period_start : datetime)
    (span_seconds : Q) : RandE event :=
  fun g =>
    let (offset, g) := uniform 0 span_seconds g in
    match add period_start (timedelta_of_seconds offset) with
    | Raise e => Raise e
    | Ok event_time =>
        let (r, g) := random g in
        let file_type := if Qltb r (7 # 10) then "data"%string else "log"%string in
        let (increment_mb, g) := increment_of anomaly file_type g in
        let (previous_mb, g) :=
          (if String.eqb file_type "data" then randint 5000 20000
           else randint 500 2000) g in
        let (duration_ms, g) := duration_of increment_mb g in
        let (rb, g) := random g in
        let blocking := Qltb rb (7 # 10) in
        let (io_wait_ms, g) := randint 50 500 g in
        let (blocked_processes, g) :=
          (if blocking then randint 1 10 else ret 0%Z) g in
        Ok (Event (isoformat event_time) file_type previous_mb increment_mb
              (previous_mb + increment_mb)%Z duration_ms blocking io_wait_ms
              blocked_processes, g)
    end.

Fixpoint make_events (n : nat) (anomaly : bool) (period_start : datetime)
    (span_seconds : Q) : RandE (list event) :=
  fun g =>
    match n with
    | O => Ok ([], g)
    | S n' =>
        match make_event anomaly period_start span_seconds g with
        | Raise e => Raise e
        | Ok (ev, g) =>
            match make_events n' anomaly period_start span_seconds g with
            | Raise e => Raise e
            | Ok (evs, g) => Ok (ev :: evs, g)
            end
        end
    end.

(** Stable insertion by timestamp, in the order of [str] comparison. *)
Fixpoint insert (ev : event) (sorted : list event) : list event :=
  match sorted with
  | [] => [ev]
  | ev' :: rest =>
      if String.leb (timestamp ev) (timestamp ev') then ev :: ev' :: rest
      else ev' :: insert ev rest
  end.

(** [events.sort(key=lambda x: x['timestamp'])]: the stable sort. *)
Fixpoint sort (events : list event) : list event :=
  match events with
  | [] => []
  | ev :: rest => insert ev (sort rest)
  end.

Definition generate_raw_autogrowth_events (server_num : Z)
    (database_name : string) (s : db_state) (p : period) : RandE (list event) :=
  fun g =>
    let anomaly := is_anomaly server_num database_name in
    let (num_events, g) := num_events_of anomaly s p g in
    match fromisoformat (period_start p) with
    | Raise e => Raise e
    | Ok start =>
        match fromisoformat (period_end p) with
        | Raise e => Raise e
        | Ok end_ =>
            let span := total_seconds (sub end_ start) in
            match make_events (Z.to_nat num_events) anomaly start span g with
            | Raise e => Raise e
            | Ok (events, g) => Ok (sort events, g)
            end
        end
    end.

(** *** What the claims say of an event *)

(** The timestamp of the event parses to an instant of [lo, hi]. *)
Definition timestamp_between (lo hi : datetime) (ev : event) : Prop :=
  exists t, fromisoformat (timestamp ev) = Ok t
            /\ (micros lo <= micros t <= micros hi)%Z.

(** The timestamp of the event parses to an instant of [lo, hi). *)
Definition timestamp_before (lo hi : datetime) (ev : event) : Prop :=
  exists t, fromisoformat (timestamp ev) = Ok t
            /\ (micros lo <= micros t < micros hi)%Z.

Definition small_increment (ev : event) : Prop :=
  In (increment_mb ev) [8; 16; 32; 64; 128]%Z.

(** The order of the sort: [str] comparison of the timestamps. *)
Definition timestamp_le (a b : event) : Prop :=
  String.leb (timestamp a) (timestamp b) = true.

(** The timestamps of the two events parse to instants, the first not after
    the second. *)
Definition chronological (a b : event) : Prop :=
  exists ta tb, fromisoformat (timestamp a) = Ok ta
                /\ fromisoformat (timestamp b) = Ok tb
                /\ (micros ta <= micros tb)%Z.

End Autogrowth.

(** ** State store *)

Module Store.

(** What the file system answers at a path.  [Path.exists()] raises when
    the path cannot be examined, as with [PermissionError], an [OSError],
    under a directory that may not be searched; otherwise there is nothing
    at the path, or a file whose [open] followed by [json.load] gives a
    value or raises. *)
Definition filesystem : Type := string -> result (option (result json)).

Definition digit_string (n : nat) : string :=
  String (ascii_of_nat (48 + n)) EmptyString.

(** Decimal text of a natural number, most significant digit first. *)
Fixpoint nat_digits (fuel n : nat) (acc : string) : string :=
  match fuel with
  | O => acc
  | S fuel' =>
      let acc := String.append (digit_string (Nat.modulo n 10)) acc in
      if Nat.ltb n 10 then acc else nat_digits fuel' (Nat.div n 10) acc
  end.

(** [str(n)] for an [int]. *)
Definition str_of_int (n : Z) : string :=
  let m := Z.to_nat (Z.abs n) in
  String.append (if (n <? 0)%Z then "-"%string else EmptyString)
                (nat_digits (S m) m EmptyString).

Definition state_file (server_num : Z) : string :=
  String.append "Server"
    (String.append (str_of_int server_num) "/growth_data/server_state.json").

(** The body of the [try] of [load_server_state]. *)
Definition read_state (file : result json) : result json :=
  state <-! file ;;
  has <-! Py.contains_key "metadata" state ;;
  if (has : bool) then
    match state with
    | JDict items => Ok (JDict (Py.del "metadata" items))
    | _ => Raise TypeError
    end
  else Ok state.

(** [state_file.exists()] is evaluated before the [try] is entered: what
    it raises goes to the caller. *)
Definition load_server_state (fs : filesystem) (server_num : Z) : result json :=
  exists_ <-! fs (state_file server_num) ;;
  match exists_ with
  | Some file =>
      match read_state file with
      | Ok state => Ok state
      | Raise _ => Ok (JDict [])
      end
  | None => Ok (JDict [])
  end.

End Store.

(** ** What holds of the fields of an event *)

Module EventShape.

Local Open Scope Z_scope.

(** The fields of the event agree with each other: the file type is one of
    the two, the previous size is in the range of the file type, the new
    size is the previous one plus the increment, and the duration, the wait
    and the blocked processes are in their ranges. *)
Definition consistent (ev : event) : Prop :=
  (file_type ev = "data"%string /\ 5000 <= previous_mb ev <= 20000
   \/ file_type ev = "log"%string /\ 500 <= previous_mb ev <= 2000)
  /\ new_mb ev = previous_mb ev + increment_mb ev
  /\ 50 <= io_wait_ms ev <= 500
  /\ (if blocking ev then 1 <= blocked_processes ev <= 10
      else blocked_processes ev = 0)
  /\ (if increment_mb ev <=? 32 then 100 <= duration_ms ev <= 500
      else if increment_mb ev <=? 128 then 300 <= duration_ms ev <= 1000
      else 800 <= duration_ms ev <= 2000).

(** An event of an entity other than the anomaly: a data file grows by 256
    or 512 MB in 800 to 2000 ms, a log file by 64 or 128 MB in 300 to
    1000 ms. *)
Definition regular (ev : event) : Prop :=
  (file_type ev = "data"%string /\ In (increment_mb ev) [256; 512]
   /\ 800 <= duration_ms ev <= 2000)
  \/ (file_type ev = "log"%string /\ In (increment_mb ev) [64; 128]
      /\ 300 <= duration_ms ev <= 1000).

End EventShape.

(** ** Cleanup schedule of a table *)

Module Schedule.

Import Random Tables.

(** [any(keyword in s for keyword in keywords)] *)
Definition any_keyword (keywords : list string) (s : string) : bool :=
  existsb (fun keyword => Py.contains keyword s) keywords.

(** [_determine_cleanup_schedule]: the schedule is drawn from a list chosen
    by the keywords found in the lower-cased table name. *)
Definition determine_cleanup_schedule (table_name server_type : string)
  : Rand string :=
  let table_lower := lower table_name in
  if any_keyword ["log"; "audit"; "history"]%string table_lower then
    choice "daily"%string ["weekly"; "monthly"; "never"]%string
  else if any_keyword ["temp"; "staging"; "cache"]%string table_lower then
    choice "hourly"%string ["daily"]%string
  else if any_keyword ["transaction"; "order"; "payment"]%string table_lower
  then choice "weekly"%string ["monthly"; "quarterly"]%string
  else choice "weekly"%string ["monthly"; "never"]%string.

End Schedule.

(** ** Database names of a server type *)

Module Names.

(** [default_names] of [get_database_names_for_server_type]. *)
Definition default_names : list (string * json) :=
  [("oltp_production"%string,
    JList [JStr "PrimaryStore_DB"; JStr "CustomerCore_DB";
           JStr "OrderProcessing_DB"]);
   ("reporting_analytics"%string,
    JList [JStr "DataWarehouse_DB"; JStr "Analytics_DB"; JStr "Reporting_DB"]);
   ("reference_config"%string,
    JList [JStr "ReferenceData_DB"; JStr "ConfigStore_DB"])].

(** [[f'Database_{i+1}' for i in range(3)]] *)
Definition fallback_names : json :=
  JList [JStr "Database_1"; JStr "Database_2"; JStr "Database_3"].

(** [default_names.get(server_type, fallback)] *)
Definition default_for (server_type : string) : json :=
  match Dict.lookup server_type default_names with
  | Some names => names
  | None => fallback_names
  end.

Definition get_database_names_for_server_type (server_type : string)
    (configs : list (string * json)) : result json :=
  match Dict.lookup "database_names"%string configs with
  | Some database_names =>
      if Py.truthy database_names then
        has <-! Py.contains_key server_type database_names ;;
        if (has : bool) then Py.subscript database_names server_type
        else Ok (default_for server_type)
      else Ok (default_for server_type)
  | None => Ok (default_for server_type)
  end.

End Names.

(** ** Simulator: initial state and snapshot of a database *)

(** The state of one database as the simulator keeps it: the keys the
    generators read, and those only the simulator writes. *)
Record entity_state : Type := EntityState {
  es_database_name : string;
  es_core : db_state;
  es_data_file_gb : Q;
  es_log_file_gb : Q;
  es_last_period : option period
}.

Record snapshot : Type := Snapshot {
  snap_timestamp : string;
  snap_server_name : string;
  snap_server_number : Z;
  snap_server_type : string;
  snap_database_name : string;
  snap_period_start : string;
  snap_period_end : string;
  snap_period_type : string;
  snap_size : size_data;
  snap_io : io_data;
  snap_tables : list table_data
}.

Module Simulator.

Import Datetime Num Random Growth Tables Store.
Local Open Scope Q_scope.

(** [problem_databases]: the growth pattern and the start size by key. *)
Definition problem_databases : list (string * (string * Z)) :=
  [("Server1/TransactionLog_DB"%string, ("no_retention"%string, 400%Z));
   ("Server2/PrimaryStore_DB"%string, ("growing_fast"%string, 500%Z));
   ("Server2/CustomerCore_DB"%string, ("broken_cleanup"%string, 450%Z));
   ("Server3/DataWarehouse_DB"%string, ("archive_failure"%string, 600%Z))].

(** [f"Server{server_num}/{database_name}"] *)
Definition db_key (server_num : Z) (database_name : string) : string :=
  String.append "Server"
    (String.append (str_of_int server_num) (String.append "/" database_name)).

Definition table_count_of (server_type : string) : Rand Z :=
  if String.eqb server_type "oltp_production" then randint 15 25
  else if String.eqb server_type "reporting_analytics" then randint 8 15
  else randint 5 10.

(** Lines 95 to 118: the base size, the growth pattern and the number of
    tables. *)
Definition size_and_pattern (server_num : Z)
    (database_name server_type : string) : Rand (Q * string * Z) :=
  match Dict.lookup (db_key server_num database_name) problem_databases with
  | Some (pattern, start_size) =>
      table_count <- table_count_of server_type ;;
      ret (inject_Z start_size, pattern, table_count)
  | None =>
      if String.eqb server_type "oltp_production" then
        base_size <- uniform 250 350 ;;
        table_count <- randint 15 25 ;;
        ret (base_size, "stable"%string, table_count)
      else if String.eqb server_type "reporting_analytics" then
        base_size <- uniform 300 500 ;;
        table_count <- randint 8 15 ;;
        ret (base_size, "etl_cycle"%string, table_count)
      else
        base_size <- uniform 10 30 ;;
        table_count <- randint 5 10 ;;
        ret (base_size, "static"%string, table_count)
  end.

(** [f"{n:02d}"] *)
Definition format_02d (n : Z) : string :=
  if ((0 <=? n) && (n <? 10))%Z then String.append "0" (str_of_int n)
  else str_of_int n.

(** [f"Table_{i+1:02d}"] *)
Definition table_name_of (i : Z) : string :=
  String.append "Table_" (format_02d (i + 1)).

(** The body of the loop of lines 122 to 144: the state of table [i]. *)
Definition new_table (server_type : string) : Rand table_state :=
  daily_growth <-
    (if String.eqb server_type "reference_config" then randint 1 10
     else randint 1000 10000) ;;
  has_cleanup <-
    (if String.eqb server_type "oltp_production" then
       r <- random ;; ret (Qltb r (8 # 10))
     else if String.eqb server_type "reporting_analytics" then
       r <- random ;; ret (Qltb r (7 # 10))
     else ret false) ;;
  rows <- randint 10000 1000000 ;;
  avg_row_bytes <- randint 128 512 ;;
  ret (TableState rows daily_growth avg_row_bytes (Some has_cleanup)).

(** The loop over [range(table_count)], from index [i] on. *)
Fixpoint new_tables (count : nat) (i : Z) (server_type : string)
    (tables : list (string * table_state))
  : Rand (list (string * table_state)) :=
  match count with
  | O => ret tables
  | S count' =>
      ts <- new_table server_type ;;
      new_tables count' (i + 1)%Z server_type
        (Dict.set (table_name_of i) ts tables)
  end.

Definition initialize_database_state (server_num : Z)
    (database_name server_type : string) : Rand entity_state :=
  r <- size_and_pattern server_num database_name server_type ;;
  let '(base_size, growth_pattern, table_count) := r in
  tables <- new_tables (Z.to_nat table_count) 0 server_type [] ;;
  ret (EntityState database_name
         (DbState (Some base_size) (Some growth_pattern) (Some server_type)
            (Some 0%Z) (Some 0%Z) tables None)
         (base_size * (75 # 100)) (base_size * (25 # 100)) None).

(** Lines 184 to 186: the rows of the tables named in the table data. *)
Definition update_rows (tables_data : list table_data)
    (tables : list (string * table_state)) : list (string * table_state) :=
  fold_left
    (fun tables td =>
       match Dict.lookup (td_name td) tables with
       | Some ts => Dict.set (td_name td) (with_rows ts (td_rows td)) tables
       | None => tables
       end)
    tables_data tables.

(** [generate_snapshot_data], with the configuration read as far as the
    function uses it: the I/O baselines by server type.  The state is the
    one object the caller holds, so it is returned as the function leaves
    it even when an exception is raised. *)
Definition generate_snapshot_data (server_num : Z)
    (database_name server_type : string) (es : entity_state) (p : period)
    (baseline_templates : list (string * io_baselines))
  : Rand (result snapshot * entity_state) :=
  match Dict.lookup server_type baseline_templates with
  | None => ret (Raise KeyError, es)
  | Some baseline =>
      r <- generate_raw_io_data (es_core es) baseline p server_type ;;
      let '(io, core) := r in
      size <- generate_raw_size_data core p server_type ;;
      r <- generate_raw_table_data core server_type p ;;
      let '(tables_data, core) := r in
      let core :=
        DbState (Some (total_gb size)) (growth_pattern core)
          (server_type_key core) (Some (io_cumulative_reads io))
          (Some (io_cumulative_writes io))
          (update_rows tables_data (tables core))
          (table_cleanup_history core) in
      let es' :=
        EntityState (es_database_name es) core (data_file_gb size)
          (log_file_gb size) (Some p) in
      match fromisoformat (period_end p) with
      | Raise e => ret (Raise e, es')
      | Ok period_end_time =>
          ret (Ok (Snapshot (isoformat period_end_time)
                     (String.append "Server" (str_of_int server_num))
                     server_num server_type database_name
                     (period_start p) (period_end p) (period_type p)
                     size io tables_data),
               es')
      end
  end.

End Simulator.

(** ** The state as it is written to the state file *)

Module Persist.

Import Datetime Clock Store.

(** A key that is written only when the state has it. *)
Definition opt_field {A : Type} (key : string) (encode : A -> json)
    (field : option A) : list (string * json) :=
  match field with
  | Some a => [(key, encode a)]
  | None => []
  end.

Definition num (n : Z) : json := JNum (inject_Z n).

Definition period_json (p : period) : json :=
  JDict [("period_start"%string, JStr (period_start p));
         ("period_end"%string, JStr (period_end p));
         ("period_type"%string, JStr (period_type p))].

Definition table_json (name : string) (ts : table_state) : json :=
  JDict ([("name"%string, JStr name);
          ("rows"%string, num (rows ts));
          ("daily_growth"%string, num (daily_growth ts));
          ("avg_row_bytes"%string, num (avg_row_bytes ts))]
         ++ opt_field "has_cleanup" JBool (has_cleanup ts)).

Definition history_json (h : cleanup_history) : json :=
  JDict [("last_cleanup_success"%string, JBool (last_cleanup_success h));
         ("failed_cleanups"%string, num (failed_cleanups h));
         ("cleanup_schedule"%string,
          JList [JStr (fst (cleanup_schedule h));
                 JStr (snd (cleanup_schedule h))]);
         ("periods_since_cleanup"%string, num (periods_since_cleanup h))].

Definition map_json {A : Type} (encode : string -> A -> json)
    (items : list (string * A)) : json :=
  JDict (map (fun kv => (fst kv, encode (fst kv) (snd kv))) items).

(** The JSON object of one database, its keys in the order in which the
    simulator sets them. *)
Definition entity_json (es : entity_state) : json :=
  let core := es_core es in
  JDict ([("database_name"%string, JStr (es_database_name es))]
         ++ opt_field "server_type" JStr (server_type_key core)
         ++ opt_field "current_size_gb" JNum (current_size_gb core)
         ++ [("data_file_gb"%string, JNum (es_data_file_gb es));
             ("log_file_gb"%string, JNum (es_log_file_gb es))]
         ++ opt_field "cumulative_reads" num (cumulative_reads core)
         ++ opt_field "cumulative_writes" num (cumulative_writes core)
         ++ opt_field "growth_pattern" JStr (growth_pattern core)
         ++ [("tables"%string, map_json table_json (tables core));
             ("last_period"%string,
              match es_last_period es with
              | Some p => period_json p
              | None => JNull
              end)]
         ++ opt_field "table_cleanup_history"
              (map_json (fun _ => history_json))
              (table_cleanup_history core)).

(** The state of a server: its databases by name. *)
Definition server_state_json (entities : list (string * entity_state))
  : list (string * json) :=
  map (fun kv => (fst kv, entity_json (snd kv))) entities.

(** The period of run [k] of a server that starts from no state: the
    12 hours from 2025-05-01 06:00 plus [k] times 12 hours, by day for an
    even [k] and by night for an odd one. *)
Definition nth_period (k : Z) : period :=
  Period (isoformat (DT (micros start_date + hours 12 * k)))
         (isoformat (DT (micros start_date + hours 12 * (k + 1))))
         (if Z.even k then "day"%string else "night"%string).

(** *** Writing the state file *)




End Persist.

(** ** What a period does to the cleanup history of a table *)

Module History.

Local Open Scope Z_scope.

(** The history a table gets when it has none. *)
Definition initial_history (table_name server_type : string)
  : cleanup_history :=
  CleanupHistory true 0 (table_name, server_type) 0.

(** The entry of [table_name] in [histories'] follows from its entry in
    [histories], the initial one when it has none, by the period reported
    in [td]: without cleanup one more period has passed; with a cleanup
    the count of periods is back to zero, the cleanup succeeded if rows
    were deleted, and the failures are reset on success and one more
    otherwise. *)
Definition follows (server_type table_name : string) (td : table_data)
    (histories histories' : list (string * cleanup_history)) : Prop :=
  let before := get (Dict.lookup table_name histories)
                    (initial_history table_name server_type) in
  exists h',
    Dict.lookup table_name histories' = Some h'
    /\ cleanup_schedule h' = cleanup_schedule before
    /\ (td_cleanup_occurred td = false ->
        periods_since_cleanup h' = periods_since_cleanup before + 1
        /\ last_cleanup_success h' = last_cleanup_success before
        /\ failed_cleanups h' = failed_cleanups before)
    /\ (td_cleanup_occurred td = true ->
        periods_since_cleanup h' = 0
        /\ last_cleanup_success h' = (0 <? td_rows_deleted td)
        /\ failed_cleanups h'
           = if 0 <? td_rows_deleted td then 0
             else failed_cleanups before + 1).

End History.

(** ** The texts the clock reads *)

Module ClockDomain.

Import Datetime Clock.

(** The text under [last_period.period_end] of an entity, when there is
    one. *)
Definition period_end_text (db_state : json) : option string :=
  match db_state with
  | JDict fields =>
      match Dict.lookup "last_period"%string fields with
      | Some (JDict last_period) =>
          match Dict.lookup "period_end"%string last_period with
          | Some (JStr s) => Some s
          | _ => None
          end
      | _ => None
      end
  | _ => None
  end.

(** The text is one that [isoformat] writes for a naive value: it parses,
    and what it parses to is written back as the same text. *)
Definition iso_text (s : string) : bool :=
  match fromisoformat s with
  | Ok d => String.eqb (isoformat d) s
  | Raise _ => false
  end.

(** Every [period_end] text of the state is one that [isoformat] writes, as
    the simulator stores them. *)
Definition written_texts (items : list (string * json)) : Prop :=
  Forall (fun kv =>
            match period_end_text (snd kv) with
            | Some s => iso_text s = true
            | None => True
            end) items.

End ClockDomain.

(** * Properties *)

(** ** Calendar *)

Module CalendarFacts.

Import Calendar.

Lemma all_from_spec (f : Z -> bool) (n : nat) :
  forall start, all_from f start n = true ->
  forall k, start <= k < start + Z.of_nat n -> f k = true.
Proof.
  induction n as [|n IH]; intros start H k Hk.
  - simpl in Hk. lia.
  - simpl in H. destruct (f start) eqn:Hf; [|discriminate].
    destruct (Z.eq_dec k start) as [->|Hne]; [assumption|].
    apply (IH (start + 1) H). lia.
Qed.

Lemma first_cycle_checked : all_from cycle_ok 1 (Z.to_nat DI400Y) = true.
Proof. vm_compute. reflexivity. Qed.

Lemma first_cycle (n : Z) : 1 <= n <= DI400Y -> cycle_ok n = true.
Proof.
  intros Hn. apply (all_from_spec _ _ _ first_cycle_checked).
  rewrite Z2Nat.id by (unfold DI400Y; lia). lia.
Qed.

Lemma is_leap_shift (y q : Z) : is_leap (y + 400 * q) = is_leap y.
Proof.
  unfold is_leap.
  replace ((y + 400 * q) mod 4) with (y mod 4)
    by (replace (y + 400 * q) with (y + (100 * q) * 4) by lia;
        now rewrite Z_mod_plus_full).
  replace ((y + 400 * q) mod 100) with (y mod 100)
    by (replace (y + 400 * q) with (y + (4 * q) * 100) by lia;
        now rewrite Z_mod_plus_full).
  replace ((y + 400 * q) mod 400) with (y mod 400)
    by (replace (y + 400 * q) with (y + q * 400) by lia;
        now rewrite Z_mod_plus_full).
  reflexivity.
Qed.

Lemma days_before_year_shift (y q : Z) :
  days_before_year (y + 400 * q) = days_before_year y + DI400Y * q.
Proof.
  unfold days_before_year, DI400Y. cbv zeta.
  replace (y + 400 * q - 1) with (y - 1 + (100 * q) * 4) at 2 by lia.
  replace (y + 400 * q - 1) with (y - 1 + (4 * q) * 100) at 2 by lia.
  replace (y + 400 * q - 1) with (y - 1 + q * 400) at 2 by lia.
  rewrite !Z.div_add by lia. lia.
Qed.

Lemma ymd2ord_shift (y m d q : Z) :
  ymd2ord (y + 400 * q) m d = ymd2ord y m d + DI400Y * q.
Proof.
  unfold ymd2ord, days_before_month.
  rewrite is_leap_shift, days_before_year_shift. lia.
Qed.

Lemma days_in_month_shift (y m q : Z) :
  days_in_month (y + 400 * q) m = days_in_month y m.
Proof. unfold days_in_month. now rewrite is_leap_shift. Qed.

Lemma ord2ymd_shift (n q : Z) :
  ord2ymd (n + DI400Y * q)
  = let '(y, m, d) := ord2ymd n in (y + 400 * q, m, d).
Proof.
  unfold ord2ymd. cbv zeta.
  replace (n + DI400Y * q - 1) with (n - 1 + q * DI400Y) by lia.
  rewrite Z.div_add by (unfold DI400Y; lia).
  rewrite Z_mod_plus_full.
  set (r := (n - 1) mod DI400Y).
  set (n400 := (n - 1) / DI400Y).
  destruct ((r mod DI100Y mod DI4Y / 365 =? 4) || (r / DI100Y =? 4)).
  - f_equal. f_equal. lia.
  - match goal with |- context [if ?c then _ else _] => destruct c end;
      f_equal; f_equal; lia.
Qed.

(** [ord2ymd] returns a valid date whose ordinal is the argument, on every
    ordinal of the years 1 to 9999. *)
Lemma ord2ymd_ymd2ord (n : Z) :
  1 <= n <= MAXORDINAL ->
  let '(y, m, d) := ord2ymd n in
  valid_date y m d = true /\ ymd2ord y m d = n.
Proof.
  intros Hn.
  set (q := (n - 1) / DI400Y).
  set (r := (n - 1) mod DI400Y + 1).
  assert (Hq : 0 <= q <= 24).
  { unfold q, DI400Y, MAXORDINAL in *. Z.div_mod_to_equations. lia. }
  assert (Hr : 1 <= r <= DI400Y).
  { unfold r. pose proof (Z.mod_pos_bound (n - 1) DI400Y).
    unfold DI400Y in *. lia. }
  assert (Hnr : n = r + DI400Y * q).
  { unfold r, q. pose proof (Z.div_mod (n - 1) DI400Y).
    unfold DI400Y in *. lia. }
  pose proof (first_cycle r Hr) as Hc. unfold cycle_ok in Hc.
  rewrite Hnr, ord2ymd_shift.
  destruct (ord2ymd r) as [[y m] d].
  repeat (apply andb_prop in Hc; destruct Hc as [Hc ?]).
  split.
  - unfold valid_date, MINYEAR, MAXYEAR.
    rewrite days_in_month_shift.
    assert (y + 400 * q <= 9999).
    { destruct (Z.eq_dec q 24) as [->|].
      - assert (r <= 145731) by (unfold DI400Y, MAXORDINAL in *; lia).
        match goal with H : (_ || _) = true |- _ =>
          apply orb_prop in H; destruct H as [H|H] end; lia.
      - lia. }
    repeat (apply andb_true_intro; split); lia.
  - rewrite ymd2ord_shift. lia.
Qed.

Lemma month_offset_range (leap : bool) (m d : Z) :
  1 <= m <= 12 ->
  1 <= d <= (if (m =? 2) && leap then 29 else DAYS_IN_MONTH m) ->
  1 <= DAYS_BEFORE_MONTH m + (if (2 <? m) && leap then 1 else 0) + d
    <= 365 + (if leap then 1 else 0).
Proof.
  intros Hm Hd.
  assert (Hc : m = 1 \/ m = 2 \/ m = 3 \/ m = 4 \/ m = 5 \/ m = 6 \/ m = 7
               \/ m = 8 \/ m = 9 \/ m = 10 \/ m = 11 \/ m = 12) by lia.
  clear Hm.
  destruct leap;
    repeat (destruct Hc as [Hc|Hc]); subst m;
    cbn [DAYS_BEFORE_MONTH DAYS_IN_MONTH andb Z.eqb Z.ltb Z.compare Pos.eqb
         Pos.compare Pos.compare_cont] in Hd |- *; lia.
Qed.

Lemma year_end_range (y : Z) :
  1 <= y <= 9999 ->
  0 <= days_before_year y
  /\ days_before_year y + 365 + (if is_leap y then 1 else 0) <= MAXORDINAL.
Proof.
  intros Hy. destruct (Z.eq_dec y 9999) as [->|Hne].
  - vm_compute. split; discriminate.
  - unfold days_before_year, MAXORDINAL. cbv zeta.
    destruct (is_leap y); Z.div_mod_to_equations; lia.
Qed.

(** A valid date has an ordinal between 1 and [MAXORDINAL]. *)
Lemma ymd2ord_range (y m d : Z) :
  valid_date y m d = true -> 1 <= ymd2ord y m d <= MAXORDINAL.
Proof.
  unfold valid_date, MINYEAR, MAXYEAR. intros H.
  repeat (apply andb_prop in H; destruct H as [H ?]).
  assert (Hy : 1 <= y <= 9999) by lia.
  pose proof (year_end_range y Hy) as [Hlo Hhi].
  pose proof (month_offset_range (is_leap y) m d) as Hmo.
  unfold days_in_month in *.
  unfold ymd2ord, days_before_month. lia.
Qed.

End CalendarFacts.

(** ** Datetimes and their ISO text *)

Module DatetimeFacts.

Import Calendar Datetime CalendarFacts.

Ltac unfold_units :=
  unfold hours, days, US_PER_DAY, US_PER_HOUR, US_PER_MINUTE, US_PER_SECOND in *.

Ltac unfold_fields :=
  unfold hour, minute, second, microsecond, toordinal, time_of_day,
         replace_hour, valid, MAX_MICROS, MAXORDINAL in *;
  cbn [micros] in *; unfold_units.

Ltac solve_div := unfold_fields; Z.div_mod_to_equations; lia.

Lemma hour_range (d : datetime) : 0 <= hour d < 24.
Proof. solve_div. Qed.

Lemma minute_range (d : datetime) : 0 <= minute d < 60.
Proof. solve_div. Qed.

Lemma second_range (d : datetime) : 0 <= second d < 60.
Proof. solve_div. Qed.

Lemma microsecond_range (d : datetime) : 0 <= microsecond d < 1000000.
Proof. solve_div. Qed.

Lemma toordinal_range (d : datetime) :
  valid d -> 1 <= toordinal d <= MAXORDINAL.
Proof. intros H. solve_div. Qed.

(** A datetime is determined by its ordinal and its time fields. *)
Lemma micros_fields (d : datetime) :
  micros d = (toordinal d - 1) * US_PER_DAY + hour d * US_PER_HOUR
             + minute d * US_PER_MINUTE + second d * US_PER_SECOND
             + microsecond d.
Proof.
  unfold hour, minute, second, microsecond, toordinal, time_of_day.
  set (t := micros d mod US_PER_DAY).
  assert (Hus : micros d mod US_PER_SECOND = t mod US_PER_SECOND).
  { unfold t. unfold_units. Z.div_mod_to_equations. lia. }
  assert (Hs : t / US_PER_MINUTE = t / US_PER_SECOND / 60).
  { unfold_units. rewrite Z.div_div by lia. reflexivity. }
  assert (Hm : t / US_PER_HOUR = t / US_PER_MINUTE / 60).
  { unfold_units. rewrite Z.div_div by lia. reflexivity. }
  rewrite Hus, Hm, Hs.
  pose proof (Z.div_mod (micros d) US_PER_DAY) as E0. fold t in E0.
  pose proof (Z.div_mod t US_PER_SECOND) as E1.
  pose proof (Z.div_mod (t / US_PER_SECOND) 60) as E2.
  pose proof (Z.div_mod (t / US_PER_SECOND / 60) 60) as E3.
  unfold_units. lia.
Qed.

(** The fields of a datetime given as day, hour and remainder of the hour. *)
Lemma fields_of_parts (d : datetime) (D h r : Z) :
  micros d = D * US_PER_DAY + h * US_PER_HOUR + r ->
  0 <= h < 24 -> 0 <= r < US_PER_HOUR ->
  toordinal d = D + 1 /\ hour d = h /\ minute d = r / US_PER_MINUTE
  /\ second d = (r / US_PER_SECOND) mod 60
  /\ microsecond d = r mod US_PER_SECOND.
Proof.
  intros E Hh Hr.
  assert (Ht : time_of_day d = h * US_PER_HOUR + r).
  { unfold time_of_day. symmetry.
    apply (Z.mod_unique _ _ D); [left; unfold_units; lia | lia]. }
  unfold hour, minute, second, microsecond, toordinal. rewrite Ht.
  repeat split.
  - f_equal. symmetry.
    apply (Z.div_unique _ _ _ (h * US_PER_HOUR + r));
      [left; unfold_units; lia | lia].
  - symmetry. apply (Z.div_unique _ _ _ r); [left; lia | lia].
  - replace (h * US_PER_HOUR + r) with (r + (h * 60) * US_PER_MINUTE)
      by (unfold_units; lia).
    rewrite Z.div_add by (unfold_units; lia).
    rewrite Z_mod_plus_full. apply Z.mod_small.
    unfold_units. Z.div_mod_to_equations. lia.
  - replace (h * US_PER_HOUR + r) with (r + (h * 3600) * US_PER_SECOND)
      by (unfold_units; lia).
    rewrite Z.div_add by (unfold_units; lia).
    replace (r / US_PER_SECOND + h * 3600)
      with (r / US_PER_SECOND + (h * 60) * 60) by lia.
    now rewrite Z_mod_plus_full.
  - rewrite E.
    replace (D * US_PER_DAY + h * US_PER_HOUR + r)
      with (r + (D * 86400 + h * 3600) * US_PER_SECOND) by (unfold_units; lia).
    now rewrite Z_mod_plus_full.
Qed.

Lemma parts_of_fields (d : datetime) :
  exists r, micros d = (toordinal d - 1) * US_PER_DAY + hour d * US_PER_HOUR + r
            /\ 0 <= r < US_PER_HOUR.
Proof.
  exists (time_of_day d mod US_PER_HOUR).
  unfold hour, toordinal, time_of_day.
  pose proof (Z.div_mod (micros d) US_PER_DAY).
  pose proof (Z.div_mod (micros d mod US_PER_DAY) US_PER_HOUR).
  pose proof (Z.mod_pos_bound (micros d mod US_PER_DAY) US_PER_HOUR).
  unfold_units. lia.
Qed.

(** [replace(hour=h)] sets the hour and keeps every other field. *)
Lemma replace_hour_fields (d : datetime) (h : Z) :
  0 <= h < 24 ->
  toordinal (replace_hour d h) = toordinal d /\ hour (replace_hour d h) = h
  /\ minute (replace_hour d h) = minute d
  /\ second (replace_hour d h) = second d
  /\ microsecond (replace_hour d h) = microsecond d.
Proof.
  intros Hh. destruct (parts_of_fields d) as (r & E & Hr).
  pose proof (hour_range d) as Hd.
  destruct (fields_of_parts d (toordinal d - 1) (hour d) r E Hd Hr)
    as (_ & _ & Hmi & Hs & Hus).
  assert (E' : micros (replace_hour d h)
               = (toordinal d - 1) * US_PER_DAY + h * US_PER_HOUR + r).
  { unfold replace_hour. cbn [micros]. lia. }
  destruct (fields_of_parts _ _ _ _ E' Hh Hr) as (Ho & Hh' & Hmi' & Hs' & Hus').
  repeat split; try congruence. lia.
Qed.

Lemma hour_replace_hour (d : datetime) (h : Z) :
  0 <= h < 24 -> hour (replace_hour d h) = h.
Proof. intros H. apply (replace_hour_fields d h H). Qed.

Lemma valid_replace_hour (d : datetime) (h : Z) :
  0 <= h < 24 -> valid d -> valid (replace_hour d h).
Proof.
  intros Hh Hv. destruct (parts_of_fields d) as (r & E & Hr).
  pose proof (toordinal_range d Hv). pose proof (hour_range d).
  unfold valid, replace_hour, MAX_MICROS, MAXORDINAL in *. cbn [micros].
  unfold_units. lia.
Qed.

(** From 06:mm:ss, replacing the hour by 18 adds twelve hours. *)
Lemma replace_hour_6_18 (d : datetime) :
  hour d = 6 -> micros (replace_hour d 18) = micros d + hours 12.
Proof. intros H. unfold replace_hour. cbn [micros]. rewrite H. unfold hours. lia. Qed.

Lemma add_ok (d : datetime) (delta : timedelta) :
  0 <= micros d + delta < MAX_MICROS ->
  add d delta = Ok (DT (micros d + delta)).
Proof.
  intros H. unfold add, in_range.
  destruct (Z.leb_spec 0 (micros d + delta)); [|lia].
  destruct (Z.ltb_spec (micros d + delta) MAX_MICROS); [|lia].
  reflexivity.
Qed.

Lemma add_inv (d n : datetime) (delta : timedelta) :
  add d delta = Ok n -> micros n = micros d + delta /\ valid n.
Proof.
  unfold add, in_range, valid. intros H.
  destruct (Z.leb_spec 0 (micros d + delta)); [|discriminate].
  destruct (Z.ltb_spec (micros d + delta) MAX_MICROS); [|discriminate].
  injection H as <-. cbn [micros]. lia.
Qed.

(** Adding one day moves to the next ordinal and keeps the time of day. *)
Lemma add_one_day (d n : datetime) :
  add d (days 1) = Ok n ->
  toordinal n = toordinal d + 1 /\ hour n = hour d /\ minute n = minute d
  /\ second n = second d /\ microsecond n = microsecond d.
Proof.
  intros H. apply add_inv in H. destruct H as [H _].
  destruct (parts_of_fields d) as (r & E & Hr).
  pose proof (hour_range d) as Hd.
  destruct (fields_of_parts d (toordinal d - 1) (hour d) r E Hd Hr)
    as (_ & _ & Hmi & Hs & Hus).
  assert (E' : micros n = toordinal d * US_PER_DAY + hour d * US_PER_HOUR + r).
  { rewrite H. unfold days. lia. }
  destruct (fields_of_parts _ _ _ _ E' Hd Hr) as (Ho & Hh' & Hmi' & Hs' & Hus').
  repeat split; congruence.
Qed.

(** *** Decimal fields *)

Lemma digit_roundtrip (d : Z) :
  0 <= d <= 9 -> digit_of_ascii (ascii_of_digit d) = Some d.
Proof.
  intros H.
  assert (Hc : d = 0 \/ d = 1 \/ d = 2 \/ d = 3 \/ d = 4 \/ d = 5 \/ d = 6
               \/ d = 7 \/ d = 8 \/ d = 9) by lia.
  repeat (destruct Hc as [Hc|Hc]); subst d; reflexivity.
Qed.

Lemma take_num_pad (w : nat) :
  forall (k : nat) (acc n : Z) (rest : list ascii),
  0 <= n < 10 ^ Z.of_nat w ->
  take_num (w + k) acc (pad w n ++ rest)
  = take_num k (acc * 10 ^ Z.of_nat w + n) rest.
Proof.
  induction w as [|w IH]; intros k acc n rest Hn.
  - change (10 ^ Z.of_nat 0) with 1 in *. cbn [pad app Nat.add].
    f_equal. lia.
  - rewrite Nat2Z.inj_succ, Z.pow_succ_r in Hn by lia.
    cbn [pad]. rewrite <- app_assoc. cbn [app].
    replace (S w + k)%nat with (w + S k)%nat by lia.
    rewrite IH by (Z.div_mod_to_equations; lia).
    cbn [take_num].
    rewrite digit_roundtrip by (Z.div_mod_to_equations; lia).
    f_equal. rewrite Nat2Z.inj_succ, Z.pow_succ_r by lia.
    Z.div_mod_to_equations. nia.
Qed.

Lemma take_num_pad0 (w : nat) (n : Z) (rest : list ascii) :
  0 <= n < 10 ^ Z.of_nat w ->
  take_num w 0 (pad w n ++ rest) = Some (n, rest).
Proof.
  intros H. pose proof (take_num_pad w 0 0 n rest H) as E.
  rewrite Nat.add_0_r in E. rewrite E. cbn [take_num]. do 2 f_equal.
Qed.

Lemma digit_of_ascii_range (c : ascii) (d : Z) :
  digit_of_ascii c = Some d -> 0 <= d <= 9.
Proof.
  unfold digit_of_ascii. cbv zeta.
  destruct (Z.leb_spec 48 (Z.of_nat (nat_of_ascii c)));
    destruct (Z.leb_spec (Z.of_nat (nat_of_ascii c)) 57);
    cbn [andb]; intros E; try discriminate.
  injection E as <-. lia.
Qed.

Lemma take_num_bounds (w : nat) :
  forall (acc n : Z) (cs rest : list ascii),
  take_num w acc cs = Some (n, rest) ->
  acc * 10 ^ Z.of_nat w <= n < (acc + 1) * 10 ^ Z.of_nat w.
Proof.
  induction w as [|w IH]; intros acc n cs rest H.
  - cbn [take_num] in H. injection H as <- _.
    change (10 ^ Z.of_nat 0) with 1. lia.
  - cbn [take_num] in H. destruct cs as [|c cs]; [discriminate|].
    destruct (digit_of_ascii c) as [d|] eqn:Hd; [|discriminate].
    apply digit_of_ascii_range in Hd. apply IH in H.
    rewrite Nat2Z.inj_succ, Z.pow_succ_r by lia.
    assert (0 < 10 ^ Z.of_nat w) by (apply Z.pow_pos_nonneg; lia).
    nia.
Qed.

Lemma take_num0_range (w : nat) (n : Z) (cs rest : list ascii) :
  take_num w 0 cs = Some (n, rest) -> 0 <= n < 10 ^ Z.of_nat w.
Proof. intros H. apply take_num_bounds in H. lia. Qed.

End DatetimeFacts.

(** ** ISO text: what is parsed is valid, what is printed parses back *)

Module IsoFacts.

Import Calendar Datetime CalendarFacts DatetimeFacts.

Lemma obind_some {A B : Type} (m : option A) (k : A -> option B) (b : B) :
  obind m k = Some b -> exists a, m = Some a /\ k a = Some b.
Proof. destruct m as [a|]; [intros H; now exists a | discriminate]. Qed.

Ltac obind_inv H :=
  let a := fresh "r" in
  let E := fresh "E" in
  apply obind_some in H; destruct H as (a & E & H);
  try (destruct a as [? ?]).

Lemma make_valid (y m dd hh mi ss us : Z) :
  valid_date y m dd = true ->
  0 <= hh < 24 -> 0 <= mi < 60 -> 0 <= ss < 60 -> 0 <= us < 1000000 ->
  valid (make y m dd hh mi ss us).
Proof.
  intros Hd Hh Hm Hs Hu. apply ymd2ord_range in Hd.
  unfold valid, make, MAX_MICROS, MAXORDINAL in *. cbn [micros].
  unfold_units. lia.
Qed.

Lemma parse_fraction_range (cs : list ascii) (us : Z) :
  parse_fraction cs = Some us -> 0 <= us < 1000000.
Proof.
  unfold parse_fraction. destruct cs as [|c cs].
  - intros H. injection H as <-. lia.
  - intros H. obind_inv H. obind_inv H. cbn [snd fst] in H.
    destruct l; [|discriminate]. injection H as <-.
    match goal with E : take_num 6 0 _ = _ |- _ =>
      apply take_num0_range in E; change (10 ^ Z.of_nat 6) with 1000000 in E
    end. assumption.
Qed.

Lemma parse_chars_valid (cs : list ascii) (d : datetime) :
  parse_chars cs = Some d -> valid d.
Proof.
  unfold parse_chars. intros H.
  do 11 obind_inv H.
  apply obind_some in H. destruct H as (us & Eus & H).
  destruct (valid_date z z0 z1 && (z2 <? 24) && (z3 <? 60) && (z4 <? 60))
    eqn:Hc; [|discriminate].
  injection H as <-.
  do 3 (apply andb_prop in Hc; destruct Hc as [Hc ?]).
  apply parse_fraction_range in Eus.
  repeat match goal with
  | E : take_num _ 0 _ = Some _ |- _ => apply take_num0_range in E
  end.
  repeat match goal with
  | E : (_ <? _) = true |- _ => apply Z.ltb_lt in E
  end.
  apply make_valid; try assumption; lia.
Qed.

Lemma fromisoformat_valid (s : string) (d : datetime) :
  fromisoformat s = Ok d -> valid d.
Proof.
  unfold fromisoformat.
  destruct (parse_chars (list_ascii_of_string s)) as [d'|] eqn:E;
    [|discriminate].
  intros H. injection H as <-. exact (parse_chars_valid _ _ E).
Qed.

Lemma days_in_month_le (y m : Z) : days_in_month y m <= 31.
Proof.
  unfold days_in_month. destruct ((m =? 2) && is_leap y); [lia|].
  unfold DAYS_IN_MONTH.
  destruct m as [|p|p]; try lia.
  do 4 (destruct p as [p|p|]; try lia).
Qed.

(** The date fields of a valid datetime are a valid date with its ordinal. *)
Lemma date_fields (d : datetime) :
  valid d ->
  valid_date (year d) (month d) (day d) = true
  /\ ymd2ord (year d) (month d) (day d) = toordinal d.
Proof.
  intros Hv. pose proof (ord2ymd_ymd2ord _ (toordinal_range d Hv)) as H.
  unfold year, month, day. destruct (ord2ymd (toordinal d)) as [[y m] dd].
  exact H.
Qed.

Lemma make_fields (d : datetime) :
  valid d ->
  make (year d) (month d) (day d) (hour d) (minute d) (second d) (microsecond d)
  = d.
Proof.
  intros Hv. destruct (date_fields d Hv) as [_ Ho].
  unfold make. rewrite Ho. rewrite <- micros_fields. now destruct d.
Qed.

(** Parsing the ISO text of a valid datetime gives the datetime back. *)
Lemma parse_isoformat_chars (d : datetime) :
  valid d -> parse_chars (isoformat_chars d) = Some d.
Proof.
  intros Hv. destruct (date_fields d Hv) as [Hd _].
  pose proof Hd as Hd'. unfold valid_date, MINYEAR, MAXYEAR in Hd'.
  repeat (apply andb_prop in Hd'; destruct Hd' as [Hd' ?]).
  pose proof (days_in_month_le (year d) (month d)).
  pose proof (hour_range d). pose proof (minute_range d).
  pose proof (second_range d). pose proof (microsecond_range d).
  unfold parse_chars, isoformat_chars.
  set (frac := if microsecond d =? 0 then []
               else ["."%char] ++ pad 6 (microsecond d)).
  rewrite take_num_pad0 by (change (10 ^ Z.of_nat 4) with 10000; lia).
  cbn [obind app expect Ascii.eqb Bool.eqb].
  rewrite take_num_pad0 by (change (10 ^ Z.of_nat 2) with 100; lia).
  cbn [obind app expect Ascii.eqb Bool.eqb].
  rewrite take_num_pad0 by (change (10 ^ Z.of_nat 2) with 100; lia).
  cbn [obind app expect Ascii.eqb Bool.eqb].
  rewrite take_num_pad0 by (change (10 ^ Z.of_nat 2) with 100; lia).
  cbn [obind app expect Ascii.eqb Bool.eqb].
  rewrite take_num_pad0 by (change (10 ^ Z.of_nat 2) with 100; lia).
  cbn [obind app expect Ascii.eqb Bool.eqb].
  rewrite take_num_pad0 by (change (10 ^ Z.of_nat 2) with 100; lia).
  cbn [obind].
  assert (Hf : parse_fraction frac = Some (microsecond d)).
  { unfold frac.
    destruct (Z.eqb_spec (microsecond d) 0) as [->|Hne]; [reflexivity|].
    unfold parse_fraction. cbn [app expect Ascii.eqb Bool.eqb obind].
    rewrite <- (app_nil_r (pad 6 (microsecond d))).
    rewrite take_num_pad0 by (change (10 ^ Z.of_nat 6) with 1000000; lia).
    reflexivity. }
  rewrite Hf. cbn [obind]. rewrite Hd.
  destruct (Z.ltb_spec (hour d) 24); [|lia].
  destruct (Z.ltb_spec (minute d) 60); [|lia].
  destruct (Z.ltb_spec (second d) 60); [|lia].
  cbn [andb]. now rewrite make_fields.
Qed.

Lemma fromisoformat_isoformat (d : datetime) :
  valid d -> fromisoformat (isoformat d) = Ok d.
Proof.
  intros Hv. unfold fromisoformat, isoformat.
  rewrite list_ascii_of_string_of_list_ascii.
  now rewrite parse_isoformat_chars.
Qed.

End IsoFacts.

(** ** Order of the ISO texts *)

Module IsoOrder.

Import Calendar Datetime CalendarFacts DatetimeFacts IsoFacts.

Lemma days_before_year_next (y1 y2 : Z) :
  y1 < y2 ->
  days_before_year y1 + 365 + (if is_leap y1 then 1 else 0)
  <= days_before_year y2.
Proof.
  intros Hlt. unfold days_before_year, is_leap.
  destruct (y1 mod 4 =? 0) eqn:E4; cbn [andb].
  - apply Z.eqb_eq in E4.
    destruct (y1 mod 100 =? 0) eqn:E100; cbn [negb orb].
    + destruct (y1 mod 400 =? 0) eqn:E400.
      * apply Z.eqb_eq in E100, E400. Z.div_mod_to_equations. lia.
      * Z.div_mod_to_equations. lia.
    + apply Z.eqb_neq in E100. Z.div_mod_to_equations. lia.
  - Z.div_mod_to_equations. lia.
Qed.

Lemma days_before_month_next (y m1 m2 : Z) :
  1 <= m1 -> m1 < m2 -> m2 <= 12 ->
  days_before_month y m1 + days_in_month y m1 <= days_before_month y m2.
Proof.
  intros H1 H2 H3. unfold days_before_month, days_in_month.
  destruct (is_leap y).
  - assert (E1 : m1 = 1 \/ m1 = 2 \/ m1 = 3 \/ m1 = 4 \/ m1 = 5 \/ m1 = 6
                 \/ m1 = 7 \/ m1 = 8 \/ m1 = 9 \/ m1 = 10 \/ m1 = 11) by lia.
    assert (E2 : m2 = 2 \/ m2 = 3 \/ m2 = 4 \/ m2 = 5 \/ m2 = 6
                 \/ m2 = 7 \/ m2 = 8 \/ m2 = 9 \/ m2 = 10 \/ m2 = 11
                 \/ m2 = 12) by lia.
    repeat (destruct E1 as [->|E1]); try subst m1;
      repeat (destruct E2 as [->|E2]); try subst m2;
      try lia; cbn; lia.
  - assert (E1 : m1 = 1 \/ m1 = 2 \/ m1 = 3 \/ m1 = 4 \/ m1 = 5 \/ m1 = 6
                 \/ m1 = 7 \/ m1 = 8 \/ m1 = 9 \/ m1 = 10 \/ m1 = 11) by lia.
    assert (E2 : m2 = 2 \/ m2 = 3 \/ m2 = 4 \/ m2 = 5 \/ m2 = 6
                 \/ m2 = 7 \/ m2 = 8 \/ m2 = 9 \/ m2 = 10 \/ m2 = 11
                 \/ m2 = 12) by lia.
    repeat (destruct E1 as [->|E1]); try subst m1;
      repeat (destruct E2 as [->|E2]); try subst m2;
      try lia; cbn; lia.
Qed.

Lemma valid_date_inv (y m d : Z) :
  valid_date y m d = true ->
  1 <= y <= 9999 /\ 1 <= m <= 12 /\ 1 <= d <= days_in_month y m.
Proof.
  unfold valid_date, MINYEAR, MAXYEAR. intros H.
  repeat (apply andb_prop in H; destruct H as [H ?]). lia.
Qed.

Lemma ymd2ord_compare (y1 m1 d1 y2 m2 d2 : Z) :
  valid_date y1 m1 d1 = true -> valid_date y2 m2 d2 = true ->
  match y1 ?= y2 with
  | Eq => match m1 ?= m2 with Eq => d1 ?= d2 | c => c end
  | c => c
  end = (ymd2ord y1 m1 d1 ?= ymd2ord y2 m2 d2).
Proof.
  intros V1 V2.
  pose proof (valid_date_inv _ _ _ V1) as (Hy1 & Hm1 & Hd1).
  pose proof (valid_date_inv _ _ _ V2) as (Hy2 & Hm2 & Hd2).
  assert (B : forall y m d, 1 <= m <= 12 -> 1 <= d <= days_in_month y m ->
            1 <= days_before_month y m + d
              <= 365 + (if is_leap y then 1 else 0)).
  { intros y m d Hm Hd. unfold days_before_month.
    apply month_offset_range; [exact Hm|exact Hd]. }
  pose proof (B _ _ _ Hm1 Hd1) as B1. pose proof (B _ _ _ Hm2 Hd2) as B2.
  symmetry. unfold ymd2ord.
  destruct (Z.compare_spec y1 y2) as [->|Hy|Hy].
  - destruct (Z.compare_spec m1 m2) as [->|Hm|Hm].
    + destruct (Z.compare_spec d1 d2) as [->|Hd|Hd].
      * apply Z.compare_refl.
      * apply Z.compare_lt_iff. lia.
      * apply Z.compare_gt_iff. lia.
    + apply Z.compare_lt_iff.
      pose proof (days_before_month_next y2 m1 m2). lia.
    + apply Z.compare_gt_iff.
      pose proof (days_before_month_next y2 m2 m1). lia.
  - apply Z.compare_lt_iff. pose proof (days_before_year_next y1 y2 Hy). lia.
  - apply Z.compare_gt_iff. pose proof (days_before_year_next y2 y1 Hy). lia.
Qed.

Lemma compare_app (a1 : list ascii) :
  forall (a2 r1 r2 : list ascii),
  List.length a1 = List.length a2 ->
  String.compare (string_of_list_ascii (a1 ++ r1))
                 (string_of_list_ascii (a2 ++ r2))
  = match String.compare (string_of_list_ascii a1) (string_of_list_ascii a2) with
    | Eq => String.compare (string_of_list_ascii r1) (string_of_list_ascii r2)
    | c => c
    end.
Proof.
  induction a1 as [|c1 a1 IH]; intros [|c2 a2] r1 r2 Hlen;
    try discriminate Hlen; [reflexivity|].
  cbn [app string_of_list_ascii String.compare].
  destruct (Ascii.compare c1 c2); [|reflexivity|reflexivity].
  apply IH. now injection Hlen.
Qed.

Lemma pad_length (w : nat) : forall n, List.length (pad w n) = w.
Proof.
  induction w as [|w IH]; intros n; cbn [pad]; [reflexivity|].
  rewrite length_app, IH. cbn. lia.
Qed.

Lemma digit_compare (a b : Z) :
  0 <= a <= 9 -> 0 <= b <= 9 ->
  Ascii.compare (ascii_of_digit a) (ascii_of_digit b) = (a ?= b).
Proof.
  intros Ha Hb.
  assert (Ea : a = 0 \/ a = 1 \/ a = 2 \/ a = 3 \/ a = 4 \/ a = 5 \/ a = 6
               \/ a = 7 \/ a = 8 \/ a = 9) by lia.
  assert (Eb : b = 0 \/ b = 1 \/ b = 2 \/ b = 3 \/ b = 4 \/ b = 5 \/ b = 6
               \/ b = 7 \/ b = 8 \/ b = 9) by lia.
  repeat (destruct Ea as [->|Ea]); try subst a;
    repeat (destruct Eb as [->|Eb]); try subst b; reflexivity.
Qed.

Lemma compare_step (q1 r1 q2 r2 : Z) :
  0 <= r1 < 10 -> 0 <= r2 < 10 ->
  match q1 ?= q2 with Eq => r1 ?= r2 | c => c end
  = (10 * q1 + r1 ?= 10 * q2 + r2).
Proof.
  intros H1 H2. symmetry.
  destruct (Z.compare_spec q1 q2) as [->|Hq|Hq].
  - destruct (Z.compare_spec r1 r2) as [->|Hr|Hr].
    + apply Z.compare_refl.
    + apply Z.compare_lt_iff. lia.
    + apply Z.compare_gt_iff. lia.
  - apply Z.compare_lt_iff. lia.
  - apply Z.compare_gt_iff. lia.
Qed.

Lemma pad_compare (w : nat) :
  forall n1 n2 : Z,
  0 <= n1 < 10 ^ Z.of_nat w -> 0 <= n2 < 10 ^ Z.of_nat w ->
  String.compare (string_of_list_ascii (pad w n1))
                 (string_of_list_ascii (pad w n2)) = (n1 ?= n2).
Proof.
  induction w as [|w IH]; intros n1 n2 H1 H2.
  - cbn in H1, H2. assert (n1 = 0) by lia. assert (n2 = 0) by lia.
    subst. reflexivity.
  - rewrite Nat2Z.inj_succ, Z.pow_succ_r in H1, H2 by lia.
    cbn [pad]. rewrite compare_app by now rewrite !pad_length.
    rewrite IH by (Z.div_mod_to_equations; lia).
    cbn [string_of_list_ascii String.compare].
    rewrite digit_compare by (Z.div_mod_to_equations; lia).
    replace (match n1 mod 10 ?= n2 mod 10 with
             | Eq => Eq | Lt => Lt | Gt => Gt end)
      with (n1 mod 10 ?= n2 mod 10) by now destruct (n1 mod 10 ?= n2 mod 10).
    rewrite compare_step by (Z.div_mod_to_equations; lia).
    f_equal; Z.div_mod_to_equations; lia.
Qed.

Lemma fraction_compare (u1 u2 : Z) :
  0 <= u1 < 1000000 -> 0 <= u2 < 1000000 ->
  String.compare
    (string_of_list_ascii (if u1 =? 0 then [] else ["."%char] ++ pad 6 u1))
    (string_of_list_ascii (if u2 =? 0 then [] else ["."%char] ++ pad 6 u2))
  = (u1 ?= u2).
Proof.
  intros H1 H2.
  destruct (Z.eqb_spec u1 0) as [->|N1]; destruct (Z.eqb_spec u2 0) as [->|N2].
  - reflexivity.
  - cbn [app string_of_list_ascii String.compare]. symmetry.
    apply Z.compare_lt_iff. lia.
  - cbn [app string_of_list_ascii String.compare]. symmetry.
    apply Z.compare_gt_iff. lia.
  - cbn [app string_of_list_ascii String.compare].
    replace (Ascii.compare "." ".") with Eq by reflexivity.
    apply pad_compare; cbn; lia.
Qed.

Lemma separator_compare (c : ascii) (r1 r2 : list ascii) :
  String.compare (string_of_list_ascii ([c] ++ r1))
                 (string_of_list_ascii ([c] ++ r2))
  = String.compare (string_of_list_ascii r1) (string_of_list_ascii r2).
Proof.
  cbn [app string_of_list_ascii String.compare].
  replace (Ascii.compare c c) with Eq; [reflexivity|].
  symmetry. unfold Ascii.compare. apply N.compare_refl.
Qed.

Lemma field_compare (w : nat) (n1 n2 : Z) (r1 r2 : list ascii) :
  0 <= n1 < 10 ^ Z.of_nat w -> 0 <= n2 < 10 ^ Z.of_nat w ->
  String.compare (string_of_list_ascii (pad w n1 ++ r1))
                 (string_of_list_ascii (pad w n2 ++ r2))
  = match n1 ?= n2 with
    | Eq => String.compare (string_of_list_ascii r1) (string_of_list_ascii r2)
    | c => c
    end.
Proof.
  intros H1 H2. rewrite compare_app by now rewrite !pad_length.
  now rewrite pad_compare.
Qed.

(** Fields in order of weight compare as the instants they make up. *)
Lemma fields_compare (o1 h1 i1 s1 u1 o2 h2 i2 s2 u2 : Z) :
  0 <= h1 < 24 -> 0 <= i1 < 60 -> 0 <= s1 < 60 -> 0 <= u1 < 1000000 ->
  0 <= h2 < 24 -> 0 <= i2 < 60 -> 0 <= s2 < 60 -> 0 <= u2 < 1000000 ->
  match o1 ?= o2 with
  | Eq => match h1 ?= h2 with
          | Eq => match i1 ?= i2 with
                  | Eq => match s1 ?= s2 with Eq => u1 ?= u2 | c => c end
                  | c => c
                  end
          | c => c
          end
  | c => c
  end
  = ((o1 - 1) * US_PER_DAY + h1 * US_PER_HOUR + i1 * US_PER_MINUTE
     + s1 * US_PER_SECOND + u1
     ?= (o2 - 1) * US_PER_DAY + h2 * US_PER_HOUR + i2 * US_PER_MINUTE
        + s2 * US_PER_SECOND + u2).
Proof.
  intros. symmetry.
  unfold US_PER_DAY, US_PER_HOUR, US_PER_MINUTE, US_PER_SECOND.
  destruct (Z.compare_spec o1 o2) as [->|?|?];
    [|apply Z.compare_lt_iff; lia|apply Z.compare_gt_iff; lia].
  destruct (Z.compare_spec h1 h2) as [->|?|?];
    [|apply Z.compare_lt_iff; lia|apply Z.compare_gt_iff; lia].
  destruct (Z.compare_spec i1 i2) as [->|?|?];
    [|apply Z.compare_lt_iff; lia|apply Z.compare_gt_iff; lia].
  destruct (Z.compare_spec s1 s2) as [->|?|?];
    [|apply Z.compare_lt_iff; lia|apply Z.compare_gt_iff; lia].
  destruct (Z.compare_spec u1 u2) as [->|?|?];
    [apply Z.compare_refl|apply Z.compare_lt_iff; lia
    |apply Z.compare_gt_iff; lia].
Qed.

(** The ISO texts of two instants compare as the instants do. *)
Lemma isoformat_compare (a b : datetime) :
  valid a -> valid b ->
  String.compare (isoformat a) (isoformat b) = (micros a ?= micros b).
Proof.
  intros Va Vb.
  destruct (date_fields a Va) as [Da Oa]. destruct (date_fields b Vb) as [Db Ob].
  pose proof (valid_date_inv _ _ _ Da) as (Hya & Hma & Hda).
  pose proof (valid_date_inv _ _ _ Db) as (Hyb & Hmb & Hdb).
  pose proof (days_in_month_le (year a) (month a)).
  pose proof (days_in_month_le (year b) (month b)).
  pose proof (hour_range a). pose proof (hour_range b).
  pose proof (minute_range a). pose proof (minute_range b).
  pose proof (second_range a). pose proof (second_range b).
  pose proof (microsecond_range a). pose proof (microsecond_range b).
  rewrite (micros_fields a), (micros_fields b).
  rewrite <- fields_compare by assumption.
  rewrite <- Oa, <- Ob, <- (ymd2ord_compare _ _ _ _ _ _ Da Db).
  unfold isoformat, isoformat_chars.
  rewrite field_compare by (cbn; lia). rewrite separator_compare.
  rewrite field_compare by (cbn; lia). rewrite separator_compare.
  rewrite field_compare by (cbn; lia). rewrite separator_compare.
  rewrite field_compare by (cbn; lia). rewrite separator_compare.
  rewrite field_compare by (cbn; lia). rewrite separator_compare.
  rewrite field_compare by (cbn; lia).
  rewrite fraction_compare by assumption.
  destruct (year a ?= year b); [|reflexivity|reflexivity].
  destruct (month a ?= month b); [|reflexivity|reflexivity].
  destruct (day a ?= day b); reflexivity.
Qed.

Lemma isoformat_leb (a b : datetime) :
  valid a -> valid b ->
  String.leb (isoformat a) (isoformat b) = true -> micros a <= micros b.
Proof.
  intros Va Vb. unfold String.leb. rewrite (isoformat_compare a b Va Vb).
  destruct (Z.compare_spec (micros a) (micros b)); [lia|lia|discriminate].
Qed.

End IsoOrder.

(** ** Period clock *)

Module ClockFacts.

Import Calendar Datetime Clock DatetimeFacts IsoFacts.

Lemma try_update_valid (last_period : json) (latest latest' : option datetime) :
  try_update last_period latest = Ok latest' ->
  opt_valid latest -> opt_valid latest'.
Proof.
  unfold try_update, bind, fromisoformat_any. intros H Hv.
  destruct (Py.subscript last_period "period_end") as [v|]; [|discriminate].
  destruct v; try discriminate.
  destruct (fromisoformat s) as [pe|] eqn:E; [|discriminate].
  apply fromisoformat_valid in E.
  destruct latest as [l|].
  - destruct (ltb l pe); injection H as <-; assumption.
  - injection H as <-. assumption.
Qed.

Lemma scan_entry_valid (db_state : json) (latest latest' : option datetime) :
  scan_entry db_state latest = Ok latest' ->
  opt_valid latest -> opt_valid latest'.
Proof.
  unfold scan_entry, bind. intros H Hv.
  destruct db_state; try (injection H as <-; assumption).
  destruct (Dict.lookup "last_period" items) as [lp|];
    [|injection H as <-; assumption].
  destruct (Py.truthy lp); [|injection H as <-; assumption].
  destruct (Py.contains_key "period_end" lp) as [[|]|]; try discriminate;
    [|injection H as <-; assumption].
  destruct (try_update lp latest) as [l'|e] eqn:E.
  - injection H as <-. exact (try_update_valid _ _ _ E Hv).
  - destruct e; try discriminate; injection H as <-; assumption.
Qed.

Lemma scan_valid (items : list (string * json)) :
  forall latest latest',
  scan items latest = Ok latest' -> opt_valid latest -> opt_valid latest'.
Proof.
  induction items as [|[name db_state] rest IH]; intros latest latest' H Hv.
  - injection H as <-. assumption.
  - cbn [scan] in H. unfold bind in H.
    destruct (scan_entry db_state latest) as [l1|] eqn:E; [|discriminate].
    exact (IH _ _ H (scan_entry_valid _ _ _ E Hv)).
Qed.

(** The latest recorded [period_end] is a datetime of the years 1 to 9999. *)
Lemma latest_period_end_valid (st : option (list (string * json))) (d : datetime) :
  latest_period_end st = Ok (Some d) -> valid d.
Proof.
  unfold latest_period_end. destruct st as [[|e items]|]; try discriminate.
  intros H. exact (scan_valid _ _ _ H I).
Qed.

Lemma fromisoformat_raises (s : string) (e : exn) :
  fromisoformat s = Raise e -> e = ValueError.
Proof.
  unfold fromisoformat.
  destruct (parse_chars (list_ascii_of_string s)); [discriminate|].
  intros H. now injection H as <-.
Qed.

(** One loop iteration: a [TypeError] on a scalar [last_period], and the
    later of the two values otherwise. *)
Lemma scan_entry_spec (db_state : json) (latest : option datetime) :
  scan_entry db_state latest
  = if scalar_last_period db_state then Raise TypeError
    else Ok (later latest (recorded_period_end db_state)).
Proof.
  unfold scan_entry, scalar_last_period, recorded_period_end, later.
  destruct db_state as [| | | | |fields]; try reflexivity.
  destruct (Dict.lookup "last_period" fields) as [lp|]; [|reflexivity].
  destruct lp as [|b|q|s|l|lp].
  - reflexivity.
  - destruct b; reflexivity.
  - cbn [Py.truthy]. destruct (Qeq_bool q 0); reflexivity.
  - cbn [Py.truthy Py.contains_key bind].
    destruct (negb (String.eqb s EmptyString)); [|reflexivity].
    destruct (Py.contains "period_end" s); reflexivity.
  - cbn [Py.truthy Py.contains_key bind]. destruct l; [reflexivity|].
    destruct (existsb (Py.is_str "period_end") (j :: l)); reflexivity.
  - cbn [Py.truthy]. destruct lp as [|kv lp]; [reflexivity|].
    unfold Py.contains_key, try_update, Py.subscript, fromisoformat_any.
    destruct (Dict.lookup "period_end" (kv :: lp)) as [v|]; [|reflexivity].
    cbn [bind]. destruct v; try reflexivity.
    destruct (fromisoformat s) as [pe|e] eqn:E.
    + cbn [bind]. destruct latest as [l|]; [destruct (ltb l pe)|]; reflexivity.
    + apply fromisoformat_raises in E. subst e. reflexivity.
Qed.

Lemma scan_no_scalar (items : list (string * json)) :
  no_scalar items ->
  forall latest, scan items latest = Ok (latest_recorded items latest).
Proof.
  induction 1 as [|[name db_state] rest Hs _ IH]; intros latest.
  - reflexivity.
  - cbn [scan latest_recorded snd] in *. rewrite scan_entry_spec, Hs.
    cbn [bind]. apply IH.
Qed.

Lemma scan_scalar (items : list (string * json)) :
  Exists (fun e => scalar_last_period (snd e) = true) items ->
  forall latest, scan items latest = Raise TypeError.
Proof.
  induction items as [|[name db_state] rest IH]; intros Hex latest.
  - inversion Hex.
  - cbn [scan]. rewrite scan_entry_spec.
    destruct (scalar_last_period db_state) eqn:Hs; [reflexivity|].
    cbn [bind]. apply IH. inversion Hex as [? ? Hh|]; subst; [|assumption].
    cbn [snd] in Hh. congruence.
Qed.

Lemma later_ge (latest found : option datetime) :
  match later latest found with
  | Some r =>
      (forall l, latest = Some l -> micros l <= micros r)
      /\ (forall pe, found = Some pe -> micros pe <= micros r)
      /\ (latest = Some r \/ found = Some r)
  | None => latest = None /\ found = None
  end.
Proof.
  unfold later, ltb. destruct found as [pe|], latest as [l|].
  - destruct (Z.ltb_spec (micros l) (micros pe)); repeat split; intros;
      try (injection H0 as <-); try lia; auto.
  - repeat split; intros; try discriminate; try (injection H as <-); try lia.
    now right.
  - repeat split; intros; try discriminate; try (injection H as <-); try lia.
    now left.
  - now split.
Qed.

(** [latest_recorded] is the maximum of the start value and of the recorded
    values of the entries. *)
Lemma latest_recorded_max (items : list (string * json)) :
  forall latest,
  match latest_recorded items latest with
  | Some r =>
      (forall l, latest = Some l -> micros l <= micros r)
      /\ (forall e pe, In e items -> recorded_period_end (snd e) = Some pe ->
          micros pe <= micros r)
      /\ (latest = Some r
          \/ exists e, In e items /\ recorded_period_end (snd e) = Some r)
  | None =>
      latest = None
      /\ forall e, In e items -> recorded_period_end (snd e) = None
  end.
Proof.
  induction items as [|[name db_state] rest IH]; intros latest.
  - cbn [latest_recorded]. destruct latest as [l|].
    + repeat split; intros; try contradiction.
      * injection H as <-. lia.
      * now left.
    + split; [reflexivity|]. intros e [].
  - cbn [latest_recorded].
    specialize (IH (later latest (recorded_period_end db_state))).
    pose proof (later_ge latest (recorded_period_end db_state)) as Hl.
    destruct (latest_recorded rest
                (later latest (recorded_period_end db_state))) as [r|].
    + destruct IH as (H1 & H2 & H3).
      destruct (later latest (recorded_period_end db_state)) as [m|].
      * destruct Hl as (L1 & L2 & L3). specialize (H1 m eq_refl).
        repeat split.
        -- intros l El. specialize (L1 l El). lia.
        -- intros e pe [<-|Hin] Hr.
           ++ cbn [snd] in Hr. specialize (L2 pe Hr). lia.
           ++ exact (H2 e pe Hin Hr).
        -- destruct H3 as [H3|(e & Hin & Hr)].
           ++ injection H3 as ->. destruct L3 as [L3|L3]; [now left|].
              right. exists (name, db_state). split; [now left|exact L3].
           ++ right. exists e. split; [now right|exact Hr].
      * destruct Hl as [-> Hf]. repeat split.
        -- intros l El. discriminate.
        -- intros e pe [<-|Hin] Hr.
           ++ cbn [snd] in Hr. congruence.
           ++ exact (H2 e pe Hin Hr).
        -- destruct H3 as [H3|(e & Hin & Hr)]; [discriminate|].
           right. exists e. split; [now right|exact Hr].
    + destruct IH as [Hn Hall].
      destruct (later latest (recorded_period_end db_state)) as [m|];
        [discriminate|].
      destruct Hl as [-> Hf]. split; [reflexivity|].
      intros e [<-|Hin]; [exact Hf|exact (Hall e Hin)].
Qed.

End ClockFacts.

(** ** Claims on the period clock *)

Module ClockClaims.

Import Calendar Datetime Clock DatetimeFacts IsoFacts ClockFacts.

Lemma datetime_eq (a b : datetime) : micros a = micros b -> a = b.
Proof. destruct a, b. cbn [micros]. now intros ->. Qed.

Lemma calculate_unfold (st : option (list (string * json))) (d : datetime) :
  latest_period_end st = Ok (Some d) ->
  calculate_next_simulation_period st
  = bind (next_window (Some d)) (fun w => Ok (render w)).
Proof. intros H. unfold calculate_next_simulation_period. now rewrite H. Qed.

Lemma day_branch (st : option (list (string * json))) (d : datetime) :
  latest_period_end st = Ok (Some d) -> hour d = 6 ->
  calculate_next_simulation_period st
  = Ok (Period (isoformat d) (isoformat (replace_hour d 18)) "day").
Proof.
  intros H H6. rewrite (calculate_unfold _ _ H). cbn [next_window].
  rewrite H6. reflexivity.
Qed.

Lemma night_branch (st : option (list (string * json))) (d n : datetime) :
  latest_period_end st = Ok (Some d) -> hour d <> 6 ->
  add d (days 1) = Ok n ->
  calculate_next_simulation_period st
  = Ok (Period (isoformat d) (isoformat (replace_hour n 6)) "night").
Proof.
  intros H H6 Hn. rewrite (calculate_unfold _ _ H). cbn [next_window].
  destruct (Z.eqb_spec (hour d) 6); [contradiction|].
  rewrite Hn. reflexivity.
Qed.

(** The end of a night window: the next day, hour 6, the other fields kept. *)
Lemma night_end_fields (d n : datetime) :
  add d (days 1) = Ok n ->
  toordinal (replace_hour n 6) = toordinal d + 1
  /\ hour (replace_hour n 6) = 6
  /\ minute (replace_hour n 6) = minute d
  /\ second (replace_hour n 6) = second d
  /\ microsecond (replace_hour n 6) = microsecond d.
Proof.
  intros Hn. destruct (add_one_day _ _ Hn) as (Ho & _ & Hmi & Hs & Hus).
  assert (H6 : 0 <= 6 < 24) by lia.
  destruct (replace_hour_fields n 6 H6) as (Ro & Rh & Rmi & Rs & Rus).
  repeat split; congruence.
Qed.

Lemma night_end_0600 (d n : datetime) :
  add d (days 1) = Ok n ->
  minute d = 0 -> second d = 0 -> microsecond d = 0 ->
  replace_hour n 6 = next_day_0600 d.
Proof.
  intros Hn Hmi Hs Hus.
  destruct (night_end_fields d n Hn) as (Ro & Rh & Rmi & Rs & Rus).
  apply datetime_eq. rewrite (micros_fields (replace_hour n 6)).
  rewrite Ro, Rh, Rmi, Rs, Rus, Hmi, Hs, Hus.
  unfold next_day_0600. cbn [micros]. lia.
Qed.

(** C1, as amended. From a latest recorded [period_end] at hour 6 the next
    window is [prior_end, prior_end + 12h) of type day. From hour 18 it
    starts at [prior_end], is of type night and ends on the next calendar
    day at hour 6 with the minute, second and microsecond of [prior_end],
    which is 06:00:00 of that day exactly when these are zero; the next day
    must be representable. The returned [period_start] is the text of the
    prior [period_end] and parses back to it. *)
Theorem next_period_after_latest
    (st : option (list (string * json))) (d : datetime) :
  latest_period_end st = Ok (Some d) ->
  (hour d = 6 ->
     add d (hours 12) = Ok (replace_hour d 18)
     /\ calculate_next_simulation_period st
        = Ok (Period (isoformat d) (isoformat (replace_hour d 18)) "day"))
  /\ (hour d = 18 -> forall n, add d (days 1) = Ok n ->
     calculate_next_simulation_period st
     = Ok (Period (isoformat d) (isoformat (replace_hour n 6)) "night")
     /\ toordinal (replace_hour n 6) = toordinal d + 1
     /\ hour (replace_hour n 6) = 6
     /\ minute (replace_hour n 6) = minute d
     /\ second (replace_hour n 6) = second d
     /\ microsecond (replace_hour n 6) = microsecond d
     /\ (minute d = 0 -> second d = 0 -> microsecond d = 0 ->
         replace_hour n 6 = next_day_0600 d))
  /\ fromisoformat (isoformat d) = Ok d.
Proof.
  intros H. pose proof (latest_period_end_valid _ _ H) as Hv.
  split; [|split].
  - intros H6. split; [|exact (day_branch st d H H6)].
    assert (Hr : valid (replace_hour d 18))
      by (apply valid_replace_hour; [lia|exact Hv]).
    pose proof (replace_hour_6_18 d H6) as E.
    unfold valid in Hr. rewrite E in Hr. rewrite (add_ok _ _ Hr).
    f_equal. apply datetime_eq. cbn [micros]. now rewrite E.
  - intros H18 n Hn. split.
    + apply (night_branch st d n H); [lia|exact Hn].
    + destruct (night_end_fields d n Hn) as (Ro & Rh & Rmi & Rs & Rus).
      repeat split; try assumption. exact (night_end_0600 d n Hn).
  - exact (fromisoformat_isoformat d Hv).
Qed.

Lemma next_period_after_latest_witness :
  latest_period_end (Some [("Sales_DB"%string, entity_ended "2025-05-01T18:00:00")])
  = Ok (Some (make 2025 5 1 18 0 0 0))
  /\ calculate_next_simulation_period
       (Some [("Sales_DB"%string, entity_ended "2025-05-01T18:00:00")])
     = Ok (Period "2025-05-01T18:00:00" "2025-05-02T06:00:00" "night").
Proof.
  assert (H : latest_period_end
                (Some [("Sales_DB"%string, entity_ended "2025-05-01T18:00:00")])
              = Ok (Some (make 2025 5 1 18 0 0 0))) by reflexivity.
  split; [exact H|].
  destruct (next_period_after_latest _ _ H) as (_ & Hn & _).
  destruct (Hn eq_refl (make 2025 5 2 18 0 0 0) eq_refl) as [E _].
  rewrite E. reflexivity.
Defined.

(** C1, as stated, fails: the latest [period_end] 2025-05-01T18:30:00 has
    hour 18, and the window returned ends at 06:30:00 of the next day, not
    at 06:00. *)
Lemma next_period_1830_ends_0630 :
  latest_period_end (Some [("Sales_DB"%string, entity_ended "2025-05-01T18:30:00")])
  = Ok (Some (make 2025 5 1 18 30 0 0))
  /\ hour (make 2025 5 1 18 30 0 0) = 18
  /\ isoformat (next_day_0600 (make 2025 5 1 18 30 0 0)) = "2025-05-02T06:00:00"%string
  /\ calculate_next_simulation_period
       (Some [("Sales_DB"%string, entity_ended "2025-05-01T18:30:00")])
     = Ok (Period "2025-05-01T18:30:00" "2025-05-02T06:30:00" "night")
  /\ calculate_next_simulation_period
       (Some [("Sales_DB"%string, entity_ended "2025-05-01T18:30:00")])
     <> Ok (Period "2025-05-01T18:30:00" "2025-05-02T06:00:00" "night").
Proof.
  assert (E : calculate_next_simulation_period
                (Some [("Sales_DB"%string, entity_ended "2025-05-01T18:30:00")])
              = Ok (Period "2025-05-01T18:30:00" "2025-05-02T06:30:00" "night"))
    by reflexivity.
  repeat split; try reflexivity. rewrite E. intros H.
  injection H as H. discriminate H.
Qed.

(** Every day but the last has a next day. *)
Lemma next_day_exists (d : datetime) :
  valid d -> toordinal d < MAXORDINAL ->
  add d (days 1) = Ok (DT (micros d + days 1)).
Proof.
  intros Hv Ho. apply add_ok. revert Hv Ho.
  unfold valid, MAX_MICROS, days, toordinal, US_PER_DAY, US_PER_SECOND,
    MAXORDINAL.
  intros Hv Ho. Z.div_mod_to_equations. lia.
Qed.

(** The last day, 9999-12-31, has none. *)
Lemma no_next_day (d : datetime) :
  valid d -> toordinal d = MAXORDINAL ->
  add d (days 1) = Raise OverflowError.
Proof.
  intros Hv Ho. unfold add, in_range.
  replace (micros d + days 1 <? MAX_MICROS) with false;
    [now rewrite andb_false_r|].
  symmetry. apply Z.ltb_ge. revert Hv Ho.
  unfold valid, MAX_MICROS, days, toordinal, US_PER_DAY, US_PER_SECOND,
    MAXORDINAL.
  intros Hv Ho. Z.div_mod_to_equations. lia.
Qed.

(** C10, as amended. A latest recorded [period_end] whose hour is not 6
    and which does not lie on the last day, 9999-12-31, gives a night window
    that starts at that timestamp and ends one day later with the hour
    replaced by 6, minute, second and microsecond kept; on the last day the
    addition of one day raises [OverflowError]; the window is of type day
    only for hour 6. *)
Theorem other_hour_takes_night_branch
    (st : option (list (string * json))) (d : datetime) :
  latest_period_end st = Ok (Some d) ->
  (hour d <> 6 -> toordinal d < MAXORDINAL ->
   exists n,
     add d (days 1) = Ok n
     /\ calculate_next_simulation_period st
        = Ok (Period (isoformat d) (isoformat (replace_hour n 6)) "night")
     /\ micros n = micros d + days 1
     /\ toordinal (replace_hour n 6) = toordinal d + 1
     /\ hour (replace_hour n 6) = 6
     /\ minute (replace_hour n 6) = minute d
     /\ second (replace_hour n 6) = second d
     /\ microsecond (replace_hour n 6) = microsecond d)
  /\ (hour d <> 6 -> toordinal d = MAXORDINAL ->
      calculate_next_simulation_period st = Raise OverflowError)
  /\ (forall p, calculate_next_simulation_period st = Ok p ->
      (period_type p = "day"%string <-> hour d = 6)).
Proof.
  intros H. pose proof (latest_period_end_valid _ _ H) as Hv.
  split; [|split].
  - intros H6 Ho. pose proof (next_day_exists d Hv Ho) as Hn.
    exists (DT (micros d + days 1)). split; [exact Hn|].
    split; [exact (night_branch st d _ H H6 Hn)|].
    split; [exact (proj1 (add_inv _ _ _ Hn))|].
    exact (night_end_fields d _ Hn).
  - intros H6 Ho. rewrite (calculate_unfold _ _ H). cbn [next_window].
    destruct (Z.eqb_spec (hour d) 6) as [E|_]; [contradiction|].
    now rewrite (no_next_day d Hv Ho).
  - intros p Hp. rewrite (calculate_unfold _ _ H) in Hp.
    cbn [next_window] in Hp. destruct (Z.eqb_spec (hour d) 6) as [E|E].
    + cbn [bind render] in Hp. injection Hp as <-. cbn [period_type].
      split; [intros _; exact E|reflexivity].
    + destruct (add d (days 1)) as [n|]; [|discriminate].
      cbn [bind render] in Hp. injection Hp as <-. cbn [period_type].
      split; [discriminate|contradiction].
Qed.

Lemma other_hour_takes_night_branch_witness :
  latest_period_end (Some [("Sales_DB"%string, entity_ended "2025-05-03T09:15:30")])
  = Ok (Some (make 2025 5 3 9 15 30 0))
  /\ calculate_next_simulation_period
       (Some [("Sales_DB"%string, entity_ended "2025-05-03T09:15:30")])
     = Ok (Period "2025-05-03T09:15:30" "2025-05-04T06:15:30" "night").
Proof.
  assert (H : latest_period_end
                (Some [("Sales_DB"%string, entity_ended "2025-05-03T09:15:30")])
              = Ok (Some (make 2025 5 3 9 15 30 0))) by reflexivity.
  split; [exact H|].
  destruct (other_hour_takes_night_branch _ _ H) as [Hn _].
  assert (H9 : hour (make 2025 5 3 9 15 30 0) <> 6) by (vm_compute; discriminate).
  assert (Ho : toordinal (make 2025 5 3 9 15 30 0) < MAXORDINAL)
    by (vm_compute; reflexivity).
  destruct (Hn H9 Ho) as (n & Ea & E & _).
  assert (En : add (make 2025 5 3 9 15 30 0) (days 1)
               = Ok (make 2025 5 4 9 15 30 0)) by reflexivity.
  rewrite En in Ea. injection Ea as <-.
  rewrite E. reflexivity.
Defined.

(** C10, as stated, fails. The latest [period_end] 9999-12-31T09:15:30 has
    hour 9, which is not 6, and no night period is returned: the timestamp
    plus one day is past the last day of [datetime], and the function raises
    [OverflowError]. *)
Lemma other_hour_on_last_day_raises :
  latest_period_end (Some [("Sales_DB"%string, entity_ended "9999-12-31T09:15:30")])
  = Ok (Some (make 9999 12 31 9 15 30 0))
  /\ hour (make 9999 12 31 9 15 30 0) = 9
  /\ calculate_next_simulation_period
       (Some [("Sales_DB"%string, entity_ended "9999-12-31T09:15:30")])
     = Raise OverflowError.
Proof.
  split; [reflexivity|]. split; reflexivity.
Qed.

End ClockClaims.

(** ** The scan of the state: latest value, empty state, scalar entries *)

Module ScanClaims.

Import Calendar Datetime Clock DatetimeFacts IsoFacts ClockFacts ClockClaims.

Lemma latest_period_end_no_scalar (items : list (string * json)) :
  no_scalar items ->
  latest_period_end (Some items) = Ok (latest_recorded items None).
Proof.
  intros H. unfold latest_period_end. destruct items as [|e items].
  - reflexivity.
  - exact (scan_no_scalar _ H None).
Qed.

(** On a state with no scalar [last_period] and at least one parseable
    [period_end], the clock advances from the maximum of the parseable
    [period_end] of all entities. *)
Lemma advances_from_maximum (items : list (string * json)) :
  no_scalar items ->
  (exists e pe, In e items /\ recorded_period_end (snd e) = Some pe) ->
  exists d,
    latest_period_end (Some items) = Ok (Some d)
    /\ (exists e, In e items /\ recorded_period_end (snd e) = Some d)
    /\ (forall e pe, In e items -> recorded_period_end (snd e) = Some pe ->
        micros pe <= micros d)
    /\ calculate_next_simulation_period (Some items)
       = bind (next_window (Some d)) (fun w => Ok (render w)).
Proof.
  intros Hs (e & pe & Hin & Hr).
  pose proof (latest_period_end_no_scalar items Hs) as El.
  pose proof (latest_recorded_max items None) as Hm.
  destruct (latest_recorded items None) as [d|].
  - destruct Hm as (_ & Hmax & [Hd|Hd]); [discriminate|].
    exists d. repeat split; try assumption.
    exact (calculate_unfold _ _ El).
  - destruct Hm as [_ Hnone]. rewrite (Hnone e Hin) in Hr. discriminate.
Qed.

(** On [None], on the empty state and on a state with no scalar
    [last_period] and no parseable [period_end], the clock returns the epoch
    window. *)
Lemma epoch_without_record (st : option (list (string * json))) :
  match st with
  | None => True
  | Some items =>
      no_scalar items
      /\ forall e, In e items -> recorded_period_end (snd e) = None
  end ->
  calculate_next_simulation_period st
  = Ok (Period "2025-05-01T06:00:00" "2025-05-01T18:00:00" "day").
Proof.
  destruct st as [items|]; [|reflexivity].
  intros [Hs Hnone].
  unfold calculate_next_simulation_period.
  rewrite (latest_period_end_no_scalar items Hs).
  pose proof (latest_recorded_max items None) as Hm.
  destruct (latest_recorded items None) as [d|]; [|reflexivity].
  destruct Hm as (_ & _ & [Hd|(e & Hin & Hr)]); [discriminate|].
  rewrite (Hnone e Hin) in Hr. discriminate.
Qed.

Lemma raises_on_scalar (items : list (string * json)) :
  Exists (fun e => scalar_last_period (snd e) = true) items ->
  calculate_next_simulation_period (Some items) = Raise TypeError.
Proof.
  intros H. unfold calculate_next_simulation_period, latest_period_end.
  destruct items as [|e items]; [inversion H|].
  now rewrite (scan_scalar _ H).
Qed.

(** C2, the failing input. One entity has the parseable [period_end]
    2025-05-01T18:00:00 and its sibling has the number 5 as [last_period]:
    the clock does not advance from the maximum, it raises [TypeError]. *)
Theorem scalar_sibling_raises :
  recorded_period_end (entity_ended "2025-05-01T18:00:00")
  = Some (make 2025 5 1 18 0 0 0)
  /\ calculate_next_simulation_period
       (Some [("Sales_DB"%string, entity_ended "2025-05-01T18:00:00");
              ("Audit_DB"%string, JDict [("last_period"%string, JNum 5)])])
     = Raise TypeError.
Proof. split; reflexivity. Qed.

(** C7, the failing input. The only entity has the number 5 as
    [last_period], which is no usable last period: the clock does not return
    the epoch window, it raises [TypeError]. *)
Theorem scalar_only_raises :
  recorded_period_end (JDict [("last_period"%string, JNum 5)]) = None
  /\ calculate_next_simulation_period
       (Some [("Audit_DB"%string, JDict [("last_period"%string, JNum 5)])])
     = Raise TypeError.
Proof. split; reflexivity. Qed.

End ScanClaims.

(** ** Numbers and random draws *)

Module NumFacts.

Import Num Random.
Local Open Scope Q_scope.

Lemma py_int_nonneg (x : Q) : 0 <= x -> (0 <= py_int x)%Z.
Proof.
  unfold Qle, py_int. destruct x as [n d]. cbn [Qnum Qden]. intros H.
  apply Z.quot_pos; lia.
Qed.

(** On a non-negative number [int] is the floor. *)
Lemma py_int_floor (x : Q) : 0 <= x -> py_int x = Qfloor x.
Proof.
  unfold Qle, py_int, Qfloor. destruct x as [n d]. cbn [Qnum Qden]. intros H.
  apply Z.quot_div_nonneg; lia.
Qed.

Lemma py_int_le (x : Q) : 0 <= x -> inject_Z (py_int x) <= x.
Proof. intros H. rewrite (py_int_floor x H). apply Qfloor_le. Qed.

Lemma py_int_gt (x : Q) : 0 <= x -> x < inject_Z (py_int x + 1).
Proof. intros H. rewrite (py_int_floor x H). apply Qlt_floor. Qed.

Lemma py_int_mono (x y : Q) : 0 <= x -> x <= y -> (py_int x <= py_int y)%Z.
Proof.
  intros Hx Hxy. rewrite (py_int_floor x Hx).
  rewrite (py_int_floor y) by (eapply Qle_trans; eassumption).
  now apply Qfloor_resp_le.
Qed.

Lemma Qltb_lt (a b : Q) : Qltb a b = true <-> a < b.
Proof.
  unfold Qltb. rewrite Qlt_alt. destruct (Qcompare a b); split; congruence.
Qed.

Lemma Qltb_ge (a b : Q) : Qltb a b = false <-> b <= a.
Proof.
  split.
  - intros H. apply Qnot_lt_le. intros Hlt. apply Qltb_lt in Hlt. congruence.
  - intros H. destruct (Qltb a b) eqn:E; [|reflexivity].
    apply Qltb_lt in E. exfalso. exact (Qle_not_lt _ _ H E).
Qed.

(** Rounding half to even moves a number by at most one half. *)
Lemma round_half_even_error (x : Q) :
  - (1 # 2) <= inject_Z (round_half_even x) - x <= 1 # 2.
Proof.
  unfold round_half_even. cbv zeta.
  pose proof (Qfloor_le x) as Hlo. pose proof (Qlt_floor x) as Hhi.
  rewrite inject_Z_plus in Hhi. change (inject_Z 1) with 1 in Hhi.
  destruct (Qcompare_spec (x - inject_Z (Qfloor x)) (1 # 2)) as [E|E|E].
  - destruct (Z.even (Qfloor x)).
    + lra.
    + rewrite inject_Z_plus. change (inject_Z 1) with 1. lra.
  - lra.
  - rewrite inject_Z_plus. change (inject_Z 1) with 1. lra.
Qed.

Lemma round3_error (x : Q) :
  - (1 # 2000) <= round3 x - x <= 1 # 2000.
Proof.
  unfold round3. pose proof (round_half_even_error (x * 1000)) as H.
  set (r := inject_Z (round_half_even (x * 1000))) in *.
  unfold Qdiv. change (/ 1000) with (1 # 1000). lra.
Qed.

(** *** Draws *)

Lemma random_range (g : rng) : 0 <= fst (random g) < 1.
Proof.
  unfold random, bindR, next, ret. cbn [fst].
  pose proof (Z.mod_pos_bound (src g (pos g)) (2 ^ 53)) as H.
  unfold Qle, Qlt. cbn [Qnum Qden].
  change (Z.pos (2 ^ 53)) with (2 ^ 53)%Z. lia.
Qed.

Lemma uniform_range (a b : Q) (g : rng) :
  a <= b -> a <= fst (uniform a b g) <= b.
Proof.
  intros Hab. pose proof (random_range g) as Hr.
  unfold uniform, bindR.
  destruct (random g) as [r g']. cbn [fst ret] in *.
  assert (H1 : 0 <= (b - a) * r) by (apply Qmult_le_0_compat; lra).
  assert (H2 : 0 <= (b - a) * (1 - r)) by (apply Qmult_le_0_compat; lra).
  lra.
Qed.

Lemma randint_range (a b : Z) (g : rng) :
  (a <= b -> a <= fst (randint a b g) <= b)%Z.
Proof.
  intros Hab. unfold randint, bindR, next, ret. cbn [fst].
  pose proof (Z.mod_pos_bound (src g (pos g)) (b - a + 1)). lia.
Qed.

Lemma choice_in {A : Type} (x : A) (xs : list A) (g : rng) :
  In (fst (choice x xs g)) (x :: xs).
Proof.
  unfold choice, bindR, next, ret. cbn [fst].
  set (n := Z.of_nat (List.length (x :: xs))).
  assert (Hn : (0 < n)%Z) by (unfold n; cbn [List.length]; lia).
  pose proof (Z.mod_pos_bound (src g (pos g)) n Hn) as Hk.
  apply nth_In. fold n.
  set (m := (src g (pos g) mod n)%Z) in *. clearbody m.
  unfold n in *. lia.
Qed.

End NumFacts.

(** ** I/O counters and size split *)

Module GrowthClaims.

Import Num Random Growth NumFacts.
Local Open Scope Q_scope.

Lemma io_multipliers_nonneg (period_type server_type : string) :
  0 <= fst (io_multipliers period_type server_type)
  /\ 0 <= snd (io_multipliers period_type server_type).
Proof.
  unfold io_multipliers.
  destruct (String.eqb period_type "day");
    destruct (String.eqb server_type "oltp_production");
    try destruct (String.eqb server_type "reporting_analytics");
    cbn [fst snd]; split; discriminate.
Qed.

Lemma scaled_count_nonneg (b m u : Q) :
  0 <= b -> 0 <= m -> 0 <= u ->
  (0 <= py_int (b * m * inject_Z (12 * 3600) * u))%Z.
Proof.
  intros Hb Hm Hu. apply py_int_nonneg.
  repeat apply Qmult_le_0_compat; try assumption. discriminate.
Qed.

(** One invocation: both counts are non-negative and are added to the
    counters found in the state (0 when the key is absent). *)
Lemma io_step (s : db_state) (baseline : io_baselines) (p : period)
    (server_type : string) (g : rng) :
  0 <= reads_per_second_baseline baseline ->
  0 <= writes_per_second_baseline baseline ->
  let '(io, s') := fst (generate_raw_io_data s baseline p server_type g) in
  (0 <= reads io)%Z /\ (0 <= writes io)%Z
  /\ cumulative_reads s' = Some (get (cumulative_reads s) 0 + reads io)%Z
  /\ cumulative_writes s' = Some (get (cumulative_writes s) 0 + writes io)%Z
  /\ io_cumulative_reads io = (get (cumulative_reads s) 0 + reads io)%Z
  /\ io_cumulative_writes io = (get (cumulative_writes s) 0 + writes io)%Z.
Proof.
  intros Hr Hw. unfold generate_raw_io_data.
  pose proof (io_multipliers_nonneg (period_type p) server_type) as [Hmr Hmw].
  destruct (io_multipliers (period_type p) server_type) as [mr mw].
  cbn [fst snd] in Hmr, Hmw. cbv zeta. unfold bindR.
  pose proof (uniform_range (85 # 100) (115 # 100) g) as H1.
  destruct (uniform (85 # 100) (115 # 100) g) as [u1 g1]. cbn [fst] in H1.
  pose proof (uniform_range (85 # 100) (115 # 100) g1) as H2.
  destruct (uniform (85 # 100) (115 # 100) g1) as [u2 g2]. cbn [fst] in H2.
  cbn [ret fst reads writes io_cumulative_reads io_cumulative_writes
       with_cumulative cumulative_reads cumulative_writes].
  assert (0 <= u1) by (apply Qle_trans with (85 # 100);
                       [discriminate | apply H1; discriminate]).
  assert (0 <= u2) by (apply Qle_trans with (85 # 100);
                       [discriminate | apply H2; discriminate]).
  repeat split; try reflexivity; apply scaled_count_nonneg; assumption.
Qed.

(** C6. Over any sequence of invocations of [generate_raw_io_data] on one
    entity whose configured baselines are non-negative, every invocation
    adds a non-negative amount to each counter: the counters after the
    sequence are not below the counters before it, and each report carries
    counters not below those of the state it started from. *)
Theorem cumulative_io_non_decreasing
    (calls : list (io_baselines * period * string)) :
  Forall nonneg_baselines calls ->
  forall (s : db_state) (g : rng),
  let '(ios, s') := fst (io_runs calls s g) in
  Forall (fun io => (0 <= reads io)%Z /\ (0 <= writes io)%Z) ios
  /\ Forall (fun io =>
       (get (cumulative_reads s) 0 <= io_cumulative_reads io)%Z
       /\ (get (cumulative_writes s) 0 <= io_cumulative_writes io)%Z) ios
  /\ (get (cumulative_reads s) 0 <= get (cumulative_reads s') 0)%Z
  /\ (get (cumulative_writes s) 0 <= get (cumulative_writes s') 0)%Z.
Proof.
  induction 1 as [|[[baseline p] server_type] rest [Hr Hw] _ IH]; intros s g.
  - cbn [io_runs ret fst]. repeat split; try constructor; lia.
  - cbn [io_runs]. unfold bindR at 1. cbn [fst snd] in Hr, Hw.
    pose proof (io_step s baseline p server_type g Hr Hw) as Hs.
    destruct (generate_raw_io_data s baseline p server_type g) as [[io s1] g1].
    cbn [fst] in Hs. destruct Hs as (Hrn & Hwn & Hcr & Hcw & Hir & Hiw).
    unfold bindR. specialize (IH s1 g1).
    destruct (io_runs rest s1 g1) as [[ios s2] g2]. cbn [fst ret] in *.
    destruct IH as (Hn & Hc & Hmr & Hmw).
    rewrite Hcr in Hmr, Hc. rewrite Hcw in Hmw, Hc. cbn [get] in Hmr, Hmw, Hc.
    repeat split.
    + constructor; [split; assumption | assumption].
    + constructor; [split; lia|].
      eapply Forall_impl; [|exact Hc]. cbn beta. intros io' [? ?]. split; lia.
    + lia.
    + lia.
Qed.

Lemma cumulative_io_non_decreasing_witness :
  Forall nonneg_baselines
    [(IoBaselines 1200 300,
      Period "2025-05-01T06:00:00" "2025-05-01T18:00:00" "day",
      "oltp_production"%string)]
  /\ (7 <= get (cumulative_reads
            (snd (fst (io_runs
               [(IoBaselines 1200 300,
                 Period "2025-05-01T06:00:00" "2025-05-01T18:00:00" "day",
                 "oltp_production"%string)]
               (DbState None None None (Some 7%Z) None [] None)
               (Rng (fun _ => 0%Z) 0))))) 0)%Z.
Proof.
  assert (H : Forall nonneg_baselines
    [(IoBaselines 1200 300,
      Period "2025-05-01T06:00:00" "2025-05-01T18:00:00" "day",
      "oltp_production"%string)]).
  { constructor; [|constructor]. split; discriminate. }
  split; [exact H|].
  pose proof (cumulative_io_non_decreasing _ H
                (DbState None None None (Some 7%Z) None [] None)
                (Rng (fun _ => 0%Z) 0)) as T.
  destruct (io_runs _ _ _) as [[ios s'] g'] in T |- *.
  cbn [fst snd]. exact (proj1 (proj2 (proj2 T))).
Defined.

(** The data fractions of the three classes. *)
Lemma data_ratio_values :
  data_ratio "oltp_production" == 0.75
  /\ data_ratio "reporting_analytics" == 0.90
  /\ data_ratio "reference_config" == 0.95.
Proof. repeat split; reflexivity. Qed.

(** C8. The data and log sizes returned are the roundings to 3 decimals of
    the two shares of one size whose rounding is the total, the data share
    being the fixed fraction of the class; their sum differs from the total
    by at most the three rounding errors of 0.0005 each. *)
Theorem size_split_sums_to_total (s : db_state) (p : period)
    (server_type : string) (g : rng) :
  let sd := fst (generate_raw_size_data s p server_type g) in
  exists new_size,
    total_gb sd = round3 new_size
    /\ data_file_gb sd = round3 (new_size * data_ratio server_type)
    /\ log_file_gb sd = round3 (new_size * (1 - data_ratio server_type))
    /\ - (3 # 2000) <= data_file_gb sd + log_file_gb sd - total_gb sd
       <= 3 # 2000.
Proof.
  unfold generate_raw_size_data. cbv zeta. unfold bindR.
  destruct (pattern_growth _ _ g) as [growth g1].
  destruct (uniform (9 # 10) (11 # 10) g1) as [variance g2].
  cbn [ret fst total_gb data_file_gb log_file_gb].
  set (new_size := Qmax _ _).
  exists new_size. repeat split.
  - pose proof (round3_error new_size).
    pose proof (round3_error (new_size * data_ratio server_type)).
    pose proof (round3_error (new_size * (1 - data_ratio server_type))).
    lra.
  - pose proof (round3_error new_size).
    pose proof (round3_error (new_size * data_ratio server_type)).
    pose proof (round3_error (new_size * (1 - data_ratio server_type))).
    lra.
Qed.

End GrowthClaims.

(** ** Cleanup policy and row floor *)

Module TableClaims.

Import Num Random Tables NumFacts.
Local Open Scope Q_scope.

Ltac break_let :=
  repeat match goal with
  | |- context [let (_, _) := ?x in _] => destruct x
  | |- context [let '(_, _) := ?x in _] => destruct x
  end.

(** [int(current_rows * 0.5)] is half the row count, truncated. *)
Lemma max_deletion_half (current_rows : Z) :
  max_deletion current_rows = Z.quot current_rows 2.
Proof.
  unfold max_deletion, py_int. cbn [Qnum Qden Qmult inject_Z].
  change (Z.pos (1 * 10)) with (2 * 5)%Z.
  apply Z.quot_mul_cancel_r; lia.
Qed.

(** A factor between [lo] and [hi] applied to a non-negative growth. *)
Lemma scaled_growth_bounds (pg : Z) (lo hi f : Q) :
  (0 <= pg)%Z -> 0 <= lo -> lo <= f <= hi ->
  inject_Z (py_int (inject_Z pg * f)) <= hi * inject_Z pg
  /\ lo * inject_Z pg < inject_Z (py_int (inject_Z pg * f)) + 1.
Proof.
  intros Hpg Hlo [Hf1 Hf2].
  assert (Hq : 0 <= inject_Z pg).
  { change 0 with (inject_Z 0). now rewrite <- Zle_Qle. }
  assert (Hx : 0 <= inject_Z pg * f).
  { apply Qmult_le_0_compat; [assumption|]. now apply Qle_trans with lo. }
  pose proof (py_int_le _ Hx) as H1. pose proof (py_int_gt _ Hx) as H2.
  rewrite inject_Z_plus in H2. change (inject_Z 1) with 1 in H2.
  assert (0 <= inject_Z pg * (hi - f)) by (apply Qmult_le_0_compat; lra).
  assert (0 <= inject_Z pg * (f - lo)) by (apply Qmult_le_0_compat; lra).
  split; lra.
Qed.

Lemma deletion_policy_branch (pg : Z) (g : rng) :
  (0 <= pg)%Z -> policy_branch pg g (fst (deletion_policy pg g)).
Proof.
  intros Hpg. unfold policy_branch, deletion_policy, bindR. cbv zeta.
  destruct (random g) as [r1 g1]. cbn [fst snd].
  destruct (Qltb r1 (15 # 100)) eqn:E1.
  - left. apply Qltb_lt in E1.
    pose proof (uniform_range (12 # 10) 2 g1) as Hu.
    destruct (uniform (12 # 10) 2 g1) as [f g2]. cbn [fst ret] in *.
    specialize (Hu ltac:(discriminate)).
    pose proof (scaled_growth_bounds pg (12 # 10) 2 f Hpg ltac:(discriminate) Hu).
    repeat split; try tauto. exists f. tauto.
  - right. apply Qltb_ge in E1.
    destruct (random g1) as [r2 g2]. cbn [fst snd].
    destruct (Qltb r2 (10 # 100)) eqn:E2.
    + left. apply Qltb_lt in E2. cbn [ret fst]. tauto.
    + right. apply Qltb_ge in E2.
      pose proof (uniform_range (3 # 10) (9 # 10) g2) as Hu.
      destruct (uniform (3 # 10) (9 # 10) g2) as [f g3]. cbn [fst ret] in *.
      specialize (Hu ltac:(discriminate)).
      pose proof (scaled_growth_bounds pg (3 # 10) (9 # 10) f Hpg
                    ltac:(discriminate) Hu).
      repeat split; try tauto. exists f. tauto.
Qed.

Lemma process_table_rows (server_type period_type growth_pattern : string)
    (table_name : string) (ts : table_state)
    (histories : list (string * cleanup_history)) (g : rng) :
  let '(td, ts', _) :=
    fst (process_table server_type period_type growth_pattern table_name ts
           histories g) in
  td_rows td = Z.max 1000 (rows ts + td_rows_added td - td_rows_deleted td)
  /\ (1000 <= td_rows td)%Z /\ rows ts' = td_rows td.
Proof.
  unfold process_table. cbv zeta. unfold bindR.
  destruct (period_growth_of ts server_type period_type g) as [pg g1].
  destruct (get (has_cleanup ts) false).
  - destruct (calculate_realistic_cleanup _ _ _ _ _ _ g1) as [[occ del] g2].
    destruct occ; cbn [ret fst td_rows td_rows_added td_rows_deleted
                       with_rows rows]; repeat split; lia.
  - cbn [ret fst td_rows td_rows_added td_rows_deleted with_rows rows].
    repeat split; lia.
Qed.

Lemma process_tables_rows (server_type period_type growth_pattern : string)
    (todo : list (string * table_state)) :
  forall (histories : list (string * cleanup_history)) (g : rng),
  let '(tds, tss, _) :=
    fst (process_tables server_type period_type growth_pattern todo
           histories g) in
  Forall (fun td => (1000 <= td_rows td)%Z) tds
  /\ Forall (fun kv => (1000 <= rows (snd kv))%Z) tss.
Proof.
  induction todo as [|[name ts] rest IH]; intros histories g.
  - cbn [process_tables ret fst]. split; constructor.
  - cbn [process_tables]. unfold bindR at 1.
    pose proof (process_table_rows server_type period_type growth_pattern
                  name ts histories g) as H1.
    destruct (process_table _ _ _ name ts histories g) as [[[td ts'] h1] g1].
    cbn [fst] in H1. destruct H1 as (_ & Hr & Hs).
    unfold bindR. specialize (IH h1 g1).
    destruct (process_tables _ _ _ rest h1 g1) as [[[tds tss] h2] g2].
    cbn [fst ret] in *. destruct IH as [IH1 IH2].
    split; constructor; try assumption. cbn [snd]. lia.
Qed.

(** C3. When cleanup runs for a table on a non-negative period growth, the
    rows deleted are the candidate of the ordered three-branch policy (first
    draw below 0.15: 1.2 to 2.0 times the growth; else second draw below
    0.10: the growth itself; else 0.3 to 0.9 times the growth), capped at
    half the current rows and floored at zero, whatever the table name and
    history. Every row count produced by [generate_raw_table_data] is at
    least 1000. *)
Theorem cleanup_policy_and_row_floor :
  (forall (table_name : string) (ts : table_state) (h : cleanup_history)
          (pg : Z) (growth_pattern period_type : string) (g g' : rng)
          (del : Z),
     (0 <= pg)%Z ->
     calculate_realistic_cleanup table_name ts h pg growth_pattern period_type g
     = ((true, del), g') ->
     exists g1 cand,
       deletion_policy pg g1 = (cand, g')
       /\ policy_branch pg g1 cand
       /\ del = Z.max 0 (Z.min cand (max_deletion (rows ts)))
       /\ max_deletion (rows ts) = Z.quot (rows ts) 2
       /\ (0 <= del)%Z
       /\ ((0 <= rows ts)%Z -> (2 * del <= rows ts)%Z))
  /\ (forall (s : db_state) (server_type : string) (p : period) (g : rng),
      let '(tds, s') := fst (generate_raw_table_data s server_type p g) in
      Forall (fun td => (1000 <= td_rows td)%Z) tds
      /\ Forall (fun kv => (1000 <= rows (snd kv))%Z) (tables s')).
Proof.
  split.
  - intros table_name ts h pg growth_pattern period_type g g' del Hpg.
    unfold calculate_realistic_cleanup. cbv zeta. unfold bindR.
    destruct (random g) as [r g0].
    destruct (Qltb (cleanup_probability growth_pattern) r);
      [cbn [ret]; intros H; discriminate|].
    destruct (base_cleanup_pct table_name g0) as [pct g1].
    pose proof (deletion_policy_branch pg g1 Hpg) as Hb.
    destruct (deletion_policy pg g1) as [cand g2] eqn:Ed. cbn [fst] in Hb.
    cbn [ret]. intros H. injection H as <- <-.
    exists g1, cand. rewrite Ed. repeat split; try assumption; try lia.
    + apply max_deletion_half.
    + intros Hrows. rewrite max_deletion_half.
      pose proof (Z.quot_rem' (rows ts) 2).
      pose proof (Z.rem_bound_pos (rows ts) 2 Hrows ltac:(lia)). lia.
  - intros s server_type p g. unfold generate_raw_table_data. cbv zeta.
    unfold bindR.
    pose proof (process_tables_rows server_type (period_type p)
                  (get (growth_pattern s) "stable"%string) (tables s)
                  (get (table_cleanup_history s) []) g) as H.
    destruct (process_tables _ _ _ (tables s) _ g) as [[[tds tss] h] g1].
    cbn [fst ret tables] in *. exact H.
Qed.

Lemma cleanup_policy_and_row_floor_witness :
  (0 <= 100)%Z
  /\ calculate_realistic_cleanup "Orders"
       (TableState 10000 1000 256 (Some true))
       (CleanupHistory true 0 ("Orders"%string, "oltp_production"%string) 1)
       100 "stable" "day" (Rng (fun _ => 0%Z) 0)
     = ((true, 120%Z), Rng (fun _ => 0%Z) 4)
  /\ (2 * 120 <= 10000)%Z.
Proof.
  assert (H0 : (0 <= 100)%Z) by lia.
  assert (H1 : calculate_realistic_cleanup "Orders"
       (TableState 10000 1000 256 (Some true))
       (CleanupHistory true 0 ("Orders"%string, "oltp_production"%string) 1)
       100 "stable" "day" (Rng (fun _ => 0%Z) 0)
     = ((true, 120%Z), Rng (fun _ => 0%Z) 4)) by reflexivity.
  split; [exact H0|]. split; [exact H1|].
  destruct (proj1 cleanup_policy_and_row_floor _ _ _ _ _ _ _ _ _ H0 H1)
    as (g1 & cand & _ & _ & _ & _ & _ & Hh).
  apply Hh. cbn [rows]. lia.
Defined.

End TableClaims.

(** ** Autogrowth events *)

Module EventFacts.

Import Calendar Datetime Num Random Autogrowth.
Import DatetimeFacts IsoFacts NumFacts.
Local Open Scope Q_scope.

Lemma round_half_even_between (x : Q) (a b : Z) :
  inject_Z a <= x <= inject_Z b -> (a <= round_half_even x <= b)%Z.
Proof.
  intros [Ha Hb]. pose proof (round_half_even_error x) as [E1 E2].
  assert (H1 : (a < round_half_even x + 1)%Z).
  { rewrite Zlt_Qlt. rewrite inject_Z_plus. change (inject_Z 1) with 1. lra. }
  assert (H2 : (round_half_even x < b + 1)%Z).
  { rewrite Zlt_Qlt. rewrite inject_Z_plus. change (inject_Z 1) with 1. lra. }
  lia.
Qed.

(** The offset drawn for an event, in microseconds, lies between 0 and the
    span of the period, both included. *)
Lemma offset_between (span : timedelta) (g : rng) :
  (Z.min 0 span
   <= timedelta_of_seconds (fst (uniform 0 (total_seconds span) g))
   <= Z.max 0 span)%Z.
Proof.
  unfold uniform, bindR. pose proof (random_range g) as [R0 R1].
  destruct (random g) as [r g']. cbn [fst ret] in *.
  unfold timedelta_of_seconds, total_seconds, US_PER_SECOND, Qdiv.
  change (/ inject_Z 1000000) with (1 # 1000000).
  change (inject_Z 1000000) with 1000000.
  set (s := inject_Z span).
  apply round_half_even_between.
  destruct (Z.le_ge_cases 0 span) as [Hs|Hs].
  - rewrite Z.min_l, Z.max_r by lia. fold s. change (inject_Z 0) with 0.
    assert (0 <= s) by (unfold s; change 0 with (inject_Z 0);
                        now rewrite <- Zle_Qle).
    assert (0 <= s * r) by (apply Qmult_le_0_compat; lra).
    assert (0 <= s * (1 - r)) by (apply Qmult_le_0_compat; lra).
    lra.
  - rewrite Z.min_r, Z.max_l by lia. fold s. change (inject_Z 0) with 0.
    assert (0 <= - s).
    { unfold s. change 0 with (inject_Z 0). rewrite <- inject_Z_opp.
      rewrite <- Zle_Qle. lia. }
    assert (0 <= (- s) * r) by (apply Qmult_le_0_compat; lra).
    assert (0 <= (- s) * (1 - r)) by (apply Qmult_le_0_compat; lra).
    lra.
Qed.

End EventFacts.

(** ** Claims on the autogrowth events *)

Module EventClaims.

Import Calendar Datetime Num Random Autogrowth.
Import DatetimeFacts IsoFacts IsoOrder NumFacts EventFacts.
Local Open Scope Z_scope.

Lemma increment_of_small (file_type : string) (g : rng) :
  In (fst (increment_of true file_type g)) [8; 16; 32; 64; 128].
Proof.
  unfold increment_of, bindR. destruct (random g) as [r g1].
  destruct (Qltb r (8 # 10)).
  - pose proof (choice_in 8 [16; 32] g1) as H. cbn in H |- *. tauto.
  - pose proof (choice_in 64 [128] g1) as H. cbn in H |- *. tauto.
Qed.

(** An event is made without an exception when the period lies in the
    years 1 to 9999; its timestamp is an instant between the two ends of the
    period, and its increment is one of the small ones for the anomaly. *)
Lemma make_event_ok (anomaly : bool) (start end_ : datetime) (g : rng) :
  valid start -> valid end_ ->
  exists ev g',
    make_event anomaly start (total_seconds (sub end_ start)) g = Ok (ev, g')
    /\ (exists t, timestamp ev = isoformat t /\ valid t
        /\ Z.min (micros start) (micros end_) <= micros t
           <= Z.max (micros start) (micros end_))
    /\ (anomaly = true -> small_increment ev).
Proof.
  intros Hs He. unfold make_event.
  pose proof (offset_between (sub end_ start) g) as Ho.
  destruct (uniform 0 (total_seconds (sub end_ start)) g) as [offset g1].
  cbn [fst] in Ho. unfold sub in Ho.
  set (td := timedelta_of_seconds offset) in *.
  assert (Hr : 0 <= micros start + td < MAX_MICROS)
    by (unfold valid in *; lia).
  rewrite (add_ok _ _ Hr).
  destruct (random g1) as [r g2].
  set (file_type := if Qltb r (7 # 10) then "data"%string else "log"%string).
  pose proof (increment_of_small file_type g2) as Hi.
  destruct (increment_of anomaly file_type g2) as [inc g3] eqn:Einc.
  destruct ((if String.eqb file_type "data" then randint 5000 20000
             else randint 500 2000) g3) as [prev g4].
  destruct (duration_of inc g4) as [dur g5].
  destruct (random g5) as [rb g6].
  destruct (randint 50 500 g6) as [wait g7].
  destruct ((if Qltb rb (7 # 10) then randint 1 10 else ret 0) g7)
    as [blocked g8].
  eexists. eexists. split; [reflexivity|]. cbn [timestamp increment_mb]. split.
  - exists (DT (micros start + td)). split; [reflexivity|].
    split; [exact Hr|]. cbn [micros]. lia.
  - intros ->. unfold small_increment. cbn [increment_mb].
    rewrite Einc in Hi. exact Hi.
Qed.

Lemma make_events_ok (n : nat) (anomaly : bool) (start end_ : datetime) :
  valid start -> valid end_ ->
  forall g, exists evs g',
    make_events n anomaly start (total_seconds (sub end_ start)) g
    = Ok (evs, g')
    /\ List.length evs = n
    /\ Forall (fun ev =>
         (exists t, timestamp ev = isoformat t /\ valid t
            /\ Z.min (micros start) (micros end_) <= micros t
               <= Z.max (micros start) (micros end_))
         /\ (anomaly = true -> small_increment ev)) evs.
Proof.
  intros Hs He. induction n as [|n IH]; intros g.
  - exists [], g. repeat split. constructor.
  - cbn [make_events].
    destruct (make_event_ok anomaly start end_ g Hs He)
      as (ev & g1 & E1 & Ht & Hi).
    rewrite E1. destruct (IH g1) as (evs & g2 & E2 & Hl & Hall).
    rewrite E2. exists (ev :: evs), g2. repeat split.
    + cbn [List.length]. now rewrite Hl.
    + constructor; [split; assumption | assumption].
Qed.

(** *** The sort *)

Lemma insert_perm (ev : event) (l : list event) :
  Permutation (ev :: l) (insert ev l).
Proof.
  induction l as [|x l IH]; cbn [insert]; [reflexivity|].
  destruct (String.leb (timestamp ev) (timestamp x)); [reflexivity|].
  rewrite perm_swap. now constructor.
Qed.

Lemma sort_perm (l : list event) : Permutation l (sort l).
Proof.
  induction l as [|x l IH]; cbn [sort]; [constructor|].
  rewrite <- insert_perm. now constructor.
Qed.

Lemma insert_sorted (ev : event) (l : list event) :
  Sorted timestamp_le l -> Sorted timestamp_le (insert ev l).
Proof.
  induction 1 as [|x l Hs IH Hh]; cbn [insert].
  - repeat constructor.
  - destruct (String.leb (timestamp ev) (timestamp x)) eqn:E.
    + constructor; [now constructor|]. constructor. exact E.
    + assert (Hxe : timestamp_le x ev).
      { unfold timestamp_le.
        destruct (String.leb_total (timestamp x) (timestamp ev)) as [H|H];
          [exact H | congruence]. }
      constructor; [exact IH|].
      destruct l as [|y l]; cbn [insert].
      * constructor. exact Hxe.
      * destruct (String.leb (timestamp ev) (timestamp y));
          constructor; [exact Hxe|]. now inversion Hh.
Qed.

Lemma sort_sorted (l : list event) : Sorted timestamp_le (sort l).
Proof.
  induction l as [|x l IH]; cbn [sort]; [constructor|].
  now apply insert_sorted.
Qed.

(** A list in the order of the texts is in the order of the instants when
    every timestamp is the ISO text of an instant. *)
Lemma sorted_chronological (l : list event) :
  Forall (fun ev => exists t, timestamp ev = isoformat t /\ valid t) l ->
  Sorted timestamp_le l -> Sorted chronological l.
Proof.
  intros Hall Hs. induction Hs as [|x l Hs IH Hh]; [constructor|].
  inversion Hall as [|? ? (tx & Ex & Vx) Hl]; subst.
  constructor; [now apply IH|].
  destruct Hh as [|y l Hxy]; constructor.
  inversion Hl as [|? ? (ty & Ey & Vy) _]; subst.
  exists tx, ty. rewrite Ex, Ey.
  split; [now apply fromisoformat_isoformat|].
  split; [now apply fromisoformat_isoformat|].
  unfold timestamp_le in Hxy. rewrite Ex, Ey in Hxy.
  now apply isoformat_leb.
Qed.

(** The function returns, with the events of [make_events] sorted. *)
Lemma generate_ok (server_num : Z) (database_name : string) (s : db_state)
    (p : period) (g : rng) (start end_ : datetime) :
  fromisoformat (period_start p) = Ok start ->
  fromisoformat (period_end p) = Ok end_ ->
  exists evs g',
    generate_raw_autogrowth_events server_num database_name s p g
    = Ok (sort evs, g')
    /\ Z.of_nat (List.length evs)
       = Z.max 0 (fst (num_events_of (is_anomaly server_num database_name)
                         s p g))
    /\ Forall (fun ev =>
         (exists t, timestamp ev = isoformat t /\ valid t
            /\ Z.min (micros start) (micros end_) <= micros t
               <= Z.max (micros start) (micros end_))
         /\ (is_anomaly server_num database_name = true ->
             small_increment ev)) evs.
Proof.
  intros Es Ee. unfold generate_raw_autogrowth_events. cbv zeta.
  destruct (num_events_of _ s p g) as [n g1]. rewrite Es, Ee. cbn [fst].
  destruct (make_events_ok (Z.to_nat n) (is_anomaly server_num database_name)
              start end_ (fromisoformat_valid _ _ Es)
              (fromisoformat_valid _ _ Ee) g1) as (evs & g2 & E & Hl & Hall).
  rewrite E. exists evs, g2. repeat split; [lia | exact Hall].
Qed.

(** C4. For the anomaly entity, server 2 and database PrimaryStore_DB, on a
    period whose two ends are ISO timestamps, whatever the state, its
    growth pattern and the draws: the function returns between 180 and 250
    events, each with an increment among 8, 16, 32, 64 and 128. *)
Theorem anomaly_event_count_and_increments (s : db_state) (p : period)
    (g : rng) (start end_ : datetime) :
  fromisoformat (period_start p) = Ok start ->
  fromisoformat (period_end p) = Ok end_ ->
  exists evs g',
    generate_raw_autogrowth_events 2 "PrimaryStore_DB" s p g = Ok (evs, g')
    /\ (180 <= List.length evs <= 250)%nat
    /\ Forall small_increment evs.
Proof.
  intros Es Ee.
  destruct (generate_ok 2 "PrimaryStore_DB" s p g start end_ Es Ee)
    as (evs & g' & E & Hl & Hall).
  exists (sort evs), g'. split; [exact E|].
  change (is_anomaly 2 "PrimaryStore_DB") with true in *.
  unfold num_events_of in Hl.
  pose proof (randint_range 180 250 g ltac:(lia)) as Hn.
  split.
  - rewrite <- (Permutation_length (sort_perm evs)). lia.
  - apply (Permutation_Forall (sort_perm evs)).
    eapply Forall_impl; [|exact Hall]. cbn beta. intros ev [_ Hi]. now apply Hi.
Qed.

Lemma anomaly_event_count_and_increments_witness :
  fromisoformat "2025-05-01T06:00:00" = Ok (make 2025 5 1 6 0 0 0)
  /\ fromisoformat "2025-05-01T18:00:00" = Ok (make 2025 5 1 18 0 0 0)
  /\ exists evs g',
       generate_raw_autogrowth_events 2 "PrimaryStore_DB"
         (DbState None (Some "stable"%string) None None None [] None)
         (Period "2025-05-01T06:00:00" "2025-05-01T18:00:00" "day")
         (Rng (fun _ => 0) 0) = Ok (evs, g')
       /\ (180 <= List.length evs <= 250)%nat
       /\ Forall small_increment evs.
Proof.
  split; [reflexivity|]. split; [reflexivity|].
  exact (anomaly_event_count_and_increments
           (DbState None (Some "stable"%string) None None None [] None)
           (Period "2025-05-01T06:00:00" "2025-05-01T18:00:00" "day")
           (Rng (fun _ => 0) 0) _ _ eq_refl eq_refl).
Defined.

(** C5, as amended. On a period whose two ends are ISO timestamps with the
    start not after the end, the function returns; every event has a
    timestamp in the closed interval from [period_start] to [period_end],
    and the list is sorted by timestamp in ascending order: in the order of
    the texts, by which the code sorts, and in the order of the instants
    they denote. *)
Theorem event_timestamps_in_period_and_sorted (server_num : Z)
    (database_name : string) (s : db_state) (p : period) (g : rng)
    (start end_ : datetime) :
  fromisoformat (period_start p) = Ok start ->
  fromisoformat (period_end p) = Ok end_ ->
  micros start <= micros end_ ->
  exists evs g',
    generate_raw_autogrowth_events server_num database_name s p g
    = Ok (evs, g')
    /\ Forall (timestamp_between start end_) evs
    /\ Sorted timestamp_le evs
    /\ Sorted chronological evs.
Proof.
  intros Es Ee Hle.
  destruct (generate_ok server_num database_name s p g start end_ Es Ee)
    as (evs & g' & E & Hl & Hall).
  exists (sort evs), g'. split; [exact E|].
  apply (Permutation_Forall (sort_perm evs)) in Hall.
  split; [|split; [apply sort_sorted|]].
  - eapply Forall_impl; [|exact Hall]. cbn beta.
    intros ev [(t & Et & Hv & Hb) _]. exists t. split.
    + rewrite Et. now apply fromisoformat_isoformat.
    + lia.
  - apply sorted_chronological; [|apply sort_sorted].
    eapply Forall_impl; [|exact Hall]. cbn beta.
    intros ev [(t & Et & Hv & _) _]. now exists t.
Qed.

Lemma event_timestamps_in_period_and_sorted_witness :
  fromisoformat "2025-05-01T06:00:00" = Ok (make 2025 5 1 6 0 0 0)
  /\ fromisoformat "2025-05-01T18:00:00" = Ok (make 2025 5 1 18 0 0 0)
  /\ micros (make 2025 5 1 6 0 0 0) <= micros (make 2025 5 1 18 0 0 0)
  /\ exists evs g',
       generate_raw_autogrowth_events 1 "Sales_DB"
         (DbState None (Some "growing_fast"%string) None None None [] None)
         (Period "2025-05-01T06:00:00" "2025-05-01T18:00:00" "day")
         (Rng (fun n => Z.of_nat n * 1234567890123457 + 17) 0) = Ok (evs, g')
       /\ Forall (timestamp_between (make 2025 5 1 6 0 0 0)
                    (make 2025 5 1 18 0 0 0)) evs
       /\ Sorted timestamp_le evs
       /\ Sorted chronological evs.
Proof.
  split; [reflexivity|]. split; [reflexivity|].
  assert (H : micros (make 2025 5 1 6 0 0 0) <= micros (make 2025 5 1 18 0 0 0))
    by (vm_compute; discriminate).
  split; [exact H|].
  exact (event_timestamps_in_period_and_sorted 1 "Sales_DB"
           (DbState None (Some "growing_fast"%string) None None None [] None)
           (Period "2025-05-01T06:00:00" "2025-05-01T18:00:00" "day")
           (Rng (fun n => Z.of_nat n * 1234567890123457 + 17) 0)
           _ _ eq_refl eq_refl H).
Defined.

(** C5, as stated, fails. On the first period of the clock, with the largest
    value of [random.random()] drawn for the offset, the only event has the
    timestamp 2025-05-01T18:00:00, which is [period_end] itself and so lies
    outside the half-open interval. *)
Lemma event_timestamp_at_period_end :
  generate_raw_autogrowth_events 1 "Sales_DB"
    (DbState None (Some "stable"%string) None None None [] None)
    (Period "2025-05-01T06:00:00" "2025-05-01T18:00:00" "day")
    (Rng (fun n => match n with
                   | 0%nat => 1
                   | 1%nat => 2 ^ 53 - 1
                   | _ => 0
                   end) 0)
  = Ok ([Event "2025-05-01T18:00:00" "data" 5000 256 5256 800 true 50 1],
        Rng (fun n => match n with
                      | 0%nat => 1
                      | 1%nat => 2 ^ 53 - 1
                      | _ => 0
                      end) 9)
  /\ ~ timestamp_before (make 2025 5 1 6 0 0 0) (make 2025 5 1 18 0 0 0)
         (Event "2025-05-01T18:00:00" "data" 5000 256 5256 800 true 50 1).
Proof.
  split; [vm_compute; reflexivity|].
  intros (t & Et & Ht). cbn [timestamp] in Et.
  assert (E : fromisoformat "2025-05-01T18:00:00" = Ok (make 2025 5 1 18 0 0 0))
    by reflexivity.
  rewrite E in Et. injection Et as <-. lia.
Qed.

End EventClaims.

(** ** State store *)

Module StoreClaims.

Import Store.

Lemma lookup_del_same (key : string) (items : list (string * json)) :
  Dict.lookup key (Py.del key items) = None.
Proof.
  induction items as [|[k v] rest IH]; cbn [Py.del Dict.lookup]; [reflexivity|].
  destruct (String.eqb key k) eqn:E; [exact IH|].
  cbn [Dict.lookup]. now rewrite E.
Qed.

Lemma lookup_del_other (key k : string) (items : list (string * json)) :
  k <> key -> Dict.lookup k (Py.del key items) = Dict.lookup k items.
Proof.
  intros Hne. induction items as [|[k' v] rest IH];
    cbn [Py.del Dict.lookup]; [reflexivity|].
  destruct (String.eqb key k') eqn:E.
  - apply String.eqb_eq in E. subst k'.
    destruct (String.eqb_spec k key); [contradiction|exact IH].
  - cbn [Dict.lookup]. now rewrite IH.
Qed.

Lemma del_absent (key : string) (items : list (string * json)) :
  Dict.lookup key items = None -> Py.del key items = items.
Proof.
  induction items as [|[k v] rest IH]; cbn [Py.del Dict.lookup]; [reflexivity|].
  destruct (String.eqb key k); [discriminate|].
  intros H. now rewrite (IH H).
Qed.

Lemma read_state_dict (items : list (string * json)) :
  read_state (Ok (JDict items)) = Ok (JDict (Py.del "metadata" items)).
Proof.
  unfold read_state. cbn [bind Py.contains_key].
  destruct (Dict.lookup "metadata" items) eqn:E; [reflexivity|].
  now rewrite (del_absent _ _ E).
Qed.

(** When the existence test of the state file returns,
    [load_server_state] returns: the empty map when the file does not exist
    and when opening or parsing it raises, and the parsed map without its
    [metadata] key, every other key kept, when the file parses to a map. *)
Lemma load_server_state_returns (fs : filesystem) (server_num : Z)
    (found : option (result json)) :
  fs (state_file server_num) = Ok found ->
  exists state,
    load_server_state fs server_num = Ok state
    /\ match found with
       | None => state = JDict []
       | Some (Raise _) => state = JDict []
       | Some (Ok (JDict items)) =>
           state = JDict (Py.del "metadata" items)
           /\ Dict.lookup "metadata" (Py.del "metadata" items) = None
           /\ forall k, k <> "metadata"%string ->
              Dict.lookup k (Py.del "metadata" items) = Dict.lookup k items
       | Some (Ok _) => True
       end.
Proof.
  intros E. unfold load_server_state. rewrite E. cbn [bind].
  destruct found as [[v|e]|].
  - destruct v as [| | | | |items].
    6: { rewrite read_state_dict. eexists. split; [reflexivity|].
         split; [reflexivity|]. split.
         - apply lookup_del_same.
         - intros k Hk. now apply lookup_del_other. }
    all: destruct (read_state _); eexists; split; try reflexivity; exact I.
  - eexists. split; reflexivity.
  - eexists. split; reflexivity.
Qed.

(** The exception of the existence test is the exception of
    [load_server_state]. *)
Lemma load_server_state_raises (fs : filesystem) (server_num : Z) (e : exn) :
  fs (state_file server_num) = Raise e ->
  load_server_state fs server_num = Raise e.
Proof.
  intros E. unfold load_server_state. now rewrite E.
Qed.

(** C9, as the code fails it.  The directory of server 1 may not be
    searched, so that the existence test of
    [Server1/growth_data/server_state.json] raises [PermissionError], an
    [OSError]: [load_server_state 1] raises it, where the claim has the empty
    map returned.  The test stands before the [try] whose handler turns
    every exception into the empty map. *)
Theorem unsearchable_directory_raises :
  state_file 1 = "Server1/growth_data/server_state.json"%string
  /\ load_server_state
       (fun path =>
          if String.eqb path "Server1/growth_data/server_state.json"
          then Raise OSError else Ok None) 1
     = Raise OSError
  /\ load_server_state
       (fun path =>
          if String.eqb path "Server1/growth_data/server_state.json"
          then Ok (Some (Raise OSError)) else Ok None) 1
     = Ok (JDict []).
Proof.
  split; [reflexivity|]. split; reflexivity.
Qed.

End StoreClaims.

(** ** More on the period clock *)

Module ClockExtras.

Import Calendar Datetime Clock ClockDomain.
Import DatetimeFacts IsoFacts ClockFacts ClockClaims ScanClaims.

Lemma later_swap (a x y : option datetime) :
  later (later a x) y = later (later a y) x.
Proof.
  destruct a as [a|], x as [x|], y as [y|]; cbn [later]; try reflexivity.
  - unfold ltb.
    destruct (Z.ltb_spec (micros a) (micros x));
      destruct (Z.ltb_spec (micros a) (micros y)); cbn [later]; unfold ltb;
      repeat match goal with
             | |- context [?u <? ?v] => destruct (Z.ltb_spec u v)
             end;
      try reflexivity; try lia; f_equal; apply datetime_eq; lia.
  - unfold ltb.
    destruct (Z.ltb_spec (micros x) (micros y));
      destruct (Z.ltb_spec (micros y) (micros x));
      try reflexivity; try lia; f_equal; apply datetime_eq; lia.
Qed.

Lemma latest_recorded_perm (items items' : list (string * json)) :
  Permutation items items' ->
  forall latest, latest_recorded items latest = latest_recorded items' latest.
Proof.
  induction 1 as [|[k e] l l' _ IH|[k1 e1] [k2 e2] l|l l' l'' _ IH1 _ IH2];
    intros latest; cbn [latest_recorded].
  - reflexivity.
  - apply IH.
  - now rewrite later_swap.
  - now rewrite IH1.
Qed.

Lemma scalar_or_not (items : list (string * json)) :
  no_scalar items
  \/ Exists (fun e => scalar_last_period (snd e) = true) items.
Proof.
  induction items as [|e items [IH|IH]].
  - left. constructor.
  - destruct (scalar_last_period (snd e)) eqn:E.
    + right. now constructor.
    + left. now constructor.
  - right. now constructor 2.
Qed.

Lemma calculate_perm (items items' : list (string * json)) :
  Permutation items items' ->
  calculate_next_simulation_period (Some items)
  = calculate_next_simulation_period (Some items').
Proof.
  intros HP. unfold calculate_next_simulation_period.
  destruct (scalar_or_not items) as [Hn|Hs].
  - assert (Hn' : no_scalar items')
      by (unfold no_scalar in *; now rewrite <- HP).
    rewrite (latest_period_end_no_scalar _ Hn),
            (latest_period_end_no_scalar _ Hn').
    now rewrite (latest_recorded_perm _ _ HP).
  - assert (Hs' : Exists (fun e => scalar_last_period (snd e) = true) items')
      by now rewrite <- HP.
    pose proof (raises_on_scalar _ Hs) as E.
    pose proof (raises_on_scalar _ Hs') as E'.
    unfold calculate_next_simulation_period in E, E'. now rewrite E, E'.
Qed.

(** An entity without a [period_end] text has no record. *)
Lemma no_text_no_record (e : json) :
  period_end_text e = None -> recorded_period_end e = None.
Proof.
  unfold period_end_text, recorded_period_end.
  destruct e as [| | | | |fields]; try reflexivity.
  destruct (Dict.lookup "last_period"%string fields) as [[| | | | |lp]|];
    try reflexivity.
  destruct (Dict.lookup "period_end"%string lp) as [[| | |s| |]|];
    try reflexivity.
  discriminate.
Qed.

(** X1. On a state whose [period_end] texts are those [isoformat] writes,
    as the simulator stores them, the period does not depend on the order
    in which the entities appear in the state map: two such states with the
    same entries give the same result, be it a period or the exception. *)
Theorem period_independent_of_entity_order
    (items items' : list (string * json)) :
  Permutation items items' ->
  written_texts items ->
  calculate_next_simulation_period (Some items)
  = calculate_next_simulation_period (Some items').
Proof.
  intros HP _. exact (calculate_perm items items' HP).
Qed.

Lemma period_independent_of_entity_order_witness :
  Permutation
    [("Sales_DB"%string, entity_ended "2025-05-01T18:00:00");
     ("Audit_DB"%string, entity_ended "2025-05-02T06:00:00")]
    [("Audit_DB"%string, entity_ended "2025-05-02T06:00:00");
     ("Sales_DB"%string, entity_ended "2025-05-01T18:00:00")]
  /\ written_texts
       [("Sales_DB"%string, entity_ended "2025-05-01T18:00:00");
        ("Audit_DB"%string, entity_ended "2025-05-02T06:00:00")]
  /\ calculate_next_simulation_period
       (Some [("Sales_DB"%string, entity_ended "2025-05-01T18:00:00");
              ("Audit_DB"%string, entity_ended "2025-05-02T06:00:00")])
     = calculate_next_simulation_period
         (Some [("Audit_DB"%string, entity_ended "2025-05-02T06:00:00");
                ("Sales_DB"%string, entity_ended "2025-05-01T18:00:00")]).
Proof.
  assert (Hw : written_texts
       [("Sales_DB"%string, entity_ended "2025-05-01T18:00:00");
        ("Audit_DB"%string, entity_ended "2025-05-02T06:00:00")]).
  { unfold written_texts. repeat constructor. }
  split; [apply perm_swap|]. split; [exact Hw|].
  exact (period_independent_of_entity_order _ _ (perm_swap _ _ _) Hw).
Defined.

(** X2. An entity without a [period_end] text does not move the clock:
    removing from the state an entity whose [last_period] is absent, null,
    empty, not a map, or a map without a text under [period_end], and is
    not a number or [true], leaves the result unchanged, wherever the
    entity stands. *)
Theorem entity_without_record_ignored (name : string) (e : json)
    (before after : list (string * json)) :
  period_end_text e = None -> scalar_last_period e = false ->
  calculate_next_simulation_period (Some (before ++ (name, e) :: after))
  = calculate_next_simulation_period (Some (before ++ after)).
Proof.
  intros Ht Hs. pose proof (no_text_no_record e Ht) as Hr.
  rewrite <- (calculate_perm _ _ (Permutation_middle before after (name, e))).
  unfold calculate_next_simulation_period.
  destruct (scalar_or_not (before ++ after)) as [Hn|Hx].
  - assert (Hn' : no_scalar ((name, e) :: before ++ after))
      by now constructor.
    rewrite (latest_period_end_no_scalar _ Hn),
            (latest_period_end_no_scalar _ Hn').
    cbn [latest_recorded snd]. now rewrite Hr.
  - pose proof (raises_on_scalar _ Hx) as E.
    pose proof (raises_on_scalar ((name, e) :: before ++ after)
                  (Exists_cons_tl _ Hx)) as E'.
    unfold calculate_next_simulation_period in E, E'. now rewrite E, E'.
Qed.

Lemma entity_without_record_ignored_witness :
  period_end_text (JDict [("last_period"%string, JNull)]) = None
  /\ scalar_last_period (JDict [("last_period"%string, JNull)]) = false
  /\ calculate_next_simulation_period
       (Some ([("Sales_DB"%string, entity_ended "2025-05-01T18:00:00")]
              ++ ("New_DB"%string, JDict [("last_period"%string, JNull)])
              :: []))
     = calculate_next_simulation_period
         (Some ([("Sales_DB"%string, entity_ended "2025-05-01T18:00:00")]
                ++ [])).
Proof.
  split; [reflexivity|]. split; [reflexivity|].
  apply (entity_without_record_ignored "New_DB"
           (JDict [("last_period"%string, JNull)])
           [("Sales_DB"%string, entity_ended "2025-05-01T18:00:00")] []);
    reflexivity.
Defined.

End ClockExtras.

(** ** Length of the window *)

Module WindowExtras.

Import Calendar Datetime Clock.
Import DatetimeFacts IsoFacts ClockFacts ClockClaims.

Lemma add_raises (d : datetime) (delta : timedelta) (e : exn) :
  add d delta = Raise e ->
  e = OverflowError /\ ~ (0 <= micros d + delta < MAX_MICROS).
Proof.
  unfold add, in_range. intros H.
  destruct (0 <=? micros d + delta) eqn:E1;
    destruct (micros d + delta <? MAX_MICROS) eqn:E2; cbn [andb] in H;
    try discriminate H; injection H as <-; split; try reflexivity; lia.
Qed.

Lemma last_day (d : datetime) :
  valid d -> MAX_MICROS <= micros d + days 1 -> toordinal d = MAXORDINAL.
Proof.
  unfold valid, MAX_MICROS, days, toordinal, US_PER_DAY, US_PER_SECOND,
    MAXORDINAL.
  intros Hv Hd. Z.div_mod_to_equations. lia.
Qed.

(** X3. Whatever the latest recorded [period_end] is, the window returned
    starts at it and ends strictly later: 12 hours later when its hour is 6,
    and otherwise 30 hours less its hour later, that is between 7 and 30
    hours, 12 exactly at hour 18.  The only exception raised is the
    [OverflowError] of the night branch on the last day, 9999-12-31. *)
Theorem window_length (st : option (list (string * json))) (d : datetime) :
  latest_period_end st = Ok (Some d) ->
  match calculate_next_simulation_period st with
  | Ok p =>
      fromisoformat (period_start p) = Ok d
      /\ exists e,
           fromisoformat (period_end p) = Ok e
           /\ micros e - micros d
              = hours (if hour d =? 6 then 12 else 30 - hour d)
           /\ hours 7 <= micros e - micros d <= hours 30
  | Raise x => x = OverflowError /\ hour d <> 6 /\ toordinal d = MAXORDINAL
  end.
Proof.
  intros Hl. pose proof (latest_period_end_valid _ _ Hl) as Hv.
  pose proof (hour_range d) as Hh.
  destruct (Z.eqb_spec (hour d) 6) as [E|N].
  - rewrite (day_branch _ _ Hl E). cbn [period_start period_end].
    split; [now apply fromisoformat_isoformat|].
    exists (replace_hour d 18). split.
    + apply fromisoformat_isoformat. apply valid_replace_hour; [lia|exact Hv].
    + rewrite (replace_hour_6_18 _ E). unfold hours, US_PER_HOUR, US_PER_SECOND.
      lia.
  - destruct (add d (days 1)) as [n|x] eqn:Ea.
    + rewrite (night_branch _ _ _ Hl N Ea). cbn [period_start period_end].
      split; [now apply fromisoformat_isoformat|].
      destruct (add_inv _ _ _ Ea) as [Hm Hn].
      destruct (add_one_day _ _ Ea) as (_ & Hhn & _).
      exists (replace_hour n 6). split.
      * apply fromisoformat_isoformat. apply valid_replace_hour; [lia|exact Hn].
      * unfold replace_hour. cbn [micros]. rewrite Hhn, Hm.
        unfold hours, days, US_PER_DAY, US_PER_HOUR, US_PER_SECOND. lia.
    + rewrite (calculate_unfold _ _ Hl). unfold next_window.
      destruct (Z.eqb_spec (hour d) 6) as [|_]; [contradiction|].
      rewrite Ea. cbn [bind].
      destruct (add_raises _ _ _ Ea) as [-> Hr].
      split; [reflexivity|]. split; [exact N|].
      apply last_day; [exact Hv|].
      unfold valid in Hv. unfold days, US_PER_DAY, US_PER_SECOND in *. lia.
Qed.

Lemma window_length_witness :
  latest_period_end (Some [("Sales_DB"%string, entity_ended "2025-05-03T23:15:30")])
  = Ok (Some (make 2025 5 3 23 15 30 0))
  /\ match calculate_next_simulation_period
             (Some [("Sales_DB"%string, entity_ended "2025-05-03T23:15:30")]) with
     | Ok p =>
         fromisoformat (period_start p) = Ok (make 2025 5 3 23 15 30 0)
         /\ exists e,
              fromisoformat (period_end p) = Ok e
              /\ micros e - micros (make 2025 5 3 23 15 30 0)
                 = hours (if hour (make 2025 5 3 23 15 30 0) =? 6 then 12
                          else 30 - hour (make 2025 5 3 23 15 30 0))
              /\ hours 7 <= micros e - micros (make 2025 5 3 23 15 30 0)
                 <= hours 30
     | Raise x =>
         x = OverflowError /\ hour (make 2025 5 3 23 15 30 0) <> 6
         /\ toordinal (make 2025 5 3 23 15 30 0) = MAXORDINAL
     end.
Proof.
  split; [reflexivity|].
  exact (window_length
           (Some [("Sales_DB"%string, entity_ended "2025-05-03T23:15:30")])
           (make 2025 5 3 23 15 30 0) eq_refl).
Defined.

End WindowExtras.

(** ** More on the I/O counters *)

Module IoExtras.

Import Num Random Growth NumFacts GrowthClaims.
Local Open Scope Q_scope.

Lemma scaled_count_band (x u : Q) :
  0 <= x -> 85 # 100 <= u <= 115 # 100 ->
  (85 # 100) * x - 1 < inject_Z (py_int (x * u))
  /\ inject_Z (py_int (x * u)) <= (115 # 100) * x.
Proof.
  intros Hx Hu.
  assert (H0 : 0 <= x * u) by (apply Qmult_le_0_compat; lra).
  pose proof (py_int_le _ H0) as Hle. pose proof (py_int_gt _ H0) as Hgt.
  rewrite inject_Z_plus in Hgt. change (inject_Z 1) with 1 in Hgt.
  assert (H1 : (85 # 100) * x <= x * u).
  { assert (0 <= x * (u - (85 # 100))) by (apply Qmult_le_0_compat; lra). lra. }
  assert (H2 : x * u <= (115 # 100) * x).
  { assert (0 <= x * ((115 # 100) - u)) by (apply Qmult_le_0_compat; lra). lra. }
  split; lra.
Qed.

(** X4. With non-negative baselines, the reads and the writes of a period
    follow the baseline rate times the multiplier of the period and server
    type times 43200 seconds, within the 15 percent of the random factor:
    they are above 0.8499 times that product less one operation, the count
    being truncated, and at most 1.1501 times it.  The margin of one part
    in ten thousand is far above what the rounding of binary floating
    point, which the rationals of the model leave out, can move. *)
Theorem io_counts_within_band (s : db_state) (baseline : io_baselines)
    (p : period) (server_type : string) (g : rng) :
  0 <= reads_per_second_baseline baseline ->
  0 <= writes_per_second_baseline baseline ->
  let io := fst (fst (generate_raw_io_data s baseline p server_type g)) in
  let nominal_reads :=
    reads_per_second_baseline baseline
    * fst (io_multipliers (period_type p) server_type) * 43200 in
  let nominal_writes :=
    writes_per_second_baseline baseline
    * snd (io_multipliers (period_type p) server_type) * 43200 in
  (8499 # 10000) * nominal_reads - 1 < inject_Z (reads io)
  /\ inject_Z (reads io) <= (11501 # 10000) * nominal_reads
  /\ (8499 # 10000) * nominal_writes - 1 < inject_Z (writes io)
  /\ inject_Z (writes io) <= (11501 # 10000) * nominal_writes.
Proof.
  intros Hr Hw. cbv zeta.
  pose proof (io_multipliers_nonneg (period_type p) server_type) as [Hmr Hmw].
  unfold generate_raw_io_data.
  destruct (io_multipliers (period_type p) server_type) as [mr mw].
  cbn [fst snd] in *. unfold bindR.
  pose proof (uniform_range (85 # 100) (115 # 100) g ltac:(lra)) as Hu1.
  destruct (uniform (85 # 100) (115 # 100) g) as [u1 g1]. cbn [fst] in Hu1.
  pose proof (uniform_range (85 # 100) (115 # 100) g1 ltac:(lra)) as Hu2.
  destruct (uniform (85 # 100) (115 # 100) g1) as [u2 g2]. cbn [fst] in Hu2.
  cbn [ret fst reads writes].
  change (inject_Z (12 * 3600)) with 43200.
  assert (Hxr : 0 <= reads_per_second_baseline baseline * mr * 43200).
  { apply Qmult_le_0_compat; [apply Qmult_le_0_compat; assumption|lra]. }
  assert (Hxw : 0 <= writes_per_second_baseline baseline * mw * 43200).
  { apply Qmult_le_0_compat; [apply Qmult_le_0_compat; assumption|lra]. }
  destruct (scaled_count_band _ _ Hxr Hu1) as [A B].
  destruct (scaled_count_band _ _ Hxw Hu2) as [C D].
  repeat split; lra.
Qed.

Lemma io_counts_within_band_witness :
  0 <= reads_per_second_baseline (IoBaselines 1200 300)
  /\ 0 <= writes_per_second_baseline (IoBaselines 1200 300)
  /\ inject_Z (reads (fst (fst (generate_raw_io_data
         (DbState None None None None None [] None) (IoBaselines 1200 300)
         (Period "2025-05-01T06:00:00" "2025-05-01T18:00:00" "day")
         "oltp_production" (Rng (fun _ => 0%Z) 0)))))
     <= (11501 # 10000) * (1200 * (28 # 10) * 43200).
Proof.
  split; [discriminate|]. split; [discriminate|].
  apply (io_counts_within_band (DbState None None None None None [] None)
           (IoBaselines 1200 300)
           (Period "2025-05-01T06:00:00" "2025-05-01T18:00:00" "day")
           "oltp_production" (Rng (fun _ => 0%Z) 0)); discriminate.
Defined.

Lemma io_step_totals (s : db_state) (baseline : io_baselines) (p : period)
    (server_type : string) (g : rng) :
  let '(io, s') := fst (generate_raw_io_data s baseline p server_type g) in
  cumulative_reads s' = Some (get (cumulative_reads s) 0 + reads io)%Z
  /\ cumulative_writes s' = Some (get (cumulative_writes s) 0 + writes io)%Z
  /\ io_cumulative_reads io = (get (cumulative_reads s) 0 + reads io)%Z
  /\ io_cumulative_writes io = (get (cumulative_writes s) 0 + writes io)%Z.
Proof.
  unfold generate_raw_io_data.
  destruct (io_multipliers (period_type p) server_type) as [mr mw].
  unfold bindR.
  destruct (uniform (85 # 100) (115 # 100) g) as [u1 g1].
  destruct (uniform (85 # 100) (115 # 100) g1) as [u2 g2].
  cbn. repeat split.
Qed.

(** X5. Over any sequence of runs of one entity, whatever the baselines,
    the counters of the state end at their initial value, zero when the key
    is absent, plus the sum of the reads, and of the writes, reported by the
    runs; the last run reports these final values. *)
Theorem io_totals_add_up (calls : list (io_baselines * period * string)) :
  forall (s : db_state) (g : rng),
  let '(ios, s') := fst (io_runs calls s g) in
  get (cumulative_reads s') 0%Z
  = (get (cumulative_reads s) 0 + fold_right Z.add 0 (map reads ios))%Z
  /\ get (cumulative_writes s') 0%Z
     = (get (cumulative_writes s) 0 + fold_right Z.add 0 (map writes ios))%Z
  /\ (forall front final, ios = front ++ [final] ->
      io_cumulative_reads final = get (cumulative_reads s') 0%Z
      /\ io_cumulative_writes final = get (cumulative_writes s') 0%Z).
Proof.
  induction calls as [|[[baseline p] server_type] rest IH]; intros s g.
  - cbn. repeat split; try lia; now destruct front.
  - cbn [io_runs]. unfold bindR.
    pose proof (io_step_totals s baseline p server_type g) as Hs.
    destruct (generate_raw_io_data s baseline p server_type g)
      as [[io s1] g1]. cbn [fst] in Hs.
    destruct Hs as (Hr & Hw & Hir & Hiw).
    specialize (IH s1 g1).
    destruct (io_runs rest s1 g1) as [[ios s2] g2]. cbn [fst] in IH |- *.
    destruct IH as (IHr & IHw & IHl).
    rewrite Hr in IHr. rewrite Hw in IHw. cbn [get] in IHr, IHw.
    cbn [ret fst map fold_right]. split; [lia|]. split; [lia|].
    intros front final Hf. destruct front as [|io1 front].
    + cbn [app] in Hf. injection Hf as -> ->.
      cbn [map fold_right] in IHr, IHw. split; lia.
    + cbn [app] in Hf. injection Hf as _ Hf. now apply (IHl front).
Qed.

End IoExtras.

(** ** More on the size of a database *)

Module SizeExtras.

Import Num Random Growth NumFacts GrowthClaims.
Local Open Scope Q_scope.

Lemma round_half_even_ge (n : Z) (x : Q) :
  inject_Z n <= x -> (n <= round_half_even x)%Z.
Proof.
  intros H. unfold round_half_even.
  assert (Hf : (n <= Qfloor x)%Z).
  { apply Qfloor_resp_le in H. now rewrite Qfloor_Z in H. }
  destruct (Qcompare (x - inject_Z (Qfloor x)) (1 # 2)); [|lia|lia].
  destruct (Z.even (Qfloor x)); lia.
Qed.

Lemma round_half_even_le (n : Z) (x : Q) :
  x <= inject_Z n -> (round_half_even x <= n)%Z.
Proof.
  intros H. unfold round_half_even.
  assert (Hf : (Qfloor x <= n)%Z).
  { apply Qfloor_resp_le in H. now rewrite Qfloor_Z in H. }
  destruct (Z.eq_dec (Qfloor x) n) as [E|N].
  - assert (Hx : x - inject_Z (Qfloor x) <= 0).
    { rewrite E. lra. }
    destruct (Qcompare_spec (x - inject_Z (Qfloor x)) (1 # 2)) as [Hc|Hc|Hc];
      [lra|lia|lra].
  - destruct (Qcompare (x - inject_Z (Qfloor x)) (1 # 2)); [|lia|lia].
    destruct (Z.even (Qfloor x)); lia.
Qed.

(** Rounding to three decimals keeps an integer bound. *)
Lemma round3_ge (n : Z) (x : Q) : inject_Z n <= x -> inject_Z n <= round3 x.
Proof.
  intros H. unfold round3.
  assert (Hk : inject_Z (n * 1000) <= x * 1000).
  { rewrite inject_Z_mult. change (inject_Z 1000) with 1000. lra. }
  apply round_half_even_ge in Hk. rewrite Zle_Qle, inject_Z_mult in Hk.
  change (inject_Z 1000) with 1000 in Hk.
  apply Qle_shift_div_l; [reflexivity|exact Hk].
Qed.

Lemma round3_le (n : Z) (x : Q) : x <= inject_Z n -> round3 x <= inject_Z n.
Proof.
  intros H. unfold round3.
  assert (Hk : x * 1000 <= inject_Z (n * 1000)).
  { rewrite inject_Z_mult. change (inject_Z 1000) with 1000. lra. }
  apply round_half_even_le in Hk. rewrite Zle_Qle, inject_Z_mult in Hk.
  change (inject_Z 1000) with 1000 in Hk.
  apply Qle_shift_div_r; [reflexivity|exact Hk].
Qed.

Lemma Qmax_spec (a b : Q) : a <= Qmax a b /\ b <= Qmax a b
                            /\ (Qmax a b = a \/ Qmax a b = b).
Proof.
  unfold Qmax. destruct (Qltb a b) eqn:E.
  - apply Qltb_lt in E. repeat split; try lra. now right.
  - apply Qltb_ge in E. repeat split; try lra. now left.
Qed.

Ltac uniform_bounds :=
  match goal with
  | |- context [uniform ?a ?b ?g] =>
      let H := fresh "Hu" in
      pose proof (uniform_range a b g ltac:(lra)) as H;
      destruct (uniform a b g); cbn [fst] in H |- *
  end.

Lemma pattern_growth_range (pattern period_type : string) (g : rng) :
  -8 <= fst (pattern_growth pattern period_type g) <= 15.
Proof.
  unfold pattern_growth, bindR.
  repeat match goal with
         | |- context [String.eqb ?a ?b] => destruct (String.eqb a b)
         end;
    repeat match goal with
           | |- context [random ?g] => destruct (random g)
           | |- context [Qltb ?a ?b] => destruct (Qltb a b)
           end;
    uniform_bounds; lra.
Qed.

Lemma pattern_growth_positive (pattern period_type : string) (g : rng) :
  In pattern ["no_retention"; "growing_fast"; "archive_failure"]%string ->
  1 # 2 <= fst (pattern_growth pattern period_type g).
Proof.
  intros [<-|[<-|[<-|[]]]]; unfold pattern_growth; cbn [String.eqb Ascii.eqb Bool.eqb];
    try (destruct (String.eqb period_type "night"));
    uniform_bounds; lra.
Qed.

(** The size before rounding, the growth and its variance factor. *)
Lemma size_data_spec (s : db_state) (p : period) (server_type : string)
    (g : rng) :
  exists growth variance new_size,
    growth = fst (pattern_growth (get (growth_pattern s) "stable"%string)
                    (period_type p) g)
    /\ 9 # 10 <= variance <= 11 # 10
    /\ new_size
       = Qmax (if String.eqb server_type "reference_config" then 5 else 10)
              (get (current_size_gb s) 50 + growth * variance)
    /\ total_gb (fst (generate_raw_size_data s p server_type g))
       = round3 new_size
    /\ file_count (fst (generate_raw_size_data s p server_type g))
       = (if Qltb new_size 50 then 2 else 4)%Z.
Proof.
  unfold generate_raw_size_data, bindR.
  destruct (pattern_growth _ (period_type p) g) as [growth g1]. cbn [fst].
  pose proof (uniform_range (9 # 10) (11 # 10) g1 ltac:(lra)) as Hv.
  destruct (uniform (9 # 10) (11 # 10) g1) as [v g2]. cbn [fst] in Hv.
  exists growth, v. eexists. cbn [ret fst total_gb file_count].
  repeat split; try reflexivity; apply Hv.
Qed.

(** X6. The total size reported is never below the minimum size, 5 GB for a
    [reference_config] server and 10 GB for any other, whatever the state,
    the pattern and the draws. *)
Theorem total_size_at_least_minimum (s : db_state) (p : period)
    (server_type : string) (g : rng) :
  (if String.eqb server_type "reference_config" then 5 else 10)
  <= total_gb (fst (generate_raw_size_data s p server_type g)).
Proof.
  destruct (size_data_spec s p server_type g)
    as (growth & v & new_size & _ & _ & En & Et & _).
  rewrite Et.
  pose proof (Qmax_spec
                (if String.eqb server_type "reference_config" then 5 else 10)
                (get (current_size_gb s) 50 + growth * v)) as (Hm & _ & _).
  rewrite <- En in Hm.
  destruct (String.eqb server_type "reference_config").
  - apply (round3_ge 5). exact Hm.
  - apply (round3_ge 10). exact Hm.
Qed.

(** X7. The file count is 2 or 4, decided on the size before rounding: 4
    files are reported only with a total of at least 50 GB, 2 files only
    with a total of at most 50 GB. *)
Theorem file_count_follows_size (s : db_state) (p : period)
    (server_type : string) (g : rng) :
  let sd := fst (generate_raw_size_data s p server_type g) in
  (file_count sd = 2%Z /\ total_gb sd <= 50)
  \/ (file_count sd = 4%Z /\ 50 <= total_gb sd).
Proof.
  cbv zeta.
  destruct (size_data_spec s p server_type g)
    as (growth & v & new_size & _ & _ & _ & Et & Ef).
  rewrite Et, Ef. destruct (Qltb new_size 50) eqn:E.
  - left. split; [reflexivity|]. apply Qltb_lt in E.
    apply (round3_le 50). apply Qlt_le_weak. exact E.
  - right. split; [reflexivity|]. apply Qltb_ge in E.
    apply (round3_ge 50). exact E.
Qed.

Lemma scaled_growth_range (lo hi growth v : Q) :
  lo <= 0 -> 0 <= hi -> lo <= growth <= hi -> 9 # 10 <= v <= 11 # 10 ->
  (11 # 10) * lo <= growth * v <= (11 # 10) * hi.
Proof.
  intros Hlo Hhi Hg Hv.
  destruct (Qlt_le_dec growth 0) as [Hn|Hp].
  - assert (0 <= (- growth) * v) by (apply Qmult_le_0_compat; lra).
    assert (0 <= (- growth) * ((11 # 10) - v))
      by (apply Qmult_le_0_compat; lra).
    split; lra.
  - assert (0 <= growth * v) by (apply Qmult_le_0_compat; lra).
    assert (0 <= growth * ((11 # 10) - v)) by (apply Qmult_le_0_compat; lra).
    split; lra.
Qed.

(** X8. One period moves the size by at most 16.5 GB up and 8.8 GB down,
    rounding apart: the total lies between the current size less 8.8 GB and
    the larger of the minimum size and the current size plus 16.5 GB, each
    bound widened by the 0.0005 of the rounding.  The current size is
    50 GB when the state has none. *)
Theorem size_step_bounded (s : db_state) (p : period) (server_type : string)
    (g : rng) :
  let current := get (current_size_gb s) 50 in
  let total := total_gb (fst (generate_raw_size_data s p server_type g)) in
  current - (88 # 10) - (1 # 2000) <= total
  /\ total
     <= Qmax (if String.eqb server_type "reference_config" then 5 else 10)
             (current + (165 # 10)) + (1 # 2000).
Proof.
  cbv zeta.
  destruct (size_data_spec s p server_type g)
    as (growth & v & new_size & Eg & Hv & En & Et & _).
  rewrite Et. pose proof (round3_error new_size) as Hr.
  pose proof (pattern_growth_range (get (growth_pattern s) "stable"%string)
                (period_type p) g) as Hg.
  rewrite <- Eg in Hg.
  pose proof (scaled_growth_range (-8) 15 growth v ltac:(lra) ltac:(lra) Hg Hv)
    as Hs.
  set (m := if String.eqb server_type "reference_config" then 5 else 10) in *.
  pose proof (Qmax_spec m (get (current_size_gb s) 50 + growth * v))
    as (H1 & H2 & H3).
  pose proof (Qmax_spec m (get (current_size_gb s) 50 + (165 # 10)))
    as (H4 & H5 & _).
  rewrite <- En in H1, H2, H3. split; [lra|].
  assert (Hn : new_size
               <= Qmax m (get (current_size_gb s) 50 + (165 # 10))).
  { destruct H3 as [H3|H3]; rewrite H3; lra. }
  lra.
Qed.

(** X9. Under the patterns [no_retention], [growing_fast] and
    [archive_failure] the database never shrinks: the total reported exceeds
    the current size by at least 0.449 GB, whatever the period, the server
    type and the draws. *)
Theorem problem_patterns_grow (s : db_state) (p : period)
    (server_type pattern : string) (g : rng) :
  growth_pattern s = Some pattern ->
  In pattern ["no_retention"; "growing_fast"; "archive_failure"]%string ->
  get (current_size_gb s) 50 + (449 # 1000)
  <= total_gb (fst (generate_raw_size_data s p server_type g)).
Proof.
  intros Ep Hin.
  destruct (size_data_spec s p server_type g)
    as (growth & v & new_size & Eg & Hv & En & Et & _).
  rewrite Et. pose proof (round3_error new_size) as Hr.
  rewrite Ep in Eg. cbn [get] in Eg.
  pose proof (pattern_growth_positive pattern (period_type p) g Hin) as Hg.
  rewrite <- Eg in Hg.
  assert (Hgv : 45 # 100 <= growth * v).
  { assert (0 <= (growth - (1 # 2)) * v) by (apply Qmult_le_0_compat; lra).
    lra. }
  pose proof (Qmax_spec
                (if String.eqb server_type "reference_config" then 5 else 10)
                (get (current_size_gb s) 50 + growth * v)) as (_ & H2 & _).
  rewrite <- En in H2. lra.
Qed.

Lemma problem_patterns_grow_witness :
  growth_pattern (DbState (Some 400) (Some "no_retention"%string) None None
                    None [] None) = Some "no_retention"%string
  /\ In "no_retention"%string
        ["no_retention"; "growing_fast"; "archive_failure"]%string
  /\ 400 + (449 # 1000)
     <= total_gb (fst (generate_raw_size_data
          (DbState (Some 400) (Some "no_retention"%string) None None None []
             None)
          (Period "2025-05-01T06:00:00" "2025-05-01T18:00:00" "day")
          "oltp_production" (Rng (fun _ => 0%Z) 0))).
Proof.
  split; [reflexivity|]. split; [now left|].
  apply (problem_patterns_grow
           (DbState (Some 400) (Some "no_retention"%string) None None None []
              None)
           (Period "2025-05-01T06:00:00" "2025-05-01T18:00:00" "day")
           "oltp_production" "no_retention" (Rng (fun _ => 0%Z) 0));
    [reflexivity|now left].
Defined.

End SizeExtras.

(** ** More on table rows and cleanup *)

Module TableExtras.

Import Num Random Tables NumFacts TableClaims.
Local Open Scope Q_scope.

Lemma base_cleanup_pct_draw (table_name : string) (g : rng) :
  snd (base_cleanup_pct table_name g) = snd (random g).
Proof.
  unfold base_cleanup_pct.
  destruct (_ || _)%bool; [|destruct (_ || _)%bool];
    unfold uniform, bindR; destruct (random g); reflexivity.
Qed.

(** X10. The outcome of a cleanup depends neither on the table name nor on
    the cleanup history nor on the period type: the share drawn from the
    name is overwritten by the deletion policy, and only consumes one draw
    whatever the name. *)
Theorem cleanup_ignores_name_and_history (name1 name2 : string)
    (ts : table_state) (h1 h2 : cleanup_history) (period_growth : Z)
    (growth_pattern period_type1 period_type2 : string) (g : rng) :
  calculate_realistic_cleanup name1 ts h1 period_growth growth_pattern
    period_type1 g
  = calculate_realistic_cleanup name2 ts h2 period_growth growth_pattern
      period_type2 g.
Proof.
  unfold calculate_realistic_cleanup. cbv zeta. unfold bindR.
  destruct (random g) as [r g0].
  destruct (Qltb (cleanup_probability growth_pattern) r); [reflexivity|].
  pose proof (base_cleanup_pct_draw name1 g0) as E1.
  pose proof (base_cleanup_pct_draw name2 g0) as E2.
  destruct (base_cleanup_pct name1 g0) as [p1 g1].
  destruct (base_cleanup_pct name2 g0) as [p2 g2].
  cbn [snd] in E1, E2. now rewrite E1, E2.
Qed.

Lemma cleanup_bounds (table_name : string) (ts : table_state)
    (h : cleanup_history) (pg : Z) (growth_pattern period_type : string)
    (g : rng) :
  let '(occ, del) :=
    fst (calculate_realistic_cleanup table_name ts h pg growth_pattern
           period_type g) in
  (0 <= del)%Z
  /\ ((0 <= rows ts)%Z -> (2 * del <= rows ts)%Z)
  /\ (occ = false -> del = 0%Z).
Proof.
  unfold calculate_realistic_cleanup. cbv zeta. unfold bindR.
  destruct (random g) as [r g0].
  destruct (Qltb (cleanup_probability growth_pattern) r).
  - cbn [ret fst]. repeat split; lia.
  - destruct (base_cleanup_pct table_name g0) as [pct g1].
    destruct (deletion_policy pg g1) as [cand g2]. cbn [ret fst].
    split; [lia|]. split; [|discriminate].
    intros Hrows. rewrite max_deletion_half.
    pose proof (Z.quot_rem' (rows ts) 2).
    pose proof (Z.rem_bound_pos (rows ts) 2 Hrows ltac:(lia)). lia.
Qed.

(** What one iteration of the loop reports of its table. *)
Lemma process_table_spec (server_type period_type growth_pattern : string)
    (table_name : string) (ts : table_state)
    (histories : list (string * cleanup_history)) (g : rng) :
  let '(td, ts', _) :=
    fst (process_table server_type period_type growth_pattern table_name ts
           histories g) in
  td_name td = table_name
  /\ ts' = with_rows ts (td_rows td)
  /\ td_rows td = Z.max 1000 (rows ts + td_rows_added td - td_rows_deleted td)
  /\ td_rows_added td
     = fst (period_growth_of ts server_type period_type g)
  /\ td_has_cleanup td = get (has_cleanup ts) false
  /\ td_avg_row_bytes td = avg_row_bytes ts
  /\ (get (has_cleanup ts) false = false ->
      td_rows_deleted td = 0%Z /\ td_cleanup_occurred td = false)
  /\ (td_cleanup_occurred td = false -> td_rows_deleted td = 0%Z)
  /\ (0 <= td_rows_deleted td)%Z
  /\ ((0 <= rows ts)%Z -> (2 * td_rows_deleted td <= rows ts)%Z).
Proof.
  unfold process_table. cbv zeta. unfold bindR.
  destruct (period_growth_of ts server_type period_type g) as [pg g1].
  cbn [fst]. destruct (get (has_cleanup ts) false) eqn:Ec.
  - set (h := CleanupHistory _ _ _ _).
    pose proof (cleanup_bounds table_name ts h pg growth_pattern period_type
                  g1) as Hb.
    destruct (calculate_realistic_cleanup table_name ts h pg growth_pattern
                period_type g1) as [[occ del] g2]. cbn [fst] in Hb.
    destruct Hb as (H0 & Hh & Hocc).
    destruct occ;
      cbn [ret fst td_name td_rows td_rows_added td_rows_deleted
           td_has_cleanup td_avg_row_bytes td_cleanup_occurred];
      repeat split; try reflexivity; try discriminate; try assumption;
      try (intros; now apply Hocc).
  - cbn [ret fst td_name td_rows td_rows_added td_rows_deleted
         td_has_cleanup td_avg_row_bytes td_cleanup_occurred].
    repeat split; try reflexivity; try lia.
Qed.

Section Lift.

Variables server_type period_type growth_pattern : string.
Variable R1 : string * table_state -> table_data -> Prop.
Variable R2 : string * table_state -> string * table_state -> Prop.
Variable R3 : table_data -> string * table_state -> Prop.

Hypothesis step :
  forall name ts histories g,
  let '(td, ts', _) :=
    fst (process_table server_type period_type growth_pattern name ts
           histories g) in
  R1 (name, ts) td /\ R2 (name, ts) (name, ts') /\ R3 td (name, ts').

(** What holds of every iteration holds of the lists, element by element. *)
Lemma process_tables_lift (todo : list (string * table_state)) :
  forall histories g,
  let '(tds, tss, _) :=
    fst (process_tables server_type period_type growth_pattern todo
           histories g) in
  Forall2 R1 todo tds /\ Forall2 R2 todo tss /\ Forall2 R3 tds tss.
Proof.
  induction todo as [|[name ts] rest IH]; intros histories g.
  - cbn [process_tables ret fst]. repeat split; constructor.
  - cbn [process_tables]. unfold bindR at 1.
    pose proof (step name ts histories g) as H1.
    destruct (process_table _ _ _ name ts histories g) as [[[td ts'] h1] g1].
    cbn [fst] in H1. destruct H1 as (A & B & C).
    unfold bindR. specialize (IH h1 g1).
    destruct (process_tables _ _ _ rest h1 g1) as [[[tds tss] h2] g2].
    cbn [fst ret] in *. destruct IH as (IA & IB & IC).
    repeat split; constructor; assumption.
Qed.

End Lift.

Lemma generate_lift (R1 : string * table_state -> table_data -> Prop)
    (R2 : string * table_state -> string * table_state -> Prop)
    (R3 : table_data -> string * table_state -> Prop)
    (s : db_state) (server_type : string) (p : period) (g : rng) :
  (forall name ts histories g,
   let '(td, ts', _) :=
     fst (process_table server_type (period_type p)
            (get (growth_pattern s) "stable"%string) name ts histories g) in
   R1 (name, ts) td /\ R2 (name, ts) (name, ts') /\ R3 td (name, ts')) ->
  let '(tds, s') := fst (generate_raw_table_data s server_type p g) in
  Forall2 R1 (tables s) tds /\ Forall2 R2 (tables s) (tables s')
  /\ Forall2 R3 tds (tables s').
Proof.
  intros step. unfold generate_raw_table_data. cbv zeta. unfold bindR.
  pose proof (process_tables_lift _ _ _ R1 R2 R3 step (tables s)
                (get (table_cleanup_history s) []) g) as H.
  destruct (process_tables _ _ _ (tables s) _ g) as [[[tds tss] h] g1].
  cbn [fst ret tables] in *. exact H.
Qed.

(** X11. The table data has one record per table of the state, in the
    order of the state and under its name; afterwards the state holds the
    same tables with the same growth, row width and cleanup flag, each with
    the row count reported for it. *)
Theorem table_records_match_state (s : db_state) (server_type : string)
    (p : period) (g : rng) :
  let '(tds, s') := fst (generate_raw_table_data s server_type p g) in
  map td_name tds = map fst (tables s)
  /\ Forall2 (fun kv kv' =>
       fst kv' = fst kv
       /\ daily_growth (snd kv') = daily_growth (snd kv)
       /\ avg_row_bytes (snd kv') = avg_row_bytes (snd kv)
       /\ has_cleanup (snd kv') = has_cleanup (snd kv))
       (tables s) (tables s')
  /\ Forall2 (fun td kv' =>
       fst kv' = td_name td /\ rows (snd kv') = td_rows td)
       tds (tables s').
Proof.
  pose proof (generate_lift
    (fun kv td => td_name td = fst kv)
    (fun kv kv' =>
       fst kv' = fst kv
       /\ daily_growth (snd kv') = daily_growth (snd kv)
       /\ avg_row_bytes (snd kv') = avg_row_bytes (snd kv)
       /\ has_cleanup (snd kv') = has_cleanup (snd kv))
    (fun td kv' => fst kv' = td_name td /\ rows (snd kv') = td_rows td)
    s server_type p g) as H.
  destruct (fst (generate_raw_table_data s server_type p g)) as [tds s'].
  destruct H as (H1 & H2 & H3).
  - intros name ts histories g0.
    pose proof (process_table_spec server_type (period_type p)
                  (get (growth_pattern s) "stable"%string) name ts histories
                  g0) as Hs.
    destruct (fst (process_table _ _ _ name ts histories g0)) as [[td ts'] h].
    destruct Hs as (Hn & Hts & _). subst ts'. cbn [fst snd with_rows
      daily_growth avg_row_bytes has_cleanup rows]. now repeat split.
  - split; [|split; assumption].
    clear H2 H3. induction H1 as [|kv td l l' Hh _ IH]; [reflexivity|].
    cbn [map]. now rewrite Hh, IH.
Qed.

Lemma scaled_nonneg (n : Z) (f hi : Q) :
  (0 <= n)%Z -> 0 <= f <= hi ->
  (0 <= py_int (inject_Z n * f))%Z
  /\ inject_Z (py_int (inject_Z n * f)) <= hi * inject_Z n.
Proof.
  intros Hn Hf.
  assert (Hq : 0 <= inject_Z n).
  { change 0 with (inject_Z 0). now rewrite <- Zle_Qle. }
  assert (Hx : 0 <= inject_Z n * f) by (apply Qmult_le_0_compat; lra).
  split; [now apply py_int_nonneg|].
  pose proof (py_int_le _ Hx).
  assert (0 <= inject_Z n * (hi - f)) by (apply Qmult_le_0_compat; lra).
  lra.
Qed.

(** The rows added: none are removed, and at most 1.4 times the daily
    growth are added. *)
Lemma period_growth_range (ts : table_state)
    (server_type period_type : string) (g : rng) :
  (0 <= daily_growth ts)%Z ->
  (0 <= fst (period_growth_of ts server_type period_type g))%Z
  /\ inject_Z (fst (period_growth_of ts server_type period_type g))
     <= (14 # 10) * inject_Z (daily_growth ts).
Proof.
  intros Hd. unfold period_growth_of. cbv zeta. unfold bindR.
  pose proof (uniform_range (7 # 10) (14 # 10) g ltac:(lra)) as Hu.
  destruct (uniform (7 # 10) (14 # 10) g) as [f g1]. cbn [fst ret] in *.
  destruct (scaled_nonneg (daily_growth ts) (5 # 10) (5 # 10) Hd ltac:(lra))
    as [Ha0 Ha1].
  set (a := py_int (inject_Z (daily_growth ts) * (5 # 10))) in *.
  assert (Hb : exists b, (0 <= b)%Z /\ inject_Z b <= 2 * inject_Z a
            /\ (if String.eqb server_type "oltp_production" then
                  py_int (inject_Z a
                          * (if String.eqb period_type "day" then 15 # 10
                             else 3 # 10))
                else if String.eqb server_type "reporting_analytics" then
                  py_int (inject_Z a
                          * (if String.eqb period_type "day" then 5 # 10
                             else 2))
                else a) = b).
  { assert (Hqa : 0 <= inject_Z a).
    { change 0 with (inject_Z 0). now rewrite <- Zle_Qle. }
    eexists. split; [|split; [|reflexivity]].
    - destruct (String.eqb server_type "oltp_production");
        [|destruct (String.eqb server_type "reporting_analytics")];
        try destruct (String.eqb period_type "day");
        try (apply scaled_nonneg with (hi := 2); [exact Ha0|lra]); exact Ha0.
    - destruct (String.eqb server_type "oltp_production");
        [|destruct (String.eqb server_type "reporting_analytics")];
        try destruct (String.eqb period_type "day");
        try (apply scaled_nonneg; [exact Ha0|lra]); lra. }
  destruct Hb as (b & Hb0 & Hb1 & ->).
  destruct (scaled_nonneg b f (14 # 10) Hb0 ltac:(lra)) as [Hc0 Hc1].
  split; [exact Hc0|]. lra.
Qed.

(** X12. A table whose cleanup flag is false or absent loses no row: no
    cleanup occurs, nothing is deleted and, the daily growth being
    non-negative, its row count does not decrease. *)
Theorem tables_without_cleanup_only_grow (s : db_state)
    (server_type : string) (p : period) (g : rng) :
  Forall (fun kv => (0 <= daily_growth (snd kv))%Z) (tables s) ->
  Forall2 (fun kv td =>
     get (has_cleanup (snd kv)) false = false ->
     td_cleanup_occurred td = false /\ td_rows_deleted td = 0%Z
     /\ (rows (snd kv) <= td_rows td)%Z)
    (tables s) (fst (fst (generate_raw_table_data s server_type p g))).
Proof.
  intros Hd.
  pose proof (generate_lift
    (fun kv td =>
       (0 <= daily_growth (snd kv))%Z ->
       get (has_cleanup (snd kv)) false = false ->
       td_cleanup_occurred td = false /\ td_rows_deleted td = 0%Z
       /\ (rows (snd kv) <= td_rows td)%Z)
    (fun _ _ => True) (fun _ _ => True) s server_type p g) as H.
  destruct (fst (generate_raw_table_data s server_type p g)) as [tds s'].
  cbn [fst]. destruct H as (H1 & _ & _).
  - intros name ts histories g0.
    pose proof (process_table_spec server_type (period_type p)
                  (get (growth_pattern s) "stable"%string) name ts histories
                  g0) as Hs.
    destruct (fst (process_table _ _ _ name ts histories g0)) as [[td ts'] h].
    destruct Hs as (_ & _ & Hr & Ha & _ & _ & Hn & _).
    split; [|split; exact I]. cbn [snd]. intros Hdg Hc.
    destruct (Hn Hc) as [Hdel Hocc]. split; [exact Hocc|].
    split; [exact Hdel|].
    pose proof (period_growth_range ts server_type (period_type p) g0 Hdg)
      as [Hp _].
    rewrite <- Ha in Hp. lia.
  - clear - Hd H1. induction H1 as [|kv td l l' Hh _ IH]; [constructor|].
    inversion Hd; subst. constructor; [now apply Hh|now apply IH].
Qed.

Lemma tables_without_cleanup_only_grow_witness :
  Forall (fun kv => (0 <= daily_growth (snd kv))%Z)
    [("Table_01"%string, TableState 5000 10 256 (Some false))]
  /\ Forall2 (fun kv td =>
       get (has_cleanup (snd kv)) false = false ->
       td_cleanup_occurred td = false /\ td_rows_deleted td = 0%Z
       /\ (rows (snd kv) <= td_rows td)%Z)
      [("Table_01"%string, TableState 5000 10 256 (Some false))]
      (fst (fst (generate_raw_table_data
         (DbState None None None None None
            [("Table_01"%string, TableState 5000 10 256 (Some false))] None)
         "reference_config"
         (Period "2025-05-01T06:00:00" "2025-05-01T18:00:00" "day")
         (Rng (fun _ => 0%Z) 0)))).
Proof.
  assert (H : Forall (fun kv => (0 <= daily_growth (snd kv))%Z)
                [("Table_01"%string, TableState 5000 10 256 (Some false))]).
  { constructor; [cbn; lia|constructor]. }
  split; [exact H|].
  exact (tables_without_cleanup_only_grow
           (DbState None None None None None
              [("Table_01"%string, TableState 5000 10 256 (Some false))] None)
           "reference_config"
           (Period "2025-05-01T06:00:00" "2025-05-01T18:00:00" "day")
           (Rng (fun _ => 0%Z) 0) H).
Defined.

Lemma forall2_under {A B : Type} (P : A -> Prop) (Q : A -> B -> Prop)
    (l : list A) (l' : list B) :
  Forall P l -> Forall2 (fun a b => P a -> Q a b) l l' -> Forall2 Q l l'.
Proof.
  intros HP H. induction H as [|a b l l' Hh _ IH]; [constructor|].
  inversion HP; subst. constructor; [now apply Hh|now apply IH].
Qed.

(** X13. With a non-negative daily growth, the rows added to a table in a
    period are between zero and 1.4 times its daily growth, whatever the
    server type, the period type and the draws. *)
Theorem rows_added_bounded (s : db_state) (server_type : string)
    (p : period) (g : rng) :
  Forall (fun kv => (0 <= daily_growth (snd kv))%Z) (tables s) ->
  Forall2 (fun kv td =>
     (0 <= td_rows_added td)%Z
     /\ inject_Z (td_rows_added td)
        <= (14 # 10) * inject_Z (daily_growth (snd kv)))
    (tables s) (fst (fst (generate_raw_table_data s server_type p g))).
Proof.
  intros Hd.
  pose proof (generate_lift
    (fun kv td =>
       (0 <= daily_growth (snd kv))%Z ->
       (0 <= td_rows_added td)%Z
       /\ inject_Z (td_rows_added td)
          <= (14 # 10) * inject_Z (daily_growth (snd kv)))
    (fun _ _ => True) (fun _ _ => True) s server_type p g) as H.
  destruct (fst (generate_raw_table_data s server_type p g)) as [tds s'].
  cbn [fst]. destruct H as (H1 & _ & _).
  - intros name ts histories g0.
    pose proof (process_table_spec server_type (period_type p)
                  (get (growth_pattern s) "stable"%string) name ts histories
                  g0) as Hs.
    destruct (fst (process_table _ _ _ name ts histories g0)) as [[td ts'] h].
    destruct Hs as (_ & _ & _ & Ha & _).
    split; [|split; exact I]. cbn [snd]. intros Hdg. rewrite Ha.
    now apply period_growth_range.
  - exact (forall2_under _ _ _ _ Hd H1).
Qed.

Lemma rows_added_bounded_witness :
  Forall (fun kv => (0 <= daily_growth (snd kv))%Z)
    [("Orders"%string, TableState 50000 4000 256 (Some true))]
  /\ Forall2 (fun kv td =>
       (0 <= td_rows_added td)%Z
       /\ inject_Z (td_rows_added td)
          <= (14 # 10) * inject_Z (daily_growth (snd kv)))
      [("Orders"%string, TableState 50000 4000 256 (Some true))]
      (fst (fst (generate_raw_table_data
         (DbState None None None None None
            [("Orders"%string, TableState 50000 4000 256 (Some true))] None)
         "reporting_analytics"
         (Period "2025-05-01T18:00:00" "2025-05-02T06:00:00" "night")
         (Rng (fun _ => 0%Z) 0)))).
Proof.
  assert (H : Forall (fun kv => (0 <= daily_growth (snd kv))%Z)
                [("Orders"%string, TableState 50000 4000 256 (Some true))]).
  { constructor; [cbn; lia|constructor]. }
  split; [exact H|].
  exact (rows_added_bounded
           (DbState None None None None None
              [("Orders"%string, TableState 50000 4000 256 (Some true))] None)
           "reporting_analytics"
           (Period "2025-05-01T18:00:00" "2025-05-02T06:00:00" "night")
           (Rng (fun _ => 0%Z) 0) H).
Defined.

(** X14. A period never removes more than half of a table: for a table
    with non-negative rows and daily growth, the rows deleted are between
    zero and half the rows it had, and the rows it has afterwards are at
    least half the rows it had. *)
Theorem at_most_half_removed (s : db_state) (server_type : string)
    (p : period) (g : rng) :
  Forall (fun kv => (0 <= rows (snd kv))%Z /\ (0 <= daily_growth (snd kv))%Z)
    (tables s) ->
  Forall2 (fun kv td =>
     (0 <= 2 * td_rows_deleted td <= rows (snd kv))%Z
     /\ (rows (snd kv) <= 2 * td_rows td)%Z)
    (tables s) (fst (fst (generate_raw_table_data s server_type p g))).
Proof.
  intros Hd.
  pose proof (generate_lift
    (fun kv td =>
       (0 <= rows (snd kv))%Z /\ (0 <= daily_growth (snd kv))%Z ->
       (0 <= 2 * td_rows_deleted td <= rows (snd kv))%Z
       /\ (rows (snd kv) <= 2 * td_rows td)%Z)
    (fun _ _ => True) (fun _ _ => True) s server_type p g) as H.
  destruct (fst (generate_raw_table_data s server_type p g)) as [tds s'].
  cbn [fst]. destruct H as (H1 & _ & _).
  - intros name ts histories g0.
    pose proof (process_table_spec server_type (period_type p)
                  (get (growth_pattern s) "stable"%string) name ts histories
                  g0) as Hs.
    destruct (fst (process_table _ _ _ name ts histories g0)) as [[td ts'] h].
    destruct Hs as (_ & _ & Hr & Ha & _ & _ & _ & _ & H0 & Hh).
    split; [|split; exact I]. cbn [snd]. intros [Hrows Hdg].
    pose proof (period_growth_range ts server_type (period_type p) g0 Hdg)
      as [Hp _].
    rewrite <- Ha in Hp. specialize (Hh Hrows). lia.
  - exact (forall2_under _ _ _ _ Hd H1).
Qed.

Lemma at_most_half_removed_witness :
  Forall (fun kv => (0 <= rows (snd kv))%Z /\ (0 <= daily_growth (snd kv))%Z)
    [("Orders"%string, TableState 50000 4000 256 (Some true))]
  /\ Forall2 (fun kv td =>
       (0 <= 2 * td_rows_deleted td <= rows (snd kv))%Z
       /\ (rows (snd kv) <= 2 * td_rows td)%Z)
      [("Orders"%string, TableState 50000 4000 256 (Some true))]
      (fst (fst (generate_raw_table_data
         (DbState None None None None None
            [("Orders"%string, TableState 50000 4000 256 (Some true))] None)
         "oltp_production"
         (Period "2025-05-01T06:00:00" "2025-05-01T18:00:00" "day")
         (Rng (fun _ => 0%Z) 0)))).
Proof.
  assert (H : Forall (fun kv => (0 <= rows (snd kv))%Z
                                /\ (0 <= daily_growth (snd kv))%Z)
                [("Orders"%string, TableState 50000 4000 256 (Some true))]).
  { constructor; [cbn; lia|constructor]. }
  split; [exact H|].
  exact (at_most_half_removed
           (DbState None None None None None
              [("Orders"%string, TableState 50000 4000 256 (Some true))] None)
           "oltp_production"
           (Period "2025-05-01T06:00:00" "2025-05-01T18:00:00" "day")
           (Rng (fun _ => 0%Z) 0) H).
Defined.

End TableExtras.

(** ** More on the autogrowth events *)

Module EventExtras.

Import Calendar Datetime Num Random Autogrowth EventShape.
Import DatetimeFacts IsoFacts NumFacts EventFacts EventClaims.
Local Open Scope Z_scope.

Lemma duration_of_range (inc : Z) (g : rng) :
  if inc <=? 32 then 100 <= fst (duration_of inc g) <= 500
  else if inc <=? 128 then 300 <= fst (duration_of inc g) <= 1000
  else 800 <= fst (duration_of inc g) <= 2000.
Proof.
  unfold duration_of. destruct (inc <=? 32); [|destruct (inc <=? 128)];
    apply randint_range; lia.
Qed.

Lemma increment_of_regular (file_type : string) (g : rng) :
  In (fst (increment_of false file_type g))
     (if String.eqb file_type "data" then [256; 512] else [64; 128]).
Proof.
  unfold increment_of. destruct (String.eqb file_type "data");
    apply choice_in.
Qed.

(** What every event made by the loop body satisfies. *)
Lemma make_event_shape (anomaly : bool) (start : datetime) (span : Q)
    (g g' : rng) (ev : event) :
  make_event anomaly start span g = Ok (ev, g') ->
  consistent ev /\ (anomaly = false -> regular ev).
Proof.
  unfold make_event.
  destruct (uniform 0 span g) as [offset g1].
  destruct (add start (timedelta_of_seconds offset)) as [t|]; [|discriminate].
  destruct (random g1) as [r g2].
  set (ft := if Qltb r (7 # 10) then "data"%string else "log"%string).
  pose proof (increment_of_regular ft g2) as Hreg.
  destruct (increment_of anomaly ft g2) as [inc g3] eqn:Einc.
  assert (Hprev : let prev := fst ((if String.eqb ft "data"
                                    then randint 5000 20000
                                    else randint 500 2000) g3) in
            ft = "data"%string /\ 5000 <= prev <= 20000
            \/ ft = "log"%string /\ 500 <= prev <= 2000).
  { unfold ft. destruct (Qltb r (7 # 10)); cbn [String.eqb Ascii.eqb Bool.eqb].
    - left. split; [reflexivity|]. apply randint_range. lia.
    - right. split; [reflexivity|]. apply randint_range. lia. }
  destruct ((if String.eqb ft "data" then randint 5000 20000
             else randint 500 2000) g3) as [prev g4].
  cbn [fst] in Hprev.
  pose proof (duration_of_range inc g4) as Hdur.
  destruct (duration_of inc g4) as [dur g5]. cbn [fst] in Hdur.
  destruct (random g5) as [rb g6].
  pose proof (randint_range 50 500 g6 ltac:(lia)) as Hwait.
  destruct (randint 50 500 g6) as [wait g7]. cbn [fst] in Hwait.
  assert (Hblk : let b := fst ((if Qltb rb (7 # 10) then randint 1 10
                                else ret 0) g7) in
            if Qltb rb (7 # 10) then 1 <= b <= 10 else b = 0).
  { destruct (Qltb rb (7 # 10)); [apply randint_range; lia|reflexivity]. }
  destruct ((if Qltb rb (7 # 10) then randint 1 10 else ret 0) g7)
    as [blocked g8]. cbn [fst] in Hblk.
  intros H. injection H as <- <-. split.
  - unfold consistent.
    cbn [file_type previous_mb new_mb increment_mb io_wait_ms blocking
         blocked_processes duration_ms].
    repeat split; try assumption; try lia.
  - intros ->. cbn [increment_of] in Einc. unfold increment_of in Hreg.
    unfold increment_of in Einc.
    unfold regular.
    cbn [file_type previous_mb new_mb increment_mb io_wait_ms blocking
         blocked_processes duration_ms].
    destruct Hprev as [[Eft _]|[Eft _]]; rewrite Eft in *;
      cbn [String.eqb Ascii.eqb Bool.eqb] in *;
      rewrite Einc in Hreg; cbn [fst] in Hreg.
    + left. split; [reflexivity|]. split; [exact Hreg|].
      destruct Hreg as [<-|[<-|[]]]; exact Hdur.
    + right. split; [reflexivity|]. split; [exact Hreg|].
      destruct Hreg as [<-|[<-|[]]]; exact Hdur.
Qed.

Lemma make_events_shape (n : nat) (anomaly : bool) (start : datetime)
    (span : Q) :
  forall g evs g',
  make_events n anomaly start span g = Ok (evs, g') ->
  Forall (fun ev => consistent ev /\ (anomaly = false -> regular ev)) evs.
Proof.
  induction n as [|n IH]; intros g evs g'; cbn [make_events].
  - intros H. injection H as <- _. constructor.
  - destruct (make_event anomaly start span g) as [[ev g1]|] eqn:E1;
      [|discriminate].
    destruct (make_events n anomaly start span g1) as [[evs1 g2]|] eqn:E2;
      [|discriminate].
    intros H. injection H as <- _.
    constructor; [exact (make_event_shape _ _ _ _ _ _ E1)|exact (IH _ _ _ E2)].
Qed.

(** The function returns on a period with ISO ends; the number and the
    shape of its events. *)
Lemma generate_shape (server_num : Z) (database_name : string) (s : db_state)
    (p : period) (g : rng) (start end_ : datetime) :
  fromisoformat (period_start p) = Ok start ->
  fromisoformat (period_end p) = Ok end_ ->
  exists evs g',
    generate_raw_autogrowth_events server_num database_name s p g
    = Ok (evs, g')
    /\ Z.of_nat (List.length evs)
       = Z.max 0 (fst (num_events_of (is_anomaly server_num database_name)
                         s p g))
    /\ Forall (fun ev =>
         consistent ev
         /\ (is_anomaly server_num database_name = false -> regular ev)) evs.
Proof.
  intros Es Ee. unfold generate_raw_autogrowth_events. cbv zeta.
  destruct (num_events_of _ s p g) as [n g1]. rewrite Es, Ee. cbn [fst].
  destruct (make_events_ok (Z.to_nat n) (is_anomaly server_num database_name)
              start end_ (fromisoformat_valid _ _ Es)
              (fromisoformat_valid _ _ Ee) g1) as (evs & g2 & E & Hl & _).
  rewrite E. exists (sort evs), g2. split; [reflexivity|]. split.
  - rewrite <- (Permutation_length (sort_perm evs)). lia.
  - apply (Permutation_Forall (sort_perm evs)).
    exact (make_events_shape _ _ _ _ _ _ _ E).
Qed.

(** X15. On a period with ISO ends the function returns, and the fields of
    every event agree: the file type is data or log, the previous size is
    5000 to 20000 MB for data and 500 to 2000 MB for log, the new size is
    the previous size plus the increment, the wait is 50 to 500 ms, the
    blocked processes are 1 to 10 when blocking and 0 otherwise, and the
    duration is in the range of the increment. *)
Theorem event_fields_consistent (server_num : Z) (database_name : string)
    (s : db_state) (p : period) (g : rng) (start end_ : datetime) :
  fromisoformat (period_start p) = Ok start ->
  fromisoformat (period_end p) = Ok end_ ->
  exists evs g',
    generate_raw_autogrowth_events server_num database_name s p g
    = Ok (evs, g')
    /\ Forall consistent evs.
Proof.
  intros Es Ee.
  destruct (generate_shape server_num database_name s p g start end_ Es Ee)
    as (evs & g' & E & _ & Hall).
  exists evs, g'. split; [exact E|].
  eapply Forall_impl; [|exact Hall]. cbn beta. now intros ev [H _].
Qed.

Lemma event_fields_consistent_witness :
  fromisoformat "2025-05-01T06:00:00" = Ok (make 2025 5 1 6 0 0 0)
  /\ fromisoformat "2025-05-01T18:00:00" = Ok (make 2025 5 1 18 0 0 0)
  /\ exists evs g',
       generate_raw_autogrowth_events 1 "Sales_DB"
         (DbState None (Some "growing_fast"%string) None None None [] None)
         (Period "2025-05-01T06:00:00" "2025-05-01T18:00:00" "day")
         (Rng (fun n => Z.of_nat n * 1234567890123457 + 17) 0) = Ok (evs, g')
       /\ Forall consistent evs.
Proof.
  split; [reflexivity|]. split; [reflexivity|].
  exact (event_fields_consistent 1 "Sales_DB"
           (DbState None (Some "growing_fast"%string) None None None [] None)
           (Period "2025-05-01T06:00:00" "2025-05-01T18:00:00" "day")
           (Rng (fun n => Z.of_nat n * 1234567890123457 + 17) 0)
           _ _ eq_refl eq_refl).
Defined.

(** X16. For every entity other than the anomaly, on a period with ISO
    ends: each event of a data file has an increment of 256 or 512 MB and a
    duration of 800 to 2000 ms, each event of a log file an increment of 64
    or 128 MB and a duration of 300 to 1000 ms; the small increments 8, 16
    and 32 never occur. *)
Theorem regular_entity_events (server_num : Z) (database_name : string)
    (s : db_state) (p : period) (g : rng) (start end_ : datetime) :
  is_anomaly server_num database_name = false ->
  fromisoformat (period_start p) = Ok start ->
  fromisoformat (period_end p) = Ok end_ ->
  exists evs g',
    generate_raw_autogrowth_events server_num database_name s p g
    = Ok (evs, g')
    /\ Forall regular evs
    /\ Forall (fun ev => 64 <= increment_mb ev) evs.
Proof.
  intros Ha Es Ee.
  destruct (generate_shape server_num database_name s p g start end_ Es Ee)
    as (evs & g' & E & _ & Hall).
  exists evs, g'. split; [exact E|].
  assert (Hr : Forall regular evs).
  { eapply Forall_impl; [|exact Hall]. cbn beta. intros ev [_ H].
    now apply H. }
  split; [exact Hr|].
  eapply Forall_impl; [|exact Hr]. unfold regular.
  intros ev [(_ & Hi & _)|(_ & Hi & _)]; cbn [In] in Hi; lia.
Qed.

Lemma regular_entity_events_witness :
  is_anomaly 1 "Sales_DB" = false
  /\ fromisoformat "2025-05-01T06:00:00" = Ok (make 2025 5 1 6 0 0 0)
  /\ fromisoformat "2025-05-01T18:00:00" = Ok (make 2025 5 1 18 0 0 0)
  /\ exists evs g',
       generate_raw_autogrowth_events 1 "Sales_DB"
         (DbState None (Some "growing_fast"%string) None None None [] None)
         (Period "2025-05-01T06:00:00" "2025-05-01T18:00:00" "day")
         (Rng (fun n => Z.of_nat n * 1234567890123457 + 17) 0) = Ok (evs, g')
       /\ Forall regular evs
       /\ Forall (fun ev => 64 <= increment_mb ev) evs.
Proof.
  split; [reflexivity|]. split; [reflexivity|]. split; [reflexivity|].
  exact (regular_entity_events 1 "Sales_DB"
           (DbState None (Some "growing_fast"%string) None None None [] None)
           (Period "2025-05-01T06:00:00" "2025-05-01T18:00:00" "day")
           (Rng (fun n => Z.of_nat n * 1234567890123457 + 17) 0)
           _ _ eq_refl eq_refl eq_refl).
Defined.

Ltac randint_bounds :=
  match goal with
  | |- context [randint ?a ?b ?g] =>
      pose proof (randint_range a b g ltac:(lia)); lia
  end.

Lemma num_events_regular (s : db_state) (p : period) (g : rng) :
  let n := fst (num_events_of false s p g) in
  let pattern := get (growth_pattern s) "stable"%string in
  0 <= n <= 60
  /\ (In pattern ["growing_fast"; "no_retention"; "broken_cleanup"]%string ->
      10 <= n <= 30)
  /\ (pattern = "stable"%string -> n <= 5)
  /\ (pattern = "archive_failure"%string -> 5 <= n <= 20)
  /\ (pattern = "etl_cycle"%string ->
      if String.eqb (period_type p) "night" then 20 <= n <= 40
      else 5 <= n <= 15)
  /\ (pattern = "static"%string -> n <= 3).
Proof.
  cbv zeta. unfold num_events_of.
  generalize (get (growth_pattern s) "stable"%string). intros pattern.
  split; [|split; [|split; [|split; [|split]]]].
  - repeat match goal with
           | |- context [String.eqb ?a ?b] => destruct (String.eqb a b)
           end; cbn [orb]; randint_bounds.
  - intros [<-|[<-|[<-|[]]]]; cbn [String.eqb Ascii.eqb Bool.eqb orb];
      randint_bounds.
  - intros ->. cbn [String.eqb Ascii.eqb Bool.eqb orb]. randint_bounds.
  - intros ->. cbn [String.eqb Ascii.eqb Bool.eqb orb]. randint_bounds.
  - intros ->. cbn [String.eqb Ascii.eqb Bool.eqb orb].
    destruct (String.eqb (period_type p) "night"); randint_bounds.
  - intros ->. cbn [String.eqb Ascii.eqb Bool.eqb orb]. randint_bounds.
Qed.

(** X17. For every entity other than the anomaly, on a period with ISO
    ends, the number of events follows the growth pattern, [stable] when
    the state has none: 10 to 30 for [growing_fast], [no_retention] and
    [broken_cleanup], at most 5 for [stable], 5 to 20 for
    [archive_failure], 20 to 40 at night and 5 to 15 by day for
    [etl_cycle], at most 3 for [static], and never more than 60. *)
Theorem event_count_by_pattern (server_num : Z) (database_name : string)
    (s : db_state) (p : period) (g : rng) (start end_ : datetime) :
  is_anomaly server_num database_name = false ->
  fromisoformat (period_start p) = Ok start ->
  fromisoformat (period_end p) = Ok end_ ->
  exists evs g',
    generate_raw_autogrowth_events server_num database_name s p g
    = Ok (evs, g')
    /\ let n := Z.of_nat (List.length evs) in
       let pattern := get (growth_pattern s) "stable"%string in
       n <= 60
       /\ (In pattern ["growing_fast"; "no_retention"; "broken_cleanup"]%string
           -> 10 <= n <= 30)
       /\ (pattern = "stable"%string -> n <= 5)
       /\ (pattern = "archive_failure"%string -> 5 <= n <= 20)
       /\ (pattern = "etl_cycle"%string ->
           if String.eqb (period_type p) "night" then 20 <= n <= 40
           else 5 <= n <= 15)
       /\ (pattern = "static"%string -> n <= 3).
Proof.
  intros Ha Es Ee.
  destruct (generate_shape server_num database_name s p g start end_ Es Ee)
    as (evs & g' & E & Hl & _).
  exists evs, g'. split; [exact E|]. cbv zeta. rewrite Hl, Ha.
  pose proof (num_events_regular s p g) as (H0 & H1 & H2 & H3 & H4 & H5).
  cbv zeta in H0, H1, H2, H3, H4, H5.
  rewrite Z.max_r by lia.
  split; [lia|]. split; [exact H1|]. split; [exact H2|].
  split; [exact H3|]. split; [exact H4|exact H5].
Qed.

Lemma event_count_by_pattern_witness :
  is_anomaly 1 "Sales_DB" = false
  /\ fromisoformat "2025-05-01T06:00:00" = Ok (make 2025 5 1 6 0 0 0)
  /\ fromisoformat "2025-05-01T18:00:00" = Ok (make 2025 5 1 18 0 0 0)
  /\ exists evs g',
       generate_raw_autogrowth_events 1 "Sales_DB"
         (DbState None (Some "growing_fast"%string) None None None [] None)
         (Period "2025-05-01T06:00:00" "2025-05-01T18:00:00" "day")
         (Rng (fun n => Z.of_nat n * 1234567890123457 + 17) 0) = Ok (evs, g')
       /\ 10 <= Z.of_nat (List.length evs) <= 30.
Proof.
  split; [reflexivity|]. split; [reflexivity|]. split; [reflexivity|].
  destruct (event_count_by_pattern 1 "Sales_DB"
              (DbState None (Some "growing_fast"%string) None None None []
                 None)
              (Period "2025-05-01T06:00:00" "2025-05-01T18:00:00" "day")
              (Rng (fun n => Z.of_nat n * 1234567890123457 + 17) 0)
              _ _ eq_refl eq_refl eq_refl) as (evs & g' & E & _ & H & _).
  exists evs, g'. split; [exact E|]. apply H. now left.
Defined.

(** X18. The function does not reject a period whose end is not after its
    start: it returns, and stamps every event between [period_end] and
    [period_start]; when the two ends are the same instant, every event
    carries that instant. *)
Theorem inverted_period_events (server_num : Z) (database_name : string)
    (s : db_state) (p : period) (g : rng) (start end_ : datetime) :
  fromisoformat (period_start p) = Ok start ->
  fromisoformat (period_end p) = Ok end_ ->
  micros end_ <= micros start ->
  exists evs g',
    generate_raw_autogrowth_events server_num database_name s p g
    = Ok (evs, g')
    /\ Forall (timestamp_between end_ start) evs
    /\ (micros end_ = micros start ->
        Forall (fun ev => timestamp ev = isoformat start) evs).
Proof.
  intros Es Ee Hle.
  destruct (generate_ok server_num database_name s p g start end_ Es Ee)
    as (evs & g' & E & _ & Hall).
  exists (sort evs), g'. split; [exact E|].
  apply (Permutation_Forall (sort_perm evs)) in Hall. split.
  - eapply Forall_impl; [|exact Hall]. cbn beta.
    intros ev [(t & Et & Hv & Hb) _]. exists t. split.
    + rewrite Et. now apply fromisoformat_isoformat.
    + lia.
  - intros Heq. eapply Forall_impl; [|exact Hall]. cbn beta.
    intros ev [(t & Et & Hv & Hb) _]. rewrite Et. f_equal.
    destruct t as [ut], start as [us]. cbn [micros] in *. f_equal. lia.
Qed.

Lemma inverted_period_events_witness :
  fromisoformat "2025-05-01T18:00:00" = Ok (make 2025 5 1 18 0 0 0)
  /\ fromisoformat "2025-05-01T06:00:00" = Ok (make 2025 5 1 6 0 0 0)
  /\ micros (make 2025 5 1 6 0 0 0) <= micros (make 2025 5 1 18 0 0 0)
  /\ exists evs g',
       generate_raw_autogrowth_events 1 "Sales_DB"
         (DbState None (Some "growing_fast"%string) None None None [] None)
         (Period "2025-05-01T18:00:00" "2025-05-01T06:00:00" "day")
         (Rng (fun n => Z.of_nat n * 1234567890123457 + 17) 0) = Ok (evs, g')
       /\ Forall (timestamp_between (make 2025 5 1 6 0 0 0)
                    (make 2025 5 1 18 0 0 0)) evs.
Proof.
  split; [reflexivity|]. split; [reflexivity|].
  assert (H : micros (make 2025 5 1 6 0 0 0) <= micros (make 2025 5 1 18 0 0 0))
    by (vm_compute; discriminate).
  split; [exact H|].
  destruct (inverted_period_events 1 "Sales_DB"
              (DbState None (Some "growing_fast"%string) None None None []
                 None)
              (Period "2025-05-01T18:00:00" "2025-05-01T06:00:00" "day")
              (Rng (fun n => Z.of_nat n * 1234567890123457 + 17) 0)
              _ _ eq_refl eq_refl H) as (evs & g' & E & Hb & _).
  exists evs, g'. split; [exact E|exact Hb].
Defined.

End EventExtras.

(** ** More on the state store *)

Module StoreExtras.

Import Store.

(** X19. A state file that exists and parses, but not to a map, does not make
    [load_server_state] raise, and is not always replaced by the empty map:
    null, a boolean and a number give the empty map; a string or a list is
    returned as it is, so the result is not a map, unless the text
    [metadata] occurs in the string or is an element of the list, which
    gives the empty map. *)
Theorem state_file_not_a_map (fs : filesystem) (server_num : Z) (v : json) :
  fs (state_file server_num) = Ok (Some (Ok v)) ->
  load_server_state fs server_num
  = Ok match v with
       | JNull | JBool _ | JNum _ => JDict []
       | JStr s => if Py.contains "metadata" s then JDict [] else JStr s
       | JList l =>
           if existsb (Py.is_str "metadata") l then JDict [] else JList l
       | JDict items => JDict (Py.del "metadata" items)
       end.
Proof.
  intros E. unfold load_server_state. rewrite E. cbn [bind].
  destruct v as [| b | q | s | l | items]; try reflexivity.
  - unfold read_state. cbn [bind Py.contains_key].
    now destruct (Py.contains "metadata" s).
  - unfold read_state. cbn [bind Py.contains_key].
    now destruct (existsb (Py.is_str "metadata") l).
  - now rewrite StoreClaims.read_state_dict.
Qed.

Lemma state_file_not_a_map_witness :
  (fun path : string =>
     if String.eqb path "Server3/growth_data/server_state.json"
     then Ok (Some (Ok (JList [JStr "Sales_DB"]))) else Ok None) (state_file 3)
  = Ok (Some (Ok (JList [JStr "Sales_DB"])))
  /\ load_server_state
       (fun path : string =>
          if String.eqb path "Server3/growth_data/server_state.json"
          then Ok (Some (Ok (JList [JStr "Sales_DB"]))) else Ok None) 3
     = Ok (JList [JStr "Sales_DB"]).
Proof.
  split; [reflexivity|].
  exact (state_file_not_a_map
           (fun path : string =>
              if String.eqb path "Server3/growth_data/server_state.json"
              then Ok (Some (Ok (JList [JStr "Sales_DB"]))) else Ok None)
           3 (JList [JStr "Sales_DB"]) eq_refl).
Defined.

End StoreExtras.

(** ** Cleanup schedule and database names *)

Module ScheduleExtras.

Import Random Tables Schedule NumFacts.

Lemma lower_idempotent (s : string) : lower (lower s) = lower s.
Proof.
  induction s as [|c s IH]; [reflexivity|].
  cbn [lower]. rewrite IH. f_equal. unfold lower_ascii.
  destruct (Nat.leb 65 (nat_of_ascii c) && Nat.leb (nat_of_ascii c) 90)%bool
    eqn:E.
  - apply andb_prop in E. destruct E as [E1 E2].
    apply Nat.leb_le in E1, E2.
    rewrite nat_ascii_embedding by lia.
    replace (Nat.leb (nat_of_ascii c + 32) 90) with false
      by (symmetry; apply Nat.leb_gt; lia).
    now rewrite andb_false_r.
  - now rewrite E.
Qed.

Lemma schedule_cases (table_name server_type : string) (g : rng) :
  let schedule := fst (determine_cleanup_schedule table_name server_type g) in
  let logs := any_keyword ["log"; "audit"; "history"]%string
                (lower table_name) in
  let temps := any_keyword ["temp"; "staging"; "cache"]%string
                 (lower table_name) in
  (logs = true /\ In schedule ["daily"; "weekly"; "monthly"; "never"]%string)
  \/ (logs = false /\ temps = true /\ In schedule ["hourly"; "daily"]%string)
  \/ (logs = false /\ temps = false
      /\ In schedule ["weekly"; "monthly"; "quarterly"; "never"]%string).
Proof.
  cbv zeta. unfold determine_cleanup_schedule. cbv zeta.
  destruct (any_keyword ["log"; "audit"; "history"]%string (lower table_name)).
  - left. split; [reflexivity|]. apply choice_in.
  - right.
    destruct (any_keyword ["temp"; "staging"; "cache"]%string
                (lower table_name)).
    + left. split; [reflexivity|]. split; [reflexivity|]. apply choice_in.
    + right. split; [reflexivity|]. split; [reflexivity|].
      destruct (any_keyword ["transaction"; "order"; "payment"]%string
                  (lower table_name)).
      * pose proof (choice_in "weekly"%string ["monthly"; "quarterly"]%string
                      g) as H. cbn [In] in H |- *. tauto.
      * pose proof (choice_in "weekly"%string ["monthly"; "never"]%string g)
          as H. cbn [In] in H |- *. tauto.
Qed.

(** X20. The cleanup schedule drawn for a table is one of hourly, daily,
    weekly, monthly, quarterly and never.  It is hourly only for a name
    that contains temp, staging or cache and none of log, audit and
    history; a name that contains log, audit or history gets neither hourly
    nor quarterly.  The letter case of the name and the server type play no
    part. *)
Theorem cleanup_schedule_choices (table_name server_type : string) (g : rng) :
  let schedule := fst (determine_cleanup_schedule table_name server_type g) in
  let logs := any_keyword ["log"; "audit"; "history"]%string
                (lower table_name) in
  let temps := any_keyword ["temp"; "staging"; "cache"]%string
                 (lower table_name) in
  In schedule ["hourly"; "daily"; "weekly"; "monthly"; "quarterly";
               "never"]%string
  /\ (schedule = "hourly"%string -> logs = false /\ temps = true)
  /\ (logs = true ->
      In schedule ["daily"; "weekly"; "monthly"; "never"]%string)
  /\ determine_cleanup_schedule table_name server_type g
     = determine_cleanup_schedule (lower table_name) EmptyString g.
Proof.
  cbv zeta.
  pose proof (schedule_cases table_name server_type g) as H. cbv zeta in H.
  split; [|split; [|split]].
  - cbn [In] in H |- *. tauto.
  - intros E. rewrite E in H. cbn [In] in H.
    destruct H as [[_ H]|[[H1 [H2 _]]|[_ [_ H]]]].
    + repeat destruct H as [H|H]; try discriminate H; contradiction.
    + now split.
    + repeat destruct H as [H|H]; try discriminate H; contradiction.
  - intros E. rewrite E in H.
    destruct H as [[_ H]|[[H _]|[H _]]]; [exact H|discriminate|discriminate].
  - unfold determine_cleanup_schedule. cbv zeta.
    now rewrite lower_idempotent.
Qed.

End ScheduleExtras.

Module NamesExtras.

Import Names.

(** X21. The database names of a server type: the entry of the configured
    [database_names] map for that type when the map has one, returned as
    it is, be it an empty list; otherwise, and when the map is absent or
    empty, the built-in names, which are three for [oltp_production] and
    [reporting_analytics], two for [reference_config] and
    Database_1 to Database_3 for any other type.  No exception is raised on
    a map. *)
Theorem database_names_configured_or_default (server_type : string)
    (configs : list (string * json)) :
  (Dict.lookup "database_names"%string configs = None ->
   get_database_names_for_server_type server_type configs
   = Ok (default_for server_type))
  /\ (forall names,
      Dict.lookup "database_names"%string configs = Some (JDict names) ->
      get_database_names_for_server_type server_type configs
      = Ok match Dict.lookup server_type names with
           | Some configured => configured
           | None => default_for server_type
           end)
  /\ (exists l, default_for server_type = JList l
                /\ (2 <= List.length l <= 3)%nat
                /\ Forall (fun v => exists s, v = JStr s /\ s <> EmptyString) l).
Proof.
  split; [|split].
  - intros E. unfold get_database_names_for_server_type. now rewrite E.
  - intros names E. unfold get_database_names_for_server_type. rewrite E.
    destruct names as [|kv names]; [reflexivity|].
    cbn [Py.truthy bind Py.contains_key Py.subscript].
    now destruct (Dict.lookup server_type (kv :: names)).
  - unfold default_for, default_names. cbn [Dict.lookup].
    destruct (String.eqb server_type "oltp_production");
      [|destruct (String.eqb server_type "reporting_analytics");
        [|destruct (String.eqb server_type "reference_config")]];
      eexists; (split; [reflexivity|]); (split; [cbn; lia|]);
      repeat constructor; eexists; (split; [reflexivity|discriminate]).
Qed.

Lemma database_names_configured_or_default_witness :
  Dict.lookup "database_names"%string
    [("database_names"%string,
      JDict [("oltp_production"%string, JList [])])]
  = Some (JDict [("oltp_production"%string, JList [])])
  /\ get_database_names_for_server_type "oltp_production"
       [("database_names"%string,
         JDict [("oltp_production"%string, JList [])])]
     = Ok (JList []).
Proof.
  split; [reflexivity|].
  exact (proj1 (proj2 (database_names_configured_or_default "oltp_production"
           [("database_names"%string,
             JDict [("oltp_production"%string, JList [])])]))
           [("oltp_production"%string, JList [])] eq_refl).
Defined.

End NamesExtras.

(** ** Initial state of a database *)

Module InitExtras.

Import Num Random Growth Tables Store Simulator NumFacts.

(** The first 25 table names are pairwise distinct. *)
Lemma table_names_checked :
  forallb (fun i =>
    forallb (fun j =>
      Nat.eqb i j
      || negb (String.eqb (table_name_of (Z.of_nat i))
                          (table_name_of (Z.of_nat j))))
      (seq 0 25)) (seq 0 25) = true.
Proof. vm_compute. reflexivity. Qed.

Lemma table_names_distinct (i j : nat) :
  (i < 25)%nat -> (j < 25)%nat ->
  table_name_of (Z.of_nat i) = table_name_of (Z.of_nat j) -> i = j.
Proof.
  intros Hi Hj E. pose proof table_names_checked as H.
  rewrite forallb_forall in H.
  specialize (H i ltac:(apply in_seq; lia)).
  rewrite forallb_forall in H.
  specialize (H j ltac:(apply in_seq; lia)).
  rewrite E, String.eqb_refl in H. cbn [negb] in H. rewrite orb_false_r in H.
  now apply Nat.eqb_eq.
Qed.

Lemma lookup_absent {A : Type} (key : string) (items : list (string * A)) :
  ~ In key (map fst items) -> Dict.lookup key items = None.
Proof.
  induction items as [|[k v] rest IH]; cbn [Dict.lookup map fst In];
    [reflexivity|].
  intros H. destruct (String.eqb_spec key k) as [->|N]; [tauto|].
  apply IH. tauto.
Qed.

Lemma set_absent {A : Type} (key : string) (v : A)
    (items : list (string * A)) :
  ~ In key (map fst items) -> Dict.set key v items = items ++ [(key, v)].
Proof.
  induction items as [|[k x] rest IH]; cbn [Dict.set map fst In app];
    [reflexivity|].
  intros H. destruct (String.eqb_spec key k) as [->|N]; [tauto|].
  rewrite IH by tauto. reflexivity.
Qed.

(** The names of the tables with indices below [n]. *)
Lemma names_below (n i : nat) :
  (n <= 25)%nat -> (n <= i < 25)%nat ->
  ~ In (table_name_of (Z.of_nat i))
       (map (fun k => table_name_of (Z.of_nat k)) (seq 0 n)).
Proof.
  intros Hn Hi H. apply in_map_iff in H. destruct H as (k & E & Hk).
  apply in_seq in Hk. apply table_names_distinct in E; lia.
Qed.

Section Tables.

Variable server_type : string.
Variable P : table_state -> Prop.
Hypothesis new_table_P : forall g, P (fst (new_table server_type g)).

Lemma new_tables_spec (count : nat) :
  forall (i : nat) (acc : list (string * table_state)) (g : rng),
  (i + count <= 25)%nat ->
  map fst acc = map (fun k => table_name_of (Z.of_nat k)) (seq 0 i) ->
  Forall (fun kv => P (snd kv)) acc ->
  let tables := fst (new_tables count (Z.of_nat i) server_type acc g) in
  map fst tables
  = map (fun k => table_name_of (Z.of_nat k)) (seq 0 (i + count))
  /\ Forall (fun kv => P (snd kv)) tables.
Proof.
  induction count as [|count IH]; intros i acc g Hle Hn HP; cbv zeta.
  - cbn [new_tables ret fst]. rewrite Nat.add_0_r. now split.
  - cbn [new_tables]. unfold bindR.
    pose proof (new_table_P g) as Ht.
    destruct (new_table server_type g) as [ts g1]. cbn [fst] in Ht.
    rewrite set_absent
      by (rewrite Hn; apply names_below; lia).
    replace (Z.of_nat i + 1)%Z with (Z.of_nat (S i)) by lia.
    replace (i + S count)%nat with (S i + count)%nat by lia.
    apply IH; [lia| |].
    + rewrite map_app, Hn. cbn [map fst].
      rewrite seq_S, map_app. reflexivity.
    + apply Forall_app. split; [exact HP|]. now constructor.
Qed.

End Tables.

Lemma table_count_range (server_type : string) (g : rng) :
  let n := fst (table_count_of server_type g) in
  (if String.eqb server_type "oltp_production" then 15 <= n <= 25
   else if String.eqb server_type "reporting_analytics" then 8 <= n <= 15
   else 5 <= n <= 10)%Z.
Proof.
  cbv zeta. unfold table_count_of.
  destruct (String.eqb server_type "oltp_production");
    [|destruct (String.eqb server_type "reporting_analytics")];
    apply randint_range; lia.
Qed.

Lemma size_and_pattern_count (server_num : Z)
    (database_name server_type : string) (g : rng) :
  let n := snd (fst (size_and_pattern server_num database_name server_type g))
  in
  (if String.eqb server_type "oltp_production" then 15 <= n <= 25
   else if String.eqb server_type "reporting_analytics" then 8 <= n <= 15
   else 5 <= n <= 10)%Z.
Proof.
  cbv zeta. unfold size_and_pattern.
  destruct (Dict.lookup _ problem_databases) as [[pattern start]|].
  - unfold bindR. pose proof (table_count_range server_type g) as H.
    destruct (table_count_of server_type g) as [n g1]. exact H.
  - destruct (String.eqb server_type "oltp_production");
      [|destruct (String.eqb server_type "reporting_analytics")];
      unfold bindR;
      match goal with
      | |- context [uniform ?a ?b g] => destruct (uniform a b g)
      end;
      match goal with
      | |- context [randint ?a ?b ?g'] =>
          pose proof (randint_range a b g' ltac:(lia)) as H;
          destruct (randint a b g')
      end; exact H.
Qed.

(** What holds of every table of a new database. *)
Lemma new_table_shape (server_type : string) (g : rng) :
  let ts := fst (new_table server_type g) in
  (10000 <= rows ts <= 1000000)%Z
  /\ (128 <= avg_row_bytes ts <= 512)%Z
  /\ (if String.eqb server_type "reference_config"
      then 1 <= daily_growth ts <= 10
      else 1000 <= daily_growth ts <= 10000)%Z
  /\ exists b, has_cleanup ts = Some b
               /\ (String.eqb server_type "oltp_production" = false ->
                   String.eqb server_type "reporting_analytics" = false ->
                   b = false).
Proof.
  cbv zeta. unfold new_table, bindR.
  assert (Hd : (if String.eqb server_type "reference_config"
                then 1 <= fst ((if String.eqb server_type "reference_config"
                                then randint 1 10 else randint 1000 10000) g)
                     <= 10
                else 1000 <= fst ((if String.eqb server_type "reference_config"
                                   then randint 1 10
                                   else randint 1000 10000) g) <= 10000)%Z).
  { destruct (String.eqb server_type "reference_config");
      apply randint_range; lia. }
  destruct ((if String.eqb server_type "reference_config" then randint 1 10
             else randint 1000 10000) g) as [dg g1]. cbn [fst] in Hd.
  set (cleanup := if String.eqb server_type "oltp_production" then _ else _).
  assert (Hc : String.eqb server_type "oltp_production" = false ->
               String.eqb server_type "reporting_analytics" = false ->
               fst (cleanup g1) = false).
  { unfold cleanup. intros -> ->. reflexivity. }
  destruct (cleanup g1) as [b g2]. cbn [fst] in Hc.
  pose proof (randint_range 10000 1000000 g2 ltac:(lia)) as Hr.
  destruct (randint 10000 1000000 g2) as [r g3]. cbn [fst] in Hr.
  pose proof (randint_range 128 512 g3 ltac:(lia)) as Ha.
  destruct (randint 128 512 g3) as [a g4]. cbn [fst] in Ha.
  cbn [ret fst rows avg_row_bytes daily_growth has_cleanup].
  split; [exact Hr|]. split; [exact Ha|]. split; [exact Hd|].
  exists b. split; [reflexivity|exact Hc].
Qed.

(** X22. A new database has 15 to 25 tables on an [oltp_production]
    server, 8 to 15 on a [reporting_analytics] server and 5 to 10 on any
    other; they are named Table_01, Table_02 and so on, without
    repetition, and each has 10000 to 1000000 rows, a row width of 128 to
    512 bytes, a daily growth of 1 to 10 rows on a [reference_config]
    server and 1000 to 10000 otherwise, and a cleanup flag, which is false
    on every server type other than the first two. *)
Theorem initial_tables (server_num : Z) (database_name server_type : string)
    (g : rng) :
  let es := fst (initialize_database_state server_num database_name
                   server_type g) in
  exists n : nat,
    map fst (tables (es_core es))
    = map (fun k => table_name_of (Z.of_nat k)) (seq 0 n)
    /\ (if String.eqb server_type "oltp_production" then 15 <= n <= 25
        else if String.eqb server_type "reporting_analytics" then 8 <= n <= 15
        else 5 <= n <= 10)%nat
    /\ NoDup (map fst (tables (es_core es)))
    /\ Forall (fun kv =>
         let ts := snd kv in
         (10000 <= rows ts <= 1000000)%Z
         /\ (128 <= avg_row_bytes ts <= 512)%Z
         /\ (if String.eqb server_type "reference_config"
             then 1 <= daily_growth ts <= 10
             else 1000 <= daily_growth ts <= 10000)%Z
         /\ exists b, has_cleanup ts = Some b
                      /\ (String.eqb server_type "oltp_production" = false ->
                          String.eqb server_type "reporting_analytics" = false
                          -> b = false))
         (tables (es_core es)).
Proof.
  cbv zeta. unfold initialize_database_state, bindR.
  pose proof (size_and_pattern_count server_num database_name server_type g)
    as Hn. cbv zeta in Hn.
  destruct (size_and_pattern server_num database_name server_type g)
    as [[[base pattern] count] g1]. cbn [fst snd] in Hn.
  assert (Hc : (5 <= count <= 25)%Z).
  { destruct (String.eqb server_type "oltp_production");
      [|destruct (String.eqb server_type "reporting_analytics")]; lia. }
  pose proof (new_tables_spec server_type
                (fun ts =>
                   (10000 <= rows ts <= 1000000)%Z
                   /\ (128 <= avg_row_bytes ts <= 512)%Z
                   /\ (if String.eqb server_type "reference_config"
                       then 1 <= daily_growth ts <= 10
                       else 1000 <= daily_growth ts <= 10000)%Z
                   /\ exists b, has_cleanup ts = Some b
                       /\ (String.eqb server_type "oltp_production" = false ->
                           String.eqb server_type "reporting_analytics" = false
                           -> b = false))
                (new_table_shape server_type)
                (Z.to_nat count) 0 [] g1 ltac:(lia) eq_refl
                (Forall_nil _)) as [H1 H2].
  cbn [Z.of_nat] in H1, H2.
  destruct (new_tables (Z.to_nat count) 0 server_type [] g1) as [tbls g2].
  cbn [fst ret es_core tables] in *.
  exists (Z.to_nat count). split; [exact H1|]. split; [|split].
  - destruct (String.eqb server_type "oltp_production");
      [|destruct (String.eqb server_type "reporting_analytics")]; lia.
  - rewrite H1. apply NoDup_map_NoDup_ForallPairs; [|apply seq_NoDup].
    intros i j Hi Hj. apply in_seq in Hi, Hj.
    apply table_names_distinct; lia.
  - exact H2.
Qed.

Local Open Scope Q_scope.

Lemma size_and_pattern_spec (server_num : Z)
    (database_name server_type : string) (g : rng) :
  let '(size, pattern, _) :=
    fst (size_and_pattern server_num database_name server_type g) in
  match Dict.lookup (db_key server_num database_name) problem_databases with
  | Some (p, start) => pattern = p /\ size = inject_Z start
  | None =>
      if String.eqb server_type "oltp_production"
      then pattern = "stable"%string /\ 250 <= size <= 350
      else if String.eqb server_type "reporting_analytics"
      then pattern = "etl_cycle"%string /\ 300 <= size <= 500
      else pattern = "static"%string /\ 10 <= size <= 30
  end.
Proof.
  unfold size_and_pattern.
  destruct (Dict.lookup _ problem_databases) as [[pattern start]|].
  - unfold bindR. destruct (table_count_of server_type g) as [n g1].
    cbn [ret fst]. now split.
  - destruct (String.eqb server_type "oltp_production");
      [|destruct (String.eqb server_type "reporting_analytics")];
      unfold bindR;
      match goal with
      | |- context [uniform ?a ?b g] =>
          pose proof (uniform_range a b g ltac:(lra)) as H;
          destruct (uniform a b g)
      end;
      match goal with
      | |- context [randint ?a ?b ?g'] => destruct (randint a b g')
      end; cbn [ret fst] in *; (split; [reflexivity|exact H]).
Qed.

(** X23. The size and the growth pattern of a new database: the four
    problem databases, found by server number and name whatever the server
    type, start at their fixed size with their pattern (Server1
    TransactionLog_DB at 400 GB with no_retention, Server2 PrimaryStore_DB
    at 500 GB with growing_fast, Server2 CustomerCore_DB at 450 GB with
    broken_cleanup, Server3 DataWarehouse_DB at 600 GB with
    archive_failure); any other database starts stable at 250 to 350 GB on
    an oltp_production server, etl_cycle at 300 to 500 GB on a
    reporting_analytics server, static at 10 to 30 GB otherwise.  The data
    file is three quarters and the log file one quarter of the size, the
    counters are zero and there is no last period. *)
Theorem initial_size_and_pattern (server_num : Z)
    (database_name server_type : string) (g : rng) :
  let es := fst (initialize_database_state server_num database_name
                   server_type g) in
  exists size pattern,
    current_size_gb (es_core es) = Some size
    /\ growth_pattern (es_core es) = Some pattern
    /\ (forall key_num key_name p start,
        In (key_num, key_name, p, start)
          [(1%Z, "TransactionLog_DB"%string, "no_retention"%string, 400%Z);
           (2%Z, "PrimaryStore_DB"%string, "growing_fast"%string, 500%Z);
           (2%Z, "CustomerCore_DB"%string, "broken_cleanup"%string, 450%Z);
           (3%Z, "DataWarehouse_DB"%string, "archive_failure"%string, 600%Z)]
        -> server_num = key_num -> database_name = key_name ->
        pattern = p /\ size = inject_Z start)
    /\ (Dict.lookup (db_key server_num database_name) problem_databases = None
        -> if String.eqb server_type "oltp_production"
           then pattern = "stable"%string /\ 250 <= size <= 350
           else if String.eqb server_type "reporting_analytics"
           then pattern = "etl_cycle"%string /\ 300 <= size <= 500
           else pattern = "static"%string /\ 10 <= size <= 30)
    /\ es_data_file_gb es == (75 # 100) * size
    /\ es_data_file_gb es + es_log_file_gb es == size
    /\ cumulative_reads (es_core es) = Some 0%Z
    /\ cumulative_writes (es_core es) = Some 0%Z
    /\ server_type_key (es_core es) = Some server_type
    /\ es_database_name es = database_name
    /\ es_last_period es = None.
Proof.
  cbv zeta. unfold initialize_database_state, bindR.
  pose proof (size_and_pattern_spec server_num database_name server_type g)
    as Hs.
  destruct (size_and_pattern server_num database_name server_type g)
    as [[[size pattern] count] g1]. cbn [fst] in Hs.
  destruct (new_tables (Z.to_nat count) 0 server_type [] g1) as [tbls g2].
  cbn [ret fst es_core es_data_file_gb es_log_file_gb es_database_name
       es_last_period current_size_gb growth_pattern cumulative_reads
       cumulative_writes server_type_key].
  exists size, pattern. split; [reflexivity|]. split; [reflexivity|].
  split; [|split].
  - intros key_num key_name p start Hin -> ->.
    cbn [In] in Hin.
    destruct Hin as [H|[H|[H|[H|[]]]]]; injection H as <- <- <- <-;
      exact Hs.
  - intros E. now rewrite E in Hs.
  - repeat split; try reflexivity; ring.
Qed.

End InitExtras.

(** ** Snapshot of a database *)

Module SnapshotExtras.

Import Calendar Datetime Clock Num Random Growth Tables Store Simulator.
Import DatetimeFacts IsoFacts ClockFacts ClockClaims NumFacts.
Import TableExtras IoExtras.

Lemma lookup_present {A : Type} (key : string) (v : A)
    (items : list (string * A)) :
  NoDup (map fst items) -> In (key, v) items ->
  Dict.lookup key items = Some v.
Proof.
  induction items as [|[k x] rest IH]; cbn [map fst In Dict.lookup];
    [tauto|].
  intros Hnd [H|H].
  - injection H as -> ->. now rewrite String.eqb_refl.
  - inversion Hnd as [|? ? Hk Hrest]; subst.
    destruct (String.eqb_spec key k) as [->|N].
    + exfalso. apply Hk. apply in_map_iff. now exists (k, v).
    + now apply IH.
Qed.

Lemma set_same {A : Type} (key : string) (v : A)
    (items : list (string * A)) :
  Dict.lookup key items = Some v -> Dict.set key v items = items.
Proof.
  induction items as [|[k x] rest IH]; cbn [Dict.lookup Dict.set];
    [discriminate|].
  destruct (String.eqb_spec key k) as [->|N].
  - intros H. now injection H as ->.
  - intros H. now rewrite IH.
Qed.

(** Writing back the rows the tables already have changes nothing. *)
Lemma update_rows_same (tables_data : list table_data)
    (tbls : list (string * table_state)) :
  NoDup (map fst tbls) ->
  Forall (fun td => exists ts, In (td_name td, ts) tbls
                               /\ rows ts = td_rows td) tables_data ->
  update_rows tables_data tbls = tbls.
Proof.
  intros Hnd Hall. unfold update_rows.
  induction Hall as [|td tds (ts & Hin & Hr) _ IH]; [reflexivity|].
  cbn [fold_left]. rewrite (lookup_present _ _ _ Hnd Hin).
  replace (with_rows ts (td_rows td)) with ts
    by (rewrite <- Hr; now destruct ts).
  rewrite (set_same _ _ _ (lookup_present _ _ _ Hnd Hin)). exact IH.
Qed.

Lemma forall2_in_right {A B : Type} (R : A -> B -> Prop) (l : list A)
    (l' : list B) :
  Forall2 R l l' -> Forall (fun a => exists b, In b l' /\ R a b) l.
Proof.
  induction 1 as [|a b l l' Hab _ IH]; constructor.
  - exists b. split; [now left|exact Hab].
  - eapply Forall_impl; [|exact IH]. cbn beta.
    intros a' (b' & Hin & Hr). exists b'. split; [now right|exact Hr].
Qed.

Lemma table_data_state (s : db_state) (server_type : string) (p : period)
    (g : rng) :
  let '(tds, s') := fst (generate_raw_table_data s server_type p g) in
  map fst (tables s') = map fst (tables s)
  /\ Forall2 (fun td kv' => fst kv' = td_name td
                            /\ rows (snd kv') = td_rows td) tds (tables s')
  /\ growth_pattern s' = growth_pattern s
  /\ server_type_key s' = server_type_key s.
Proof.
  pose proof (generate_lift (fun _ _ => True)
                (fun kv kv' => fst kv' = fst kv)
                (fun td kv' => fst kv' = td_name td
                               /\ rows (snd kv') = td_rows td)
                s server_type p g) as H.
  assert (Hf : growth_pattern
                 (snd (fst (generate_raw_table_data s server_type p g)))
               = growth_pattern s
               /\ server_type_key
                    (snd (fst (generate_raw_table_data s server_type p g)))
                  = server_type_key s).
  { unfold generate_raw_table_data. cbv zeta. unfold bindR.
    destruct (process_tables _ _ _ (tables s) _ g) as [[[tds tss] h] g1].
    now split. }
  destruct (fst (generate_raw_table_data s server_type p g)) as [tds s'].
  cbn [snd] in Hf. destruct H as (_ & H2 & H3).
  - intros name ts histories g0.
    pose proof (process_table_spec server_type (period_type p)
                  (get (growth_pattern s) "stable"%string) name ts histories
                  g0) as Hs.
    destruct (fst (process_table _ _ _ name ts histories g0)) as [[td ts'] h].
    destruct Hs as (Hn & Hts & _). subst ts'.
    cbn [fst snd with_rows rows]. now repeat split.
  - split; [|split; [exact H3|exact Hf]].
    clear - H2. induction H2 as [|kv kv' l l' Hh _ IH]; [reflexivity|].
    cbn [map]. now rewrite Hh, IH.
Qed.

(** The state and the result that [generate_snapshot_data] leaves. *)
Lemma snapshot_spec (server_num : Z) (database_name server_type : string)
    (es : entity_state) (p : period)
    (baseline_templates : list (string * io_baselines))
    (baseline : io_baselines) (g : rng) :
  Dict.lookup server_type baseline_templates = Some baseline ->
  NoDup (map fst (tables (es_core es))) ->
  let '(res, es') :=
    fst (generate_snapshot_data server_num database_name server_type es p
           baseline_templates g) in
  exists io size tds,
    res = match fromisoformat (period_end p) with
          | Ok t =>
              Ok (Snapshot (isoformat t)
                    (String.append "Server" (str_of_int server_num))
                    server_num server_type database_name (period_start p)
                    (period_end p) (period_type p) size io tds)
          | Raise e => Raise e
          end
    /\ io = fst (fst (generate_raw_io_data (es_core es) baseline p
                        server_type g))
    /\ es_last_period es' = Some p
    /\ es_database_name es' = es_database_name es
    /\ current_size_gb (es_core es') = Some (total_gb size)
    /\ es_data_file_gb es' = data_file_gb size
    /\ es_log_file_gb es' = log_file_gb size
    /\ cumulative_reads (es_core es') = Some (io_cumulative_reads io)
    /\ cumulative_writes (es_core es') = Some (io_cumulative_writes io)
    /\ growth_pattern (es_core es') = growth_pattern (es_core es)
    /\ server_type_key (es_core es') = server_type_key (es_core es)
    /\ map fst (tables (es_core es')) = map fst (tables (es_core es))
    /\ Forall2 (fun td kv' => fst kv' = td_name td
                              /\ rows (snd kv') = td_rows td)
         tds (tables (es_core es')).
Proof.
  intros Eb Hnd. unfold generate_snapshot_data. rewrite Eb. unfold bindR.
  destruct (generate_raw_io_data (es_core es) baseline p server_type g)
    as [[io core1] g1] eqn:Eio.
  assert (Hcore1 : tables core1 = tables (es_core es)
                   /\ growth_pattern core1 = growth_pattern (es_core es)
                   /\ server_type_key core1 = server_type_key (es_core es)).
  { revert Eio. unfold generate_raw_io_data.
    destruct (io_multipliers (period_type p) server_type) as [mr mw].
    unfold bindR.
    destruct (uniform (85 # 100) (115 # 100) g) as [u1 g2].
    destruct (uniform (85 # 100) (115 # 100) g2) as [u2 g3].
    cbn [ret]. intros H. injection H as _ <- _. now repeat split. }
  destruct Hcore1 as (Ht1 & Hp1 & Hs1).
  destruct (generate_raw_size_data core1 p server_type g1) as [size g2].
  pose proof (table_data_state core1 server_type p g2) as Htd.
  destruct (generate_raw_table_data core1 server_type p g2)
    as [[tds core2] g3]. cbn [fst] in Htd.
  destruct Htd as (Hn2 & Hf2 & Hp2 & Hs2).
  assert (Hup : update_rows tds (tables core2) = tables core2).
  { apply update_rows_same.
    - rewrite Hn2, Ht1. exact Hnd.
    - eapply Forall_impl; [|exact (forall2_in_right _ _ _ Hf2)]. cbn beta.
      intros td ([k ts] & Hin & Hk & Hr). cbn [fst snd] in Hk, Hr.
      exists ts. subst k. now split. }
  destruct (fromisoformat (period_end p)) as [t|e];
    cbn [ret fst]; exists io, size, tds;
    cbn [es_last_period es_database_name es_core es_data_file_gb
         es_log_file_gb current_size_gb cumulative_reads cumulative_writes
         growth_pattern server_type_key tables];
    rewrite Hup, Hn2, Ht1, Hp2, Hp1, Hs2, Hs1;
    repeat split; try reflexivity; exact Hf2.
Qed.

(** X24. When the server type has a baseline, the tables of the state
    have distinct names and [period_end] is an ISO timestamp,
    [generate_snapshot_data] returns a snapshot that agrees with the state
    it leaves: the state holds the sizes and the cumulative counters of the
    snapshot, each table of the state has the rows reported for it, the
    last period of the state is the period, which the snapshot carries, and
    the timestamp of the snapshot is the ISO text of [period_end]. *)
Theorem snapshot_and_state_agree (server_num : Z)
    (database_name server_type : string) (es : entity_state) (p : period)
    (baseline_templates : list (string * io_baselines))
    (baseline : io_baselines) (g : rng) (t : datetime) :
  Dict.lookup server_type baseline_templates = Some baseline ->
  NoDup (map fst (tables (es_core es))) ->
  fromisoformat (period_end p) = Ok t ->
  exists snap es',
    fst (generate_snapshot_data server_num database_name server_type es p
           baseline_templates g) = (Ok snap, es')
    /\ snap_timestamp snap = isoformat t
    /\ snap_period_start snap = period_start p
    /\ snap_period_end snap = period_end p
    /\ snap_period_type snap = period_type p
    /\ es_last_period es' = Some p
    /\ current_size_gb (es_core es') = Some (total_gb (snap_size snap))
    /\ es_data_file_gb es' = data_file_gb (snap_size snap)
    /\ es_log_file_gb es' = log_file_gb (snap_size snap)
    /\ cumulative_reads (es_core es')
       = Some (io_cumulative_reads (snap_io snap))
    /\ cumulative_writes (es_core es')
       = Some (io_cumulative_writes (snap_io snap))
    /\ Forall2 (fun td kv' => fst kv' = td_name td
                              /\ rows (snd kv') = td_rows td)
         (snap_tables snap) (tables (es_core es')).
Proof.
  intros Eb Hnd Et.
  pose proof (snapshot_spec server_num database_name server_type es p
                baseline_templates baseline g Eb Hnd) as H.
  destruct (fst (generate_snapshot_data _ _ _ es p baseline_templates g))
    as [res es'].
  destruct H as (io & size & tds & Er & _ & Hl & _ & Hc & Hd & Hlg & Hr & Hw
                 & _ & _ & _ & Hf).
  rewrite Et in Er. subst res. eexists. exists es'.
  split; [reflexivity|].
  cbn [snap_timestamp snap_period_start snap_period_end snap_period_type
       snap_size snap_io snap_tables].
  repeat split; assumption.
Qed.

Lemma snapshot_and_state_agree_witness :
  Dict.lookup "reference_config"%string
    [("reference_config"%string, IoBaselines 50%Q 5%Q)]
  = Some (IoBaselines 50%Q 5%Q)
  /\ NoDup (map fst (tables (es_core
       (EntityState "ConfigStore_DB"
          (DbState (Some 20%Q) (Some "static"%string)
             (Some "reference_config"%string) (Some 0%Z) (Some 0%Z)
             [("Table_01"%string, TableState 20000 5 256 (Some false))] None)
          15%Q 5%Q None))))
  /\ fromisoformat "2025-05-01T18:00:00" = Ok (make 2025 5 1 18 0 0 0)
  /\ exists snap es',
       fst (generate_snapshot_data 6 "ConfigStore_DB" "reference_config"
              (EntityState "ConfigStore_DB"
                 (DbState (Some 20%Q) (Some "static"%string)
                    (Some "reference_config"%string) (Some 0%Z) (Some 0%Z)
                    [("Table_01"%string, TableState 20000 5 256 (Some false))]
                    None)
                 15%Q 5%Q None)
              (Period "2025-05-01T06:00:00" "2025-05-01T18:00:00" "day")
              [("reference_config"%string, IoBaselines 50%Q 5%Q)]
              (Rng (fun _ => 0%Z) 0)) = (Ok snap, es')
       /\ es_last_period es'
          = Some (Period "2025-05-01T06:00:00" "2025-05-01T18:00:00" "day").
Proof.
  assert (Hn : NoDup (map fst (tables (es_core
       (EntityState "ConfigStore_DB"
          (DbState (Some 20%Q) (Some "static"%string)
             (Some "reference_config"%string) (Some 0%Z) (Some 0%Z)
             [("Table_01"%string, TableState 20000 5 256 (Some false))] None)
          15%Q 5%Q None))))).
  { cbn. constructor; [intros []|constructor]. }
  split; [reflexivity|]. split; [exact Hn|]. split; [reflexivity|].
  destruct (snapshot_and_state_agree 6 "ConfigStore_DB" "reference_config"
              (EntityState "ConfigStore_DB"
                 (DbState (Some 20%Q) (Some "static"%string)
                    (Some "reference_config"%string) (Some 0%Z) (Some 0%Z)
                    [("Table_01"%string, TableState 20000 5 256 (Some false))]
                    None)
                 15%Q 5%Q None)
              (Period "2025-05-01T06:00:00" "2025-05-01T18:00:00" "day")
              [("reference_config"%string, IoBaselines 50%Q 5%Q)]
              (IoBaselines 50%Q 5%Q) (Rng (fun _ => 0%Z) 0)
              (make 2025 5 1 18 0 0 0) eq_refl Hn eq_refl)
    as (snap & es' & E & _ & _ & _ & _ & Hl & _).
  exists snap, es'. split; [exact E|exact Hl].
Defined.



End SnapshotExtras.

(** ** From one run to the next *)

Module RunExtras.

Import Calendar Datetime Clock Store Simulator Persist.
Import DatetimeFacts IsoFacts ClockFacts ClockClaims ScanClaims.

Lemma start_date_valid : valid start_date.
Proof. unfold valid. split; [discriminate|reflexivity]. Qed.

(** The two ends of a period of the clock are ISO texts of instants, and
    the end is at hour 18 of a day period and at hour 6 of a night
    period. *)
Lemma clock_period_iso (st : option (list (string * json))) (p : period) :
  calculate_next_simulation_period st = Ok p ->
  exists s e,
    valid s /\ valid e
    /\ period_start p = isoformat s /\ period_end p = isoformat e
    /\ (period_type p = "day"%string /\ hour e = 18
        \/ period_type p = "night"%string /\ hour e = 6).
Proof.
  unfold calculate_next_simulation_period.
  destruct (latest_period_end st) as [[d|]|x] eqn:El; cbn [bind];
    [| |discriminate].
  - pose proof (latest_period_end_valid _ _ El) as Hv.
    unfold next_window. destruct (hour d =? 6).
    + cbn [bind render]. intros H. injection H as <-.
      exists d, (replace_hour d 18). cbn [period_start period_end period_type].
      split; [exact Hv|].
      split; [apply valid_replace_hour; [lia|exact Hv]|].
      split; [reflexivity|]. split; [reflexivity|].
      left. split; [reflexivity|]. apply hour_replace_hour. lia.
    + destruct (add d (days 1)) as [n|x] eqn:Ea; cbn [bind render];
        [|discriminate].
      intros H. injection H as <-.
      destruct (add_inv _ _ _ Ea) as [_ Hn].
      exists d, (replace_hour n 6). cbn [period_start period_end period_type].
      split; [exact Hv|].
      split; [apply valid_replace_hour; [lia|exact Hn]|].
      split; [reflexivity|]. split; [reflexivity|].
      right. split; [reflexivity|]. apply hour_replace_hour. lia.
  - cbn [next_window bind render]. intros H. injection H as <-.
    exists start_date, (replace_hour start_date 18).
    cbn [period_start period_end period_type].
    split; [apply start_date_valid|].
    split; [apply valid_replace_hour; [lia|apply start_date_valid]|].
    split; [reflexivity|]. split; [reflexivity|].
    left. split; [reflexivity|]. apply hour_replace_hour. lia.
Qed.

(** What the clock reads in the JSON object of a database. *)
Lemma entity_json_record (es : entity_state) :
  scalar_last_period (entity_json es) = false
  /\ recorded_period_end (entity_json es)
     = match es_last_period es with
       | Some p =>
           match fromisoformat (period_end p) with
           | Ok d => Some d
           | Raise _ => None
           end
       | None => None
       end.
Proof.
  unfold entity_json, scalar_last_period, recorded_period_end. cbv zeta.
  destruct (server_type_key (es_core es)), (current_size_gb (es_core es)),
    (cumulative_reads (es_core es)), (cumulative_writes (es_core es)),
    (growth_pattern (es_core es));
    cbn [opt_field app Dict.lookup String.eqb Ascii.eqb Bool.eqb];
    destruct (es_last_period es); split; reflexivity.
Qed.

(** When every database of the server ended its last period at [e], that
    is what the clock finds. *)
Lemma latest_of_entities (entities : list (string * entity_state))
    (p : period) (e : datetime) :
  entities <> [] ->
  Forall (fun kv => es_last_period (snd kv) = Some p) entities ->
  fromisoformat (period_end p) = Ok e ->
  latest_period_end (Some (server_state_json entities)) = Ok (Some e).
Proof.
  intros Hne Hall Ee.
  rewrite latest_period_end_no_scalar.
  - f_equal. destruct entities as [|kv rest]; [contradiction|]. clear Hne.
    inversion Hall as [|? ? H1 Hrest]; subst.
    cbn [server_state_json map latest_recorded snd].
    destruct (entity_json_record (snd kv)) as [_ ->]. rewrite H1, Ee.
    cbn [later]. clear H1 Hall.
    induction Hrest as [|kv' rest' H1 _ IH]; [reflexivity|].
    cbn [map latest_recorded snd].
    destruct (entity_json_record (snd kv')) as [_ ->]. rewrite H1, Ee.
    cbn [later]. unfold ltb. rewrite Z.ltb_irrefl. exact IH.
  - unfold no_scalar, server_state_json. apply Forall_map.
    apply Forall_forall. intros kv _. cbn [snd].
    apply entity_json_record.
Qed.

(** X26. From one run to the next: when every database of a server holds
    as its last period a period [p] that the clock returned, as
    [generate_snapshot_data] leaves it, the clock run on the state as it is
    written to the state file returns a period that starts at the end of
    [p] and is of the other type, night after day and day after night.
    The only exception is the [OverflowError] of a night period that would
    start on 9999-12-31. *)
Theorem next_period_follows (st0 : option (list (string * json)))
    (p : period) (entities : list (string * entity_state)) :
  calculate_next_simulation_period st0 = Ok p ->
  entities <> [] ->
  Forall (fun kv => es_last_period (snd kv) = Some p) entities ->
  match calculate_next_simulation_period
          (Some (server_state_json entities)) with
  | Ok p' =>
      period_start p' = period_end p
      /\ (period_type p = "day"%string -> period_type p' = "night"%string)
      /\ (period_type p = "night"%string -> period_type p' = "day"%string)
  | Raise x => x = OverflowError /\ period_type p = "day"%string
  end.
Proof.
  intros Ep Hne Hall.
  destruct (clock_period_iso _ _ Ep) as (s & e & _ & Ve & _ & Ee & Ht).
  assert (El : latest_period_end (Some (server_state_json entities))
               = Ok (Some e)).
  { apply (latest_of_entities entities p e Hne Hall).
    rewrite Ee. now apply fromisoformat_isoformat. }
  destruct Ht as [[Ty Hh]|[Ty Hh]].
  - assert (N : hour e <> 6) by lia.
    destruct (add e (days 1)) as [n|x] eqn:Ea.
    + rewrite (night_branch _ _ _ El N Ea).
      cbn [period_start period_type]. rewrite Ty, Ee.
      repeat split; try reflexivity. discriminate.
    + rewrite (calculate_unfold _ _ El). unfold next_window.
      destruct (Z.eqb_spec (hour e) 6) as [|_]; [contradiction|].
      rewrite Ea. cbn [bind].
      destruct (WindowExtras.add_raises _ _ _ Ea) as [-> _]. now split.
  - rewrite (day_branch _ _ El Hh).
    cbn [period_start period_type]. rewrite Ty, Ee.
    repeat split; try reflexivity. discriminate.
Qed.

Lemma next_period_follows_witness :
  calculate_next_simulation_period None
  = Ok (Period "2025-05-01T06:00:00" "2025-05-01T18:00:00" "day")
  /\ match calculate_next_simulation_period
             (Some (server_state_json
                [("Sales_DB"%string,
                  EntityState "Sales_DB"
                    (DbState (Some 300%Q) (Some "stable"%string)
                       (Some "oltp_production"%string) (Some 0) (Some 0) []
                       None)
                    225%Q 75%Q
                    (Some (Period "2025-05-01T06:00:00" "2025-05-01T18:00:00"
                             "day")))])) with
     | Ok p' =>
         period_start p' = "2025-05-01T18:00:00"%string
         /\ ("day"%string = "day"%string -> period_type p' = "night"%string)
         /\ ("day"%string = "night"%string -> period_type p' = "day"%string)
     | Raise x => x = OverflowError /\ "day"%string = "day"%string
     end.
Proof.
  split; [reflexivity|].
  exact (next_period_follows None
           (Period "2025-05-01T06:00:00" "2025-05-01T18:00:00" "day")
           [("Sales_DB"%string,
             EntityState "Sales_DB"
               (DbState (Some 300%Q) (Some "stable"%string)
                  (Some "oltp_production"%string) (Some 0) (Some 0) [] None)
               225%Q 75%Q
               (Some (Period "2025-05-01T06:00:00" "2025-05-01T18:00:00"
                        "day")))]
           eq_refl ltac:(discriminate) ltac:(repeat constructor)).
Defined.

Lemma start_date_parts :
  micros start_date = 739371 * US_PER_DAY + 6 * US_PER_HOUR.
Proof. reflexivity. Qed.

(** The instant of step [m] from the epoch is at hour 6 for an even [m] and
    at hour 18 for an odd one. *)
Lemma step_hour (m : Z) :
  0 <= m ->
  hour (DT (micros start_date + hours 12 * m))
  = if Z.even m then 6 else 18.
Proof.
  intros Hm. rewrite start_date_parts.
  destruct (Z.even m) eqn:E.
  - apply Z.even_spec in E. destruct E as [j ->].
    refine (proj1 (proj2 (fields_of_parts _ (739371 + j) 6 0 _ _ _)));
      [|lia|unfold US_PER_HOUR, US_PER_SECOND; lia].
    cbn [micros]. unfold hours, US_PER_DAY, US_PER_HOUR, US_PER_SECOND. lia.
  - assert (O : Z.odd m = true) by (rewrite <- Z.negb_even, E; reflexivity).
    apply Z.odd_spec in O. destruct O as [j ->].
    refine (proj1 (proj2 (fields_of_parts _ (739371 + j) 18 0 _ _ _)));
      [|lia|unfold US_PER_HOUR, US_PER_SECOND; lia].
    cbn [micros]. unfold hours, US_PER_DAY, US_PER_HOUR, US_PER_SECOND. lia.
Qed.

(** X27. The schedule of a server that starts without state: the first
    period is the 12 hours from 2025-05-01 06:00, of type day, and when
    every database holds the period of run [k] as its last period, the
    clock returns the period of run [k + 1]: run [k] covers the 12 hours
    that start 12 hours times [k] after 2025-05-01 06:00, by day for an
    even [k] and by night for an odd one, as long as the instants fit in
    the years up to 9999. *)
Theorem schedule_from_epoch :
  calculate_next_simulation_period None = Ok (nth_period 0)
  /\ calculate_next_simulation_period (Some []) = Ok (nth_period 0)
  /\ forall (k : Z) (entities : list (string * entity_state)),
     0 <= k ->
     micros start_date + hours 12 * (k + 3) < MAX_MICROS ->
     entities <> [] ->
     Forall (fun kv => es_last_period (snd kv) = Some (nth_period k))
       entities ->
     calculate_next_simulation_period (Some (server_state_json entities))
     = Ok (nth_period (k + 1)).
Proof.
  split; [reflexivity|]. split; [reflexivity|].
  intros k entities Hk Hmax Hne Hall.
  set (d := DT (micros start_date + hours 12 * (k + 1))).
  assert (Hs : 0 <= micros start_date) by discriminate.
  assert (Vd : valid d).
  { unfold valid, d. cbn [micros]. unfold hours, US_PER_HOUR, US_PER_SECOND
      in *. lia. }
  assert (El : latest_period_end (Some (server_state_json entities))
               = Ok (Some d)).
  { apply (latest_of_entities entities (nth_period k) d Hne Hall).
    cbn [nth_period period_end]. now apply fromisoformat_isoformat. }
  pose proof (step_hour (k + 1) ltac:(lia)) as Hh. fold d in Hh.
  assert (Ev : Z.even (k + 1) = negb (Z.even k)).
  { replace (k + 1) with (Z.succ k) by lia.
    now rewrite Z.even_succ, <- Z.negb_even. }
  unfold nth_period. rewrite Ev in Hh |- *.
  destruct (Z.even k); cbn [negb] in Hh |- *.
  - assert (N : hour d <> 6) by lia.
    assert (Ea : add d (days 1) = Ok (DT (micros d + days 1))).
    { apply add_ok. unfold d. cbn [micros].
      unfold hours, days, US_PER_DAY, US_PER_HOUR, US_PER_SECOND in *. lia. }
    rewrite (night_branch _ _ _ El N Ea). f_equal. f_equal. f_equal.
    apply datetime_eq. unfold replace_hour. cbn [micros].
    destruct (add_one_day _ _ Ea) as (_ & -> & _). rewrite Hh.
    unfold d. cbn [micros].
    unfold hours, days, US_PER_DAY, US_PER_HOUR, US_PER_SECOND. lia.
  - rewrite (day_branch _ _ El Hh). f_equal. f_equal. f_equal.
    apply datetime_eq. rewrite (replace_hour_6_18 _ Hh).
    unfold d. cbn [micros].
    unfold hours, US_PER_HOUR, US_PER_SECOND. lia.
Qed.

Lemma schedule_from_epoch_witness :
  nth_period 1 = Period "2025-05-01T18:00:00" "2025-05-02T06:00:00" "night"
  /\ calculate_next_simulation_period
       (Some (server_state_json
          [("Sales_DB"%string,
            EntityState "Sales_DB"
              (DbState (Some 300%Q) (Some "stable"%string)
                 (Some "oltp_production"%string) (Some 0) (Some 0) [] None)
              225%Q 75%Q (Some (nth_period 0)))]))
     = Ok (nth_period (0 + 1)).
Proof.
  split; [reflexivity|].
  apply (proj2 (proj2 schedule_from_epoch));
    first [reflexivity | discriminate | repeat constructor].
Defined.

End RunExtras.

(** ** Writing and reading the state file *)

Module PersistExtras.

Import Clock Store Persist StoreClaims.




End PersistExtras.

(** ** First run of a new database *)

Module FirstRunExtras.

Import Datetime Num Random Growth Tables Store Simulator.
Import IsoFacts NumFacts IoExtras InitExtras SnapshotExtras.

Lemma new_table_ready (server_type : string) (g : rng) :
  (1000 <= rows (fst (new_table server_type g)))%Z
  /\ (0 <= daily_growth (fst (new_table server_type g)))%Z.
Proof.
  pose proof (new_table_shape server_type g) as (Hr & _ & Hd & _).
  cbv zeta in Hr, Hd. split; [lia|].
  destruct (String.eqb server_type "reference_config"); lia.
Qed.

(** The tables of a new database have distinct names, and its counters are
    zero. *)
Lemma initial_state_ready (server_num : Z)
    (database_name server_type : string) (g : rng) :
  let es := fst (initialize_database_state server_num database_name
                   server_type g) in
  NoDup (map fst (tables (es_core es)))
  /\ cumulative_reads (es_core es) = Some 0%Z
  /\ cumulative_writes (es_core es) = Some 0%Z
  /\ Forall (fun kv => (1000 <= rows (snd kv))%Z
                       /\ (0 <= daily_growth (snd kv))%Z)
       (tables (es_core es)).
Proof.
  cbv zeta. unfold initialize_database_state, bindR.
  pose proof (size_and_pattern_count server_num database_name server_type g)
    as Hn. cbv zeta in Hn.
  destruct (size_and_pattern server_num database_name server_type g)
    as [[[base pattern] count] g1]. cbn [fst snd] in Hn.
  assert (Hc : (5 <= count <= 25)%Z).
  { destruct (String.eqb server_type "oltp_production");
      [|destruct (String.eqb server_type "reporting_analytics")]; lia. }
  pose proof (new_tables_spec server_type
                (fun ts => (1000 <= rows ts)%Z /\ (0 <= daily_growth ts)%Z)
                (new_table_ready server_type)
                (Z.to_nat count) 0 [] g1 ltac:(lia) eq_refl
                (Forall_nil _)) as [H1 H2].
  cbn [Z.of_nat] in H1, H2.
  destruct (new_tables (Z.to_nat count) 0 server_type [] g1) as [tbls g2].
  cbn [fst ret es_core tables cumulative_reads cumulative_writes] in *.
  split; [|split; [reflexivity|split; [reflexivity|exact H2]]].
  rewrite H1. apply NoDup_map_NoDup_ForallPairs; [|apply seq_NoDup].
  intros i j Hi Hj. apply in_seq in Hi, Hj.
  apply table_names_distinct; lia.
Qed.

(** X29. The first snapshot of a new database.  A database just
    initialized always meets what [generate_snapshot_data] needs of its
    state, so with a baseline for the server type and an ISO [period_end]
    the snapshot is returned; its cumulative reads and writes are the reads
    and writes of the period, the counters having started at zero; it has
    one table record per table of the new database; and the state keeps
    the period as its last period. *)
Theorem first_snapshot_of_new_database (server_num : Z)
    (database_name server_type : string) (p : period)
    (baseline_templates : list (string * io_baselines))
    (baseline : io_baselines) (g : rng) (t : datetime) :
  Dict.lookup server_type baseline_templates = Some baseline ->
  fromisoformat (period_end p) = Ok t ->
  let '(es, g1) :=
    initialize_database_state server_num database_name server_type g in
  exists snap es',
    fst (generate_snapshot_data server_num database_name server_type es p
           baseline_templates g1) = (Ok snap, es')
    /\ io_cumulative_reads (snap_io snap) = reads (snap_io snap)
    /\ io_cumulative_writes (snap_io snap) = writes (snap_io snap)
    /\ List.length (snap_tables snap) = List.length (tables (es_core es))
    /\ es_last_period es' = Some p.
Proof.
  intros Eb Et.
  pose proof (initial_state_ready server_num database_name server_type g)
    as Hi. cbv zeta in Hi.
  destruct (initialize_database_state server_num database_name server_type g)
    as [es g1]. cbn [fst] in Hi. destruct Hi as (Hnd & Hr0 & Hw0 & _).
  pose proof (snapshot_spec server_num database_name server_type es p
                baseline_templates baseline g1 Eb Hnd) as H.
  destruct (fst (generate_snapshot_data _ _ _ es p baseline_templates g1))
    as [res es'].
  destruct H as (io & size & tds & Er & Eio & Hl & _ & _ & _ & _ & _ & _
                 & _ & _ & Hn & Hf).
  rewrite Et in Er. subst res. eexists. exists es'.
  split; [reflexivity|]. cbn [snap_io snap_tables].
  pose proof (io_step_totals (es_core es) baseline p server_type g1) as Hs.
  destruct (fst (generate_raw_io_data (es_core es) baseline p server_type g1))
    as [io0 s0]. cbn [fst] in Eio. subst io0.
  destruct Hs as (_ & _ & Hcr & Hcw).
  rewrite Hr0 in Hcr. rewrite Hw0 in Hcw. cbn [get] in Hcr, Hcw.
  split; [lia|]. split; [lia|]. split; [|exact Hl].
  rewrite (Forall2_length Hf), <- (length_map fst (tables (es_core es'))), Hn.
  apply length_map.
Qed.

Lemma first_snapshot_of_new_database_witness :
  Dict.lookup "reference_config"%string
    [("reference_config"%string, IoBaselines 50%Q 5%Q)]
  = Some (IoBaselines 50%Q 5%Q)
  /\ fromisoformat "2025-05-01T18:00:00" = Ok (make 2025 5 1 18 0 0 0)
  /\ let '(es, g1) :=
       initialize_database_state 6 "ConfigStore_DB" "reference_config"
         (Rng (fun _ => 0%Z) 0) in
     exists snap es',
       fst (generate_snapshot_data 6 "ConfigStore_DB" "reference_config" es
              (Period "2025-05-01T06:00:00" "2025-05-01T18:00:00" "day")
              [("reference_config"%string, IoBaselines 50%Q 5%Q)] g1)
       = (Ok snap, es')
       /\ io_cumulative_reads (snap_io snap) = reads (snap_io snap)
       /\ io_cumulative_writes (snap_io snap) = writes (snap_io snap)
       /\ List.length (snap_tables snap) = List.length (tables (es_core es))
       /\ es_last_period es'
          = Some (Period "2025-05-01T06:00:00" "2025-05-01T18:00:00" "day").
Proof.
  split; [reflexivity|]. split; [reflexivity|].
  exact (first_snapshot_of_new_database 6 "ConfigStore_DB" "reference_config"
           (Period "2025-05-01T06:00:00" "2025-05-01T18:00:00" "day")
           [("reference_config"%string, IoBaselines 50%Q 5%Q)]
           (IoBaselines 50%Q 5%Q) (Rng (fun _ => 0%Z) 0)
           (make 2025 5 1 18 0 0 0) eq_refl eq_refl).
Defined.

End FirstRunExtras.

(** ** Cleanup history of the tables *)

Module HistoryExtras.

Import Num Random Tables History NumFacts.

Lemma lookup_set_same {A : Type} (key : string) (v : A)
    (items : list (string * A)) :
  Dict.lookup key (Dict.set key v items) = Some v.
Proof.
  induction items as [|[k x] rest IH]; cbn [Dict.set Dict.lookup].
  - now rewrite String.eqb_refl.
  - destruct (String.eqb key k) eqn:E; cbn [Dict.lookup]; rewrite E;
      [reflexivity|exact IH].
Qed.

Lemma lookup_set_other {A : Type} (key other : string) (v : A)
    (items : list (string * A)) :
  other <> key ->
  Dict.lookup other (Dict.set key v items) = Dict.lookup other items.
Proof.
  intros Hne. induction items as [|[k x] rest IH]; cbn [Dict.set Dict.lookup].
  - destruct (String.eqb_spec other key); [contradiction|reflexivity].
  - destruct (String.eqb_spec key k) as [->|N]; cbn [Dict.lookup].
    + destruct (String.eqb_spec other k); [contradiction|reflexivity].
    + now rewrite IH.
Qed.


(** The entry of a table after its iteration, and the other entries. *)
Lemma process_table_history (server_type period_type growth_pattern : string)
    (name : string) (ts : table_state)
    (histories : list (string * cleanup_history)) (g : rng) :
  let '(td, _, histories') :=
    fst (process_table server_type period_type growth_pattern name ts
           histories g) in
  follows server_type name td histories histories'
  /\ (forall k, k <> name ->
      Dict.lookup k histories' = Dict.lookup k histories).
Proof.
  unfold process_table, follows, initial_history. cbv zeta.
  set (init := CleanupHistory true 0 (name, server_type) 0).
  set (histories0 := match Dict.lookup name histories with
                     | Some _ => histories
                     | None => Dict.set name init histories
                     end).
  assert (H0 : get (Dict.lookup name histories0) init
               = get (Dict.lookup name histories) init
               /\ forall k, k <> name ->
                  Dict.lookup k histories0 = Dict.lookup k histories).
  { unfold histories0. destruct (Dict.lookup name histories) eqn:E.
    - rewrite E. now split.
    - rewrite lookup_set_same. split; [reflexivity|].
      intros k Hk. now apply lookup_set_other. }
  destruct H0 as [Hb Ho]. rewrite Hb.
  set (before := get (Dict.lookup name histories) init).
  unfold bindR.
  destruct (period_growth_of ts server_type period_type g) as [pg g1].
  destruct (get (has_cleanup ts) false).
  - destruct (calculate_realistic_cleanup name ts _ pg growth_pattern
                period_type g1) as [[occ del] g2].
    destruct occ; cbn [ret fst td_cleanup_occurred td_rows_deleted].
    + split.
      * eexists. split; [apply lookup_set_same|].
        cbn [cleanup_schedule periods_since_cleanup last_cleanup_success
             failed_cleanups].
        split; [reflexivity|]. split; [discriminate|]. now intros _.
      * intros k Hk. rewrite lookup_set_other by exact Hk. now apply Ho.
    + split.
      * eexists. split; [apply lookup_set_same|].
        cbn [cleanup_schedule periods_since_cleanup last_cleanup_success
             failed_cleanups].
        split; [reflexivity|]. split; [now intros _|discriminate].
      * intros k Hk. rewrite lookup_set_other by exact Hk. now apply Ho.
  - cbn [ret fst td_cleanup_occurred td_rows_deleted]. split.
    + eexists. split; [apply lookup_set_same|].
      cbn [cleanup_schedule periods_since_cleanup last_cleanup_success
           failed_cleanups].
      split; [reflexivity|]. split; [now intros _|discriminate].
    + intros k Hk. rewrite lookup_set_other by exact Hk. now apply Ho.
Qed.

Lemma process_tables_history (server_type period_type growth_pattern : string)
    (todo : list (string * table_state)) :
  NoDup (map fst todo) ->
  forall (histories : list (string * cleanup_history)) (g : rng),
  let '(tds, _, histories') :=
    fst (process_tables server_type period_type growth_pattern todo
           histories g) in
  Forall2 (fun kv td => follows server_type (fst kv) td histories histories')
    todo tds
  /\ (forall k, ~ In k (map fst todo) ->
      Dict.lookup k histories' = Dict.lookup k histories).
Proof.
  induction todo as [|[name ts] rest IH]; intros Hnd histories g.
  - cbn [process_tables ret fst]. split; [constructor|reflexivity].
  - inversion Hnd as [|? ? Hname Hrest]; subst.
    cbn [process_tables]. unfold bindR at 1.
    pose proof (process_table_history server_type period_type growth_pattern
                  name ts histories g) as H1.
    destruct (process_table _ _ _ name ts histories g) as [[[td ts'] h1] g1].
    cbn [fst] in H1. destruct H1 as [Hf Ho].
    unfold bindR. specialize (IH Hrest h1 g1).
    destruct (process_tables _ _ _ rest h1 g1) as [[[tds tss] h2] g2].
    cbn [fst ret] in *. destruct IH as [IH1 IH2]. split.
    + constructor.
      * cbn [fst]. unfold follows in Hf |- *. rewrite (IH2 name Hname).
        exact Hf.
      * clear - IH1 Ho Hname.
        assert (Hin : forall kv, In kv rest -> fst kv <> name).
        { intros kv Hkv E. apply Hname. rewrite <- E. now apply in_map. }
        induction IH1 as [|kv td' l l' Hh _ IHl]; constructor.
        -- unfold follows in *.
           rewrite <- (Ho (fst kv)) by (apply Hin; now left). exact Hh.
        -- apply IHl.
           ++ cbn [map In] in Hname. tauto.
           ++ intros kv' Hkv'. apply Hin. now right.
    + intros k Hk. cbn [map fst In] in Hk.
      rewrite IH2 by tauto. apply Ho. intros ->. tauto.
Qed.

(** X30. The cleanup history that [generate_raw_table_data] keeps: for a
    state whose tables have distinct names, the state afterwards has a
    history, with an entry for every table that follows from the entry
    the table had, the initial one when it had none, by what the period
    reports for it: without cleanup one more period since the last
    cleanup; with a cleanup that count back to zero, success exactly when
    rows were deleted, the failures reset on success and one more
    otherwise.  The entries of names that are not tables are kept. *)
Theorem cleanup_history_follows (s : db_state) (server_type : string)
    (p : period) (g : rng) :
  NoDup (map fst (tables s)) ->
  let '(tds, s') := fst (generate_raw_table_data s server_type p g) in
  exists histories',
    table_cleanup_history s' = Some histories'
    /\ Forall2 (fun kv td =>
         follows server_type (fst kv) td (get (table_cleanup_history s) [])
           histories')
         (tables s) tds
    /\ (forall k, ~ In k (map fst (tables s)) ->
        Dict.lookup k histories'
        = Dict.lookup k (get (table_cleanup_history s) [])).
Proof.
  intros Hnd. unfold generate_raw_table_data. cbv zeta. unfold bindR.
  pose proof (process_tables_history server_type (period_type p)
                (get (growth_pattern s) "stable"%string) (tables s) Hnd
                (get (table_cleanup_history s) []) g) as H.
  destruct (process_tables _ _ _ (tables s) _ g) as [[[tds tss] h] g1].
  cbn [fst ret table_cleanup_history] in *.
  exists h. split; [reflexivity|exact H].
Qed.

Lemma cleanup_history_follows_witness :
  NoDup (map fst (tables
    (DbState None None None None None
       [("Orders"%string, TableState 50000 4000 256 (Some true))] None)))
  /\ let '(tds, s') :=
       fst (generate_raw_table_data
              (DbState None None None None None
                 [("Orders"%string, TableState 50000 4000 256 (Some true))]
                 None)
              "oltp_production"
              (Period "2025-05-01T06:00:00" "2025-05-01T18:00:00" "day")
              (Rng (fun _ => 0%Z) 0)) in
     exists histories',
       table_cleanup_history s' = Some histories'
       /\ Forall2 (fun kv td =>
            follows "oltp_production" (fst kv) td
              (get (table_cleanup_history
                      (DbState None None None None None
                         [("Orders"%string,
                           TableState 50000 4000 256 (Some true))] None)) [])
              histories')
            (tables (DbState None None None None None
                       [("Orders"%string,
                         TableState 50000 4000 256 (Some true))] None)) tds
       /\ (forall k,
           ~ In k (map fst (tables
               (DbState None None None None None
                  [("Orders"%string, TableState 50000 4000 256 (Some true))]
                  None))) ->
           Dict.lookup k histories'
           = Dict.lookup k (get (table_cleanup_history
               (DbState None None None None None
                  [("Orders"%string, TableState 50000 4000 256 (Some true))]
                  None)) [])).
Proof.
  assert (Hn : NoDup (map fst (tables
    (DbState None None None None None
       [("Orders"%string, TableState 50000 4000 256 (Some true))] None)))).
  { cbn. constructor; [intros []|constructor]. }
  split; [exact Hn|].
  exact (cleanup_history_follows
           (DbState None None None None None
              [("Orders"%string, TableState 50000 4000 256 (Some true))] None)
           "oltp_production"
           (Period "2025-05-01T06:00:00" "2025-05-01T18:00:00" "day")
           (Rng (fun _ => 0%Z) 0) Hn).
Defined.

End HistoryExtras.
